(** * MTN MoMo payment bridge: callback reconciliation, status polling,
      phone normalisation and request-to-pay bodies

    A shallow embedding of the JavaScript sources

    - [MoMoCallbackHandler.js]   (webhook endpoint and per-status handlers),
    - [routes/payment.routes.js] (POST /pay, GET /status/:referenceId and a
                                  second copy of the MoMo service functions),
    - [services/momoService.js]  (requestToPay),
    - [utils/phoneFormatter.js]  (formatLiberianPhone),

    followed by the properties established about them.

    Conventions.  JavaScript values are the inductive [jsval]; plain objects
    (request bodies, transaction records, database rows) are finite maps from
    property names to values; the shared [Map] that caches transactions is an
    insertion-ordered association list compared with SameValueZero; awaited
    calls, and [throw], live in a small state-and-exception
    monad over the [world] (cache, orders table, log of fired hooks). *)

From stdpp Require Import gmap strings list fin_maps.
From Stdlib Require Import ZArith String Ascii DecimalString Lia.

Open Scope string_scope.

Set Warnings "-register-all".

(* ===================================================================== *)
(** ** JavaScript values                                                  *)
(* ===================================================================== *)

Module JS.

(** JSON-shaped values.  Numbers are taken integral: the code only tests
    them for truthiness and prints them. *)
Inductive jsval :=
| VUndefined
| VNull
| VBool (b : bool)
| VNum (n : Z)
| VStr (s : string)
| VObj (o : gmap string jsval).

(** A plain object: property name to value. *)
Abbreviation obj := (gmap string jsval).

(** [!!v] of JavaScript (ToBoolean). *)
Definition truthy (v : jsval) : bool :=
  match v with
  | VUndefined | VNull => false
  | VBool b => b
  | VNum n => negb (Z.eqb n 0)
  | VStr s => negb (String.eqb s EmptyString)
  | VObj _ => true
  end.

(** [a || b]. *)
Definition js_or (a b : jsval) : jsval := if truthy a then a else b.

Infix "<||>" := js_or (at level 50, left associativity).

(** [o.k] on an object known to exist: a missing property reads [undefined]. *)
Definition prop (o : obj) (k : string) : jsval := default VUndefined (o !! k).

(** [v.k] on a value that is neither [null] nor [undefined]; the property
    names used by the code are not built-ins of strings, numbers or
    booleans, so those read [undefined]. *)
Definition member (v : jsval) (k : string) : jsval :=
  match v with
  | VObj o => prop o k
  | _ => VUndefined
  end.

(** Decimal rendering of a number, as JavaScript prints the integers below
    10^21 in magnitude. *)
Definition show_num (n : Z) : string := NilZero.string_of_int (Z.to_int n).

(** String coercion, as in a template literal [`${v}`]. *)
Definition to_string (v : jsval) : string :=
  match v with
  | VUndefined => "undefined"
  | VNull => "null"
  | VBool true => "true"
  | VBool false => "false"
  | VNum n => show_num n
  | VStr s => s
  | VObj _ => "[object Object]"
  end.

(** A request header or environment variable: a string or [undefined]. *)
Definition of_opt (h : option string) : jsval :=
  match h with
  | Some s => VStr s
  | None => VUndefined
  end.

(** [{...o, k1: v1, ..., kn: vn}]: later properties overwrite earlier ones. *)
Definition assign (o : obj) (fields : list (string * jsval)) : obj :=
  foldl (fun acc kv => <[kv.1 := kv.2]> acc) o fields.

(** A JavaScript exception reaching the caller, with its message. *)
Inductive thrown (A : Type) :=
| Returned (a : A)
| Raised (msg : string).
Arguments Returned {A} a.
Arguments Raised {A} msg.

(** *** The built-in [Map]

    Keys are compared with SameValueZero.  An object key is only equal to
    itself by identity; every object that reaches the code as a key is
    freshly parsed from a request, hence equal to no stored key. *)
Definition key_eqb (a b : jsval) : bool :=
  match a, b with
  | VUndefined, VUndefined => true
  | VNull, VNull => true
  | VBool x, VBool y => Bool.eqb x y
  | VNum x, VNum y => Z.eqb x y
  | VStr x, VStr y => String.eqb x y
  | _, _ => false
  end.

Definition is_primitive (v : jsval) : bool :=
  match v with
  | VObj _ => false
  | _ => true
  end.

Definition jsmap (V : Type) : Type := list (jsval * V).

Fixpoint map_get {V} (k : jsval) (m : jsmap V) : option V :=
  match m with
  | [] => None
  | (k', v) :: m' => if key_eqb k' k then Some v else map_get k m'
  end.

(** [m.set(k, v)]: replaces the value in place, or appends a new entry. *)
Fixpoint map_set {V} (k : jsval) (v : V) (m : jsmap V) : jsmap V :=
  match m with
  | [] => [(k, v)]
  | (k', v') :: m' =>
      if key_eqb k' k then (k', v) :: m' else (k', v') :: map_set k v m'
  end.

Fixpoint map_delete {V} (k : jsval) (m : jsmap V) : jsmap V :=
  match m with
  | [] => []
  | (k', v') :: m' =>
      if key_eqb k' k then m' else (k', v') :: map_delete k m'
  end.

Definition map_values {V} (m : jsmap V) : list V := List.map snd m.

End JS.

Export JS.

(* ===================================================================== *)
(** ** utils/phoneFormatter.js                                            *)
(* ===================================================================== *)

Module PhoneFormatter.

(** [{ success, phone?, error? }]. *)
Inductive phone_result :=
| PhoneOk (phone : string)
| PhoneError (error : string).

Definition is_digit (c : ascii) : bool :=
  (Nat.leb 48 (nat_of_ascii c)) && (Nat.leb (nat_of_ascii c) 57).

(** [s.replace(/\D/g, empty)].  Strings are byte strings here; every byte of a
    multi-byte character is above the digits, so it is dropped exactly as
    the character is. *)
Fixpoint digits_only (s : string) : string :=
  match s with
  | EmptyString => EmptyString
  | String c s' =>
      if is_digit c then String c (digits_only s') else digits_only s'
  end.

(** [s.replace(/^\+/, empty)]. *)
Definition strip_leading_plus (s : string) : string :=
  match s with
  | String c s' => if Ascii.eqb c "+" then s' else s
  | EmptyString => s
  end.

(** [s.replace(/^0+/, empty)]. *)
Fixpoint strip_leading_zeros (s : string) : string :=
  match s with
  | String c s' => if Ascii.eqb c "0" then strip_leading_zeros s' else s
  | EmptyString => s
  end.

(** The three rewriting steps and the country prefix. *)
Definition normalise (phone : string) : string :=
  let formattedPhone := digits_only phone in
  let formattedPhone := strip_leading_zeros (strip_leading_plus formattedPhone) in
  if String.prefix "231" formattedPhone
  then formattedPhone
  else "231" ++ formattedPhone.

(** Liberia numbers must be 12 digits (231 + 9-digit number). *)
Definition check_length (formattedPhone : string) : phone_result :=
  if negb (Nat.eqb (String.length formattedPhone) 12)
  then PhoneError ("Invalid Liberia MSISDN: " ++ formattedPhone
                   ++ ". Must be 12 digits (231 + 9-digit number)")
  else PhoneOk formattedPhone.

(** [formatLiberianPhone(phone)] on an arbitrary JSON value: a falsy value
    is reported as missing, a string is normalised, and any other truthy
    value has no [replace] method, which raises a [TypeError]. *)
Definition formatLiberianPhone (phone : jsval) : thrown phone_result :=
  if negb (truthy phone) then Returned (PhoneError "Phone number is required")
  else
    match phone with
    | VStr s => Returned (check_length (normalise s))
    | _ => Raised "phone.replace is not a function"
    end.

End PhoneFormatter.

(* ===================================================================== *)
(** ** requestToPay: the body posted to the payment network               *)
(* ===================================================================== *)

(** The [details] argument of [requestToPay(details, accessToken)]. *)
Record details := {
  amount : jsval;
  currency : jsval;
  process_id : jsval;
  phone_no : jsval;
  message : jsval;
}.

(** [v.toString()]: raises on [null] and [undefined]. *)
Definition toString (v : jsval) : thrown string :=
  match v with
  | VUndefined =>
      Raised "Cannot read properties of undefined (reading 'toString')"
  | VNull => Raised "Cannot read properties of null (reading 'toString')"
  | _ => Returned (to_string v)
  end.

Definition payer_party (d : details) : jsval :=
  VObj (assign ∅ [("partyIdType", VStr "MSISDN"); ("partyId", phone_no d)]).

(** services/momoService.js, [requestToPay]: the [requestBody] literal. *)
Module MomoService.

Definition requestBody (d : details) : thrown obj :=
  match toString (amount d) with
  | Raised e => Raised e
  | Returned a =>
      Returned (assign ∅ [
        ("amount", VStr a);
        ("currency", currency d);
        ("externalId", process_id d);
        ("payer", payer_party d);
        ("payerMessage", message d);
        ("payeeNote", message d)])
  end.

End MomoService.

(* ===================================================================== *)
(** ** The orders table behind the Supabase client                        *)
(* ===================================================================== *)

Module Supabase.

Abbreviation row := (gmap string jsval).
Definition table : Type := list row.

(** [.eq(column, value)] on a text column; [NULL] equals nothing. *)
Definition col_eq (column value : string) (r : row) : bool :=
  match r !! column with
  | Some (VStr t) => String.eqb t value
  | _ => false
  end.

Definition select_eq (column value : string) (t : table) : list row :=
  List.filter (col_eq column value) t.

(** [.or(`c1.eq.${v1},c2.eq.${v2}`)].  The two values are interpolated
    into the filter as they are, so this reading holds for values free of
    the characters the filter syntax reserves (comma, dot, colon,
    parentheses, quotes). *)
Definition select_or (c1 v1 c2 v2 : string) (t : table) : list row :=
  List.filter (fun r => col_eq c1 v1 r || col_eq c2 v2 r) t.

(** [.single()]: the row when exactly one matches, an error otherwise. *)
Definition single (rs : list row) : option row :=
  match rs with
  | [r] => Some r
  | _ => None
  end.

Definition is_undefined (v : jsval) : bool :=
  match v with
  | VUndefined => true
  | _ => false
  end.

(** The columns an update writes: the request is sent as JSON, which has
    no [undefined] properties. *)
Definition patch (updateData : obj) (r : row) : row :=
  filter (fun kv => is_undefined kv.2 = false) updateData ∪ r.

(** [.update(updateData).eq(column, value)]. *)
Definition update_eq (updateData : obj) (column value : string) (t : table)
  : table :=
  List.map (fun r => if col_eq column value r then patch updateData r else r) t.

(** [.update(updateData).eq(column, value).select().single()]: a singular
    result is requested, so a request that touches no row or several rows
    fails as a whole. *)
Definition update_eq_single (updateData : obj) (column value : string)
  (t : table) : table * option row :=
  match select_eq column value t with
  | [r] => (update_eq updateData column value t, Some (patch updateData r))
  | _ => (t, None)
  end.

End Supabase.

(* ===================================================================== *)
(** ** The process: configuration, shared state, effects                  *)
(* ===================================================================== *)

(** What a request handler reads but does not change.  One clock reading
    stands for every [new Date().toISOString()] of a request; the two
    library functions of [verifyCallbackSignature] are taken as given, and
    so are the outcomes of the calls to the payment network: the bearer
    token [getAccessToken] resolves to (or none when it throws) and the
    response data of GET requesttopay/{referenceId} ([null] on failure).
    [supabase_rejects] says that the store rejects the requests made while
    the handler runs, as it does when it cannot be reached. *)
Record environment := {
  now : string;
  MOMO_CALLBACK_SECRET : option string;
  callbackListeners : list nat;
  hmac_sha256_hex : string -> string -> string;
  JSON_stringify : jsval -> string;
  supabase_rejects : bool;
  access_token : option string;
  momo_requesttopay : string -> jsval;
  date_now : Z;
}.

(** The side-effect hooks of the per-status handlers. *)
Inductive hook :=
| Listener (i : nat)
| ConfirmationEmail
| InventoryUpdate
| LoyaltyPoints
| OrderFulfillment
| FailureNotification
| FailedTransactionLog.

Definition hook_eqb (a b : hook) : bool :=
  match a, b with
  | Listener i, Listener j => Nat.eqb i j
  | ConfirmationEmail, ConfirmationEmail => true
  | InventoryUpdate, InventoryUpdate => true
  | LoyaltyPoints, LoyaltyPoints => true
  | OrderFulfillment, OrderFulfillment => true
  | FailureNotification, FailureNotification => true
  | FailedTransactionLog, FailedTransactionLog => true
  | _, _ => false
  end.

(** One invocation of a hook: which one, for which transaction reference,
    and the object it was handed. *)
Record event := {
  ev_hook : hook;
  ev_reference : jsval;
  ev_arg : obj;
}.

(** The mutable state shared by the routes: the transaction [Map]
    ([transactionStore], the same object as [pendingTransactions]), the
    orders table when a Supabase client exists, and the hooks fired so far
    (oldest first). *)
Record world := {
  transactionStore : jsmap obj;
  supabase : option Supabase.table;
  fired : list event;
}.

Definition with_store (s : jsmap obj) (w : world) : world :=
  {| transactionStore := s; supabase := supabase w; fired := fired w |}.

Definition with_table (t : Supabase.table) (w : world) : world :=
  {| transactionStore := transactionStore w; supabase := Some t;
     fired := fired w |}.

Definition with_event (e : event) (w : world) : world :=
  {| transactionStore := transactionStore w; supabase := supabase w;
     fired := fired w ++ [e] |}.

(** How many times hook [h] fired for reference [ref]. *)
Definition hook_count (h : hook) (ref : jsval) (l : list event) : nat :=
  List.length (List.filter
            (fun e => hook_eqb (ev_hook e) h && key_eqb (ev_reference e) ref) l).

(** An HTTP response: status code and JSON body. *)
Record response := {
  status_code : Z;
  body : obj;
}.

(** [res.status(code).json(fields)]. *)
Definition json (code : Z) (fields : list (string * jsval)) : response :=
  {| status_code := code; body := assign ∅ fields |}.

(** *** Handlers as state transformers that may throw *)

Definition M (A : Type) : Type := world -> world * thrown A.

Definition ret {A} (a : A) : M A := fun w => (w, Returned a).

Definition throw {A} (msg : string) : M A := fun w => (w, Raised msg).

Definition bind {A B} (m : M A) (k : A -> M B) : M B :=
  fun w =>
    match m w with
    | (w', Returned a) => k a w'
    | (w', Raised e) => (w', Raised e)
    end.

Notation "x <~ m ;; k" := (bind m (fun x => k))
  (at level 100, m at next level, right associativity).
Notation "m ;;; k" := (bind m (fun _ => k))
  (at level 100, right associativity).

(** [try { m } catch (error) { h(error.message) }]. *)
Definition try_catch {A} (m : M A) (h : string -> A) : world -> world * A :=
  fun w =>
    match m w with
    | (w', Returned a) => (w', a)
    | (w', Raised e) => (w', h e)
    end.

Definition lift {A} (r : thrown A) : M A := fun w => (w, r).

Definition store_get (k : jsval) : M (option obj) :=
  fun w => (w, Returned (map_get k (transactionStore w))).

Definition store_set (k : jsval) (v : obj) : M unit :=
  fun w => (with_store (map_set k v (transactionStore w)) w, Returned tt).

Definition emit (h : hook) (ref : jsval) (arg : obj) : M unit :=
  fun w => (with_event {| ev_hook := h; ev_reference := ref; ev_arg := arg |} w,
            Returned tt).

(** [if (supabase)]. *)
Definition connected : M bool :=
  fun w => (w, Returned (match supabase w with Some _ => true | None => false end)).

(** An awaited call on the Supabase client, read as the [data] of the
    [{ data, error }] it resolves to.  The client does not throw: when the
    store rejects the request it resolves with an error and [data: null],
    and the table has been neither read nor changed; a request the store
    takes can still answer with an error of its own, such as [.single()]
    on no row or on several. *)
Definition await_supabase {A} (env : environment)
  (f : Supabase.table -> Supabase.table * option A) : M (option A) :=
  fun w =>
    match supabase w with
    | None => (w, Raised "Cannot read properties of null (reading 'from')")
    | Some t =>
        if supabase_rejects env then (w, Returned None)
        else let '(t', data) := f t in (with_table t' w, Returned data)
    end.

(* ===================================================================== *)
(** ** MoMoCallbackHandler.js                                             *)
(* ===================================================================== *)

Module CallbackHandler.

(** What POST /callback reads from the request: two headers and the body
    as the JSON middleware parsed it, an object. *)
Record request := {
  x_reference_id : option string;
  x_momo_signature : option string;
  req_body : obj;
}.

(** [crypto.timingSafeEqual(Buffer.from(a), Buffer.from(b))]: a
    [RangeError] when the byte lengths differ. *)
Definition timingSafeEqual (a b : string) : thrown bool :=
  if Nat.eqb (String.length a) (String.length b)
  then Returned (String.eqb a b)
  else Raised "Input buffers must have the same byte length".

Definition verifyCallbackSignature (env : environment) (payload : jsval)
  (signature secret : option string) : thrown bool :=
  if negb (truthy (of_opt signature)) || negb (truthy (of_opt secret))
  then Returned true
  else
    let expectedSignature :=
      hmac_sha256_hex env (default EmptyString secret) (JSON_stringify env payload) in
    timingSafeEqual (default EmptyString signature) expectedSignature.

(** [callbackListeners.forEach(listener => try { listener(data) } ...)]. *)
Fixpoint notify_each (ls : list nat) (transactionData : obj) : M unit :=
  match ls with
  | [] => ret tt
  | i :: ls' =>
      emit (Listener i) (prop transactionData "referenceId") transactionData ;;;
      notify_each ls' transactionData
  end.

Definition notifyListeners (env : environment) (transactionData : obj)
  : M unit :=
  notify_each (callbackListeners env) transactionData.

(** The hooks log and return; each is recorded with the reference of the
    transaction being processed. *)
Definition sendConfirmationEmail (ref : jsval) (order : obj) : M bool :=
  emit ConfirmationEmail ref order ;;; ret true.

Definition sendFailureNotification (ref : jsval) (order : obj)
  (reason : jsval) : M bool :=
  emit FailureNotification ref order ;;; ret true.

Definition updateInventory (ref : jsval) (order : obj) : M bool :=
  emit InventoryUpdate ref order ;;; ret true.

Definition awardLoyaltyPoints (ref : jsval) (order : obj) : M bool :=
  emit LoyaltyPoints ref order ;;; ret true.

Definition triggerOrderFulfillment (ref : jsval) (order : obj) : M bool :=
  emit OrderFulfillment ref order ;;; ret true.

Definition logFailedTransaction (transactionData : obj) : M unit :=
  emit FailedTransactionLog (prop transactionData "referenceId")
       transactionData.

(** [.update(updateData).eq("reference_id", ref).select().single()], read
    as [updatedOrder]: the row, or [null] when the client reports an error. *)
Definition update_order (env : environment) (updateData : obj) (ref : jsval)
  : M (option obj) :=
  await_supabase env
    (Supabase.update_eq_single updateData "reference_id" (to_string ref)).

Definition processSuccessfulPayment (env : environment)
  (transactionData : obj) : M obj :=
  db <~ connected ;;
  updatedOrder <~
    (if db : bool then
       update_order env
         (assign ∅ [
            ("payment_status", VStr "SUCCESSFUL");
            ("payment_confirmed_at", VStr (now env));
            ("financial_transaction_id",
               prop transactionData "financialTransactionId" <||> VNull);
            ("callback_received", VBool true);
            ("callback_data", VObj transactionData);
            ("last_status_check", VStr (now env))])
         (prop transactionData "referenceId")
     else ret None) ;;
  let transactionData :=
    <["processedAt" := VStr (now env)]>
      (<["status" := VStr "SUCCESSFUL"]> transactionData) in
  let ref := prop transactionData "referenceId" in
  store_set ref transactionData ;;;
  notifyListeners env transactionData ;;;
  let order := default transactionData updatedOrder in
  sendConfirmationEmail ref order ;;;
  updateInventory ref order ;;;
  awardLoyaltyPoints ref order ;;;
  triggerOrderFulfillment ref order ;;;
  ret order.

Definition processFailedPayment (env : environment)
  (transactionData : obj) (reason : jsval) : M obj :=
  db <~ connected ;;
  updatedOrder <~
    (if db : bool then
       update_order env
         (assign ∅ [
            ("payment_status", VStr "FAILED");
            ("failure_reason", reason <||> VStr "Unknown");
            ("callback_received", VBool true);
            ("callback_data", VObj transactionData);
            ("last_status_check", VStr (now env))])
         (prop transactionData "referenceId")
     else ret None) ;;
  let transactionData :=
    <["processedAt" := VStr (now env)]>
      (<["failureReason" := reason <||> VStr "Unknown"]>
         (<["status" := VStr "FAILED"]> transactionData)) in
  let ref := prop transactionData "referenceId" in
  store_set ref transactionData ;;;
  notifyListeners env transactionData ;;;
  let order := default transactionData updatedOrder in
  sendFailureNotification ref order reason ;;;
  logFailedTransaction transactionData ;;;
  ret order.

Definition processPendingPayment (env : environment)
  (transactionData : obj) : M obj :=
  db <~ connected ;;
  updatedOrder <~
    (if db : bool then
       update_order env
         (assign ∅ [
            ("payment_status", VStr "PENDING");
            ("callback_received", VBool true);
            ("callback_data", VObj transactionData);
            ("last_status_check", VStr (now env))])
         (prop transactionData "referenceId")
     else ret None) ;;
  let transactionData :=
    <["lastUpdated" := VStr (now env)]>
      (<["status" := VStr "PENDING"]> transactionData) in
  store_set (prop transactionData "referenceId") transactionData ;;;
  notifyListeners env transactionData ;;;
  ret (default transactionData updatedOrder).

(** *** POST /callback *)

(** Core transaction identifiers. *)
Definition financialTransactionId (callbackPayload : obj) : jsval :=
  prop callbackPayload "financialTransactionId" <||> VNull.

Definition externalId (callbackPayload : obj) : jsval :=
  prop callbackPayload "externalId" <||> VNull.

Definition referenceId (req : request) : jsval :=
  of_opt (x_reference_id req) <||> prop (req_body req) "referenceId"
    <||> externalId (req_body req).

(** [!referenceId && !externalId && !financialTransactionId]. *)
Definition no_identifier (req : request) : bool :=
  negb (truthy (referenceId req))
  && negb (truthy (externalId (req_body req)))
  && negb (truthy (financialTransactionId (req_body req))).

(** Use the best available identifier. *)
Definition transactionId (req : request) : jsval :=
  referenceId req <||> externalId (req_body req)
    <||> financialTransactionId (req_body req).

Definition status_of (callbackPayload : obj) : jsval :=
  prop callbackPayload "status" <||> VNull.

Definition reason_of (callbackPayload : obj) : jsval :=
  prop callbackPayload "reason" <||> VNull.

Definition payer_of (callbackPayload : obj) : jsval :=
  prop callbackPayload "payer" <||> VObj ∅.

(** The properties the handler writes over the record it found. *)
Definition callback_fields (env : environment) (req : request)
  : list (string * jsval) :=
  let callbackPayload := req_body req in
  let payer := payer_of callbackPayload in
  [ ("referenceId", transactionId req);
    ("financialTransactionId", financialTransactionId callbackPayload);
    ("externalId", externalId callbackPayload);
    ("amount", prop callbackPayload "amount" <||> VNull);
    ("currency", prop callbackPayload "currency" <||> VNull);
    ("status", status_of callbackPayload);
    ("payer", payer);
    ("payerPhone", member payer "partyId" <||> VNull);
    ("payerIdType", member payer "partyIdType" <||> VNull);
    ("payeeNote", prop callbackPayload "payeeNote" <||> VNull);
    ("payerMessage", prop callbackPayload "payerMessage" <||> VNull);
    ("reason", reason_of callbackPayload);
    ("callbackReceivedAt", VStr (now env));
    ("rawCallbackPayload", VObj callbackPayload) ].

(** [transactionData = { ...transactionData, referenceId: transactionId, ... }]. *)
Definition merge_callback (env : environment) (req : request)
  (transactionData : obj) : obj :=
  assign transactionData (callback_fields env req).

(** The record an order row gives when the [Map] has none. *)
Definition from_order (order : obj) (transactionId : jsval) : obj :=
  assign ∅ [
    ("referenceId", prop order "reference_id" <||> transactionId);
    ("orderId", prop order "id");
    ("status", prop order "payment_status");
    ("createdAt", prop order "created_at")].

Definition fresh_record (env : environment) (transactionId : jsval) : obj :=
  assign ∅ [
    ("referenceId", transactionId);
    ("createdAt", VStr (now env))].

(** Existing transaction data: the [Map] first, then the orders table. *)
Definition find_transaction (env : environment) (req : request) : M obj :=
  let transactionId := transactionId req in
  cached <~ store_get transactionId ;;
  match cached with
  | Some transactionData => ret transactionData
  | None =>
      db <~ connected ;;
      if db : bool then
        order <~ await_supabase env (fun t =>
          (t, Supabase.single
                (Supabase.select_or
                   "reference_id" (to_string transactionId)
                   "external_id" (to_string (externalId (req_body req)))
                   t))) ;;
        match order with
        | Some order => ret (from_order order transactionId)
        | None => ret (fresh_record env transactionId)
        end
      else ret (fresh_record env transactionId)
  end.

(** [switch (status)]. *)
Definition dispatch (env : environment) (req : request)
  (transactionData : obj) : M unit :=
  match status_of (req_body req) with
  | VStr s =>
      if String.eqb s "SUCCESSFUL" then
        processSuccessfulPayment env transactionData ;;; ret tt
      else if String.eqb s "FAILED" then
        processFailedPayment env transactionData (reason_of (req_body req)) ;;;
        ret tt
      else if String.eqb s "PENDING" || String.eqb s "CREATED" then
        processPendingPayment env transactionData ;;; ret tt
      else store_set (transactionId req) transactionData
  | _ => store_set (transactionId req) transactionData
  end.

Definition bad_request : response :=
  json 400 [
    ("success", VBool false);
    ("message",
       VStr "Reference ID, External ID, or Financial Transaction ID is required")].

Definition invalid_signature : response :=
  json 401 [
    ("success", VBool false);
    ("message", VStr "Invalid signature")].

(** The acknowledgement; its [processingTime] property, a wall-clock
    difference, is left out. *)
Definition acknowledged (req : request) : response :=
  json 200 [
    ("success", VBool true);
    ("message", VStr "Callback received and processed");
    ("referenceId", transactionId req);
    ("financialTransactionId", financialTransactionId (req_body req));
    ("externalId", externalId (req_body req));
    ("status", status_of (req_body req))].

Definition processing_failed (error_message : string) : response :=
  json 200 [
    ("success", VBool false);
    ("message", VStr "Callback received but processing failed");
    ("error", VStr error_message)].

(** [if (secret && signature)]. *)
Definition signature_checked (env : environment) (req : request) : bool :=
  truthy (of_opt (MOMO_CALLBACK_SECRET env))
  && truthy (of_opt (x_momo_signature req)).

(** [isValid], where the check runs; nothing to reject where it does not. *)
Definition signature_gate (env : environment) (req : request) : thrown bool :=
  if signature_checked env req
  then verifyCallbackSignature env (VObj (req_body req))
         (x_momo_signature req) (MOMO_CALLBACK_SECRET env)
  else Returned true.

(** The body of the route's [try] block. *)
Definition callback_try (env : environment) (req : request) : M response :=
  if no_identifier req then ret bad_request
  else
    isValid <~ lift (signature_gate env req) ;;
    if negb isValid then ret invalid_signature
    else
      transactionData <~ find_transaction env req ;;
      let transactionData := merge_callback env req transactionData in
      dispatch env req transactionData ;;;
      ret (acknowledged req).

(** [router.post("/callback", ...)]. *)
Definition callback (env : environment) (req : request)
  : world -> world * response :=
  try_catch (callback_try env req) processing_failed.

(** A sequence of deliveries, in order of arrival. *)
Fixpoint deliver (env : environment) (reqs : list request) (w : world)
  : world :=
  match reqs with
  | [] => w
  | req :: reqs' => deliver env reqs' (callback env req w).1
  end.

End CallbackHandler.

(* ===================================================================== *)
(** ** routes/payment.routes.js                                           *)
(* ===================================================================== *)

Module PaymentRoutes.

(** *** POST /pay, up to the request-to-pay call *)

Definition missing_fields : response :=
  json 400 [
    ("success", VBool false);
    ("message",
       VStr "Missing required fields: phone and amount are required")].

(** The route's [catch] for an error without an upstream response. *)
Definition payment_error (error_message : string) : response :=
  json 500 [
    ("success", VBool false);
    ("message", VStr error_message <||> VStr "Payment initiation failed");
    ("error", VUndefined)].

(** Validation of [req.body]: an early response, or the formatted phone
    with which the route goes on. *)
Definition pay_validation (reqbody : obj) : response + string :=
  let phone := prop reqbody "phone" in
  let amount := prop reqbody "amount" in
  if negb (truthy phone) || negb (truthy amount) then inl missing_fields
  else
    match PhoneFormatter.formatLiberianPhone phone with
    | Raised e => inl (payment_error e)
    | Returned (PhoneFormatter.PhoneError error) =>
        inl (json 400 [("success", VBool false); ("message", VStr error)])
    | Returned (PhoneFormatter.PhoneOk formattedPhone) => inr formattedPhone
    end.

(** The [details] the route hands to [requestToPay]. *)
Definition pay_details (env : environment) (reqbody : obj)
  (formattedPhone : string) : details :=
  {| amount := prop reqbody "amount";
     currency := VStr "LRD";
     process_id :=
       prop reqbody "externalId" <||> VStr ("ORDER-" ++ show_num (date_now env));
     phone_no := VStr formattedPhone;
     message := prop reqbody "payerMessage" <||> VStr "Payment for order" |}.

(** *** The file's own [requestToPay]

    Its [requestBody] literal has the amount line commented out. *)
Definition requestBody (d : details) : thrown obj :=
  Returned (assign ∅ [
    ("amount", VStr "1.00");
    ("currency", VStr "USD");
    ("externalId", process_id d);
    ("payer", payer_party d);
    ("payerMessage", VStr "Payment for Litway Picks" <||> message d);
    ("payeeNote", VStr "Payment for Litway Picks" <||> message d)]).

(** *** GET /status/:referenceId *)

Definition getAccessToken (env : environment) : M string :=
  match access_token env with
  | Some token => ret token
  | None => throw "Failed to get access token"
  end.

(** Catches its own errors and returns [null] for them. *)
Definition fetchTransactionDetails (env : environment) (referenceId : string)
  (accessToken : string) : M jsval :=
  ret (momo_requesttopay env referenceId).

(** [s === "SUCCESSFUL" || s === "FAILED"]. *)
Definition is_terminal (s : jsval) : bool :=
  match s with
  | VStr s => String.eqb s "SUCCESSFUL" || String.eqb s "FAILED"
  | _ => false
  end.

Definition is_successful (s : jsval) : bool :=
  match s with
  | VStr s => String.eqb s "SUCCESSFUL"
  | _ => false
  end.

Definition from_database (order : obj) : response :=
  json 200 [
    ("success", VBool true);
    ("status", prop order "payment_status");
    ("orderDetails", VObj order);
    ("source", VStr "database")].

Definition from_cache (cached : obj) : response :=
  json 200 [
    ("success", VBool true);
    ("status", prop cached "status" <||> VStr "PENDING");
    ("message", VStr "Transaction is being processed");
    ("source", VStr "cache")].

Definition not_found : response :=
  json 404 [
    ("success", VBool false);
    ("message", VStr "Transaction not found")].

Definition from_momo_api (status transaction : jsval) : response :=
  json 200 [
    ("success", VBool true);
    ("status", status);
    ("data", transaction);
    ("source", VStr "momo_api")].

Definition status_check_failed (error_message : string) : response :=
  json 500 [
    ("success", VBool false);
    ("message", VStr "Failed to check payment status");
    ("error", VStr error_message)].

Definition status_update (env : environment) (transaction : jsval) : obj :=
  let status := member transaction "status" in
  let updateData :=
    assign ∅ [
      ("payment_status", status);
      ("last_status_check", VStr (now env))] in
  let updateData :=
    if truthy (member transaction "financialTransactionId")
    then <["financial_transaction_id" :=
             member transaction "financialTransactionId"]> updateData
    else updateData in
  if is_successful status
  then <["payment_confirmed_at" := VStr (now env)]> updateData
  else updateData.

(** The body of the route's [try] block.  The deferred deletion that the
    route schedules after a terminal status runs five minutes after the
    response and is not part of it. *)
Definition status_try (env : environment) (referenceId : string)
  : M response :=
  db <~ connected ;;
  answered <~
    (if db : bool then
       order <~ await_supabase env (fun t =>
         (t, Supabase.single (Supabase.select_eq "reference_id" referenceId t))) ;;
       match order with
       | Some order =>
           if is_terminal (prop order "payment_status")
           then ret (Some (from_database order))
           else ret None
       | None => ret None
       end
     else ret None) ;;
  match answered with
  | Some res => ret res
  | None =>
      cached <~ store_get (VStr referenceId) ;;
      accessToken <~ getAccessToken env ;;
      transaction <~ fetchTransactionDetails env referenceId accessToken ;;
      if negb (truthy transaction) then
        match cached with
        | Some cached => ret (from_cache cached)
        | None => ret not_found
        end
      else
        let status := member transaction "status" in
        (if db : bool then
           await_supabase env (fun t =>
             (Supabase.update_eq (status_update env transaction)
                "reference_id" referenceId t, Some tt)) ;;;
           ret tt
         else ret tt) ;;;
        match cached with
        | Some cached =>
            store_set (VStr referenceId) (<["status" := status]> cached)
        | None => ret tt
        end ;;;
        ret (from_momo_api status transaction)
  end.

(** [router.get("/status/:referenceId", ...)]. *)
Definition status (env : environment) (referenceId : string)
  : world -> world * response :=
  try_catch (status_try env referenceId) status_check_failed.

End PaymentRoutes.


(* ===================================================================== *)
(** ** MoMoCallbackHandler.js: the debugging routes                       *)
(* ===================================================================== *)

Module CallbackDebug.

(** *** GET /callback/history/:referenceId *)

Definition transaction_not_found (databaseConnected : bool) : response :=
  json 404 [
    ("success", VBool false);
    ("message", VStr "Transaction not found");
    ("databaseConnected", VBool databaseConnected)].

(** [order || inMemoryData], where one of the two exists. *)
Definition order_or_memory (order inMemoryData : option obj) : jsval :=
  match order, inMemoryData with
  | Some order, _ => VObj order
  | None, Some inMemoryData => VObj inMemoryData
  | None, None => VUndefined
  end.

Definition transaction_found (order inMemoryData : option obj)
  (databaseConnected : bool) : response :=
  json 200 [
    ("success", VBool true);
    ("transaction", order_or_memory order inMemoryData);
    ("inMemory", VBool (bool_decide (is_Some inMemoryData)));
    ("inDatabase", VBool (bool_decide (is_Some order)));
    ("databaseConnected", VBool databaseConnected)].

Definition fetch_failed (error_message : string) : response :=
  json 500 [
    ("success", VBool false);
    ("message", VStr "Failed to fetch transaction");
    ("error", VStr error_message)].

Definition history_try (env : environment) (referenceId : string)
  : M response :=
  inMemoryData <~ store_get (VStr referenceId) ;;
  db <~ connected ;;
  order <~
    (if db : bool then
       await_supabase env (fun t =>
         (t, Supabase.single (Supabase.select_eq "reference_id" referenceId t)))
     else ret None) ;;
  match order, inMemoryData with
  | None, None => ret (transaction_not_found db)
  | _, _ => ret (transaction_found order inMemoryData db)
  end.

(** [router.get("/callback/history/:referenceId", ...)]. *)
Definition history (env : environment) (referenceId : string)
  : world -> world * response :=
  try_catch (history_try env referenceId) fetch_failed.

(** *** POST /callback/test

    [random] stands for [Math.random().toString(36).substring(7)]. *)
Definition testCallback (env : environment) (random : string) (reqbody : obj)
  : obj :=
  assign ∅ [
    ("referenceId",
       prop reqbody "referenceId"
         <||> VStr ("test-" ++ show_num (date_now env)));
    ("financialTransactionId", VStr ("TEST-" ++ random));
    ("externalId", prop reqbody "externalId" <||> VStr "ORDER-TEST");
    ("amount", prop reqbody "amount" <||> VStr "100");
    ("currency", prop reqbody "currency" <||> VStr "LRD");
    ("status", prop reqbody "status" <||> VStr "SUCCESSFUL");
    ("payer", VObj (assign ∅ [("partyIdType", VStr "MSISDN");
                              ("partyId", VStr "231770123456")]))].

Definition callback_test (env : environment) (random : string) (reqbody : obj)
  : response :=
  json 200 [
    ("success", VBool true);
    ("message", VStr "Test callback data generated");
    ("testData", VObj (testCallback env random reqbody));
    ("note",
       VStr "Use POST /api/momo/callback with this data to test the actual callback handler")].

End CallbackDebug.

(* ===================================================================== *)
(** ** routes/payment.routes.js: GET /order/:referenceId                  *)
(* ===================================================================== *)

Module OrderRoute.

Definition order_from_database (order : obj) : response :=
  json 200 [
    ("success", VBool true);
    ("order", VObj order);
    ("source", VStr "database")].

Definition order_from_memory (cached : obj) : response :=
  json 200 [
    ("success", VBool true);
    ("order", VObj cached);
    ("source", VStr "memory")].

Definition order_not_found : response :=
  json 404 [
    ("success", VBool false);
    ("message", VStr "Order not found")].

Definition order_try (env : environment) (referenceId : string) : M response :=
  db <~ connected ;;
  if db : bool then
    order <~ await_supabase env (fun t =>
      (t, Supabase.single (Supabase.select_eq "reference_id" referenceId t))) ;;
    match order with
    | Some order => ret (order_from_database order)
    | None => throw "JSON object requested, multiple (or no) rows returned"
    end
  else
    cached <~ store_get (VStr referenceId) ;;
    match cached with
    | Some cached => ret (order_from_memory cached)
    | None => throw "Order not found"
    end.

(** [router.get("/order/:referenceId", ...)]: every error is a 404. *)
Definition order (env : environment) (referenceId : string)
  : world -> world * response :=
  try_catch (order_try env referenceId) (fun _ => order_not_found).

End OrderRoute.

(* ===================================================================== *)
(** ** services/momoService.js: the access token and its cache            *)
(* ===================================================================== *)

Module AccessToken.

(** A [Date]: a time value in milliseconds, or an invalid date. *)
Inductive date :=
| Valid (ms : Z)
| Invalid.

(** [new Date(ms)], where [ms] is a number or [NaN]: time values beyond
    8.64e15 milliseconds give an invalid date. *)
Definition new_Date (ms : option Z) : date :=
  match ms with
  | Some ms =>
      if (Z.abs ms <=? 8640000000000000)%Z then Valid ms else Invalid
  | None => Invalid
  end.

(** The module variables [cachedToken] and [tokenExpiry]; none is [null]. *)
Record cache := {
  cachedToken : option string;
  tokenExpiry : option date;
}.

Definition empty_cache : cache :=
  {| cachedToken := None; tokenExpiry := None |}.

(** The answer to POST /collection/token/: response data and the time it
    arrived, or a rejected request. *)
Inductive reply :=
| Replied (data : jsval) (received_at : Z)
| Rejected.

(** What one call meets outside the process: the reply, and the numeric
    reading the language gives to strings. *)
Record exchange := {
  token_reply : reply;
  string_to_number : string -> option Z;
}.

(** [v?.k]. *)
Definition optional_member (v : jsval) (k : string) : jsval :=
  match v with
  | VUndefined | VNull => VUndefined
  | _ => member v k
  end.

(** Numeric coercion of the left operand of [*]; none is [NaN]. *)
Definition to_number (x : exchange) (v : jsval) : option Z :=
  match v with
  | VUndefined => None
  | VNull => Some 0%Z
  | VBool b => Some (if b then 1 else 0)%Z
  | VNum n => Some n
  | VStr s => string_to_number x s
  | VObj _ => None
  end.

(** [new Date() < tokenExpiry] at time [t]. *)
Definition before (t : Z) (d : date) : bool :=
  match d with
  | Valid ms => (t <? ms)%Z
  | Invalid => false
  end.

(** The request for a new token and what it leaves in the cache. *)
Definition refresh (x : exchange) (c : cache) : cache * thrown string :=
  match token_reply x with
  | Rejected => (c, Raised "Failed to get access token")
  | Replied data received_at =>
      let accessToken := optional_member data "access_token" in
      if negb (truthy accessToken)
      then (c, Raised "Failed to get access token")
      else
        let expiresInMs :=
          (fun n => n * 1000)%Z
            <$> to_number x (optional_member data "expires_in" <||> VNum 3600) in
        let expiry :=
          new_Date ((fun ms => received_at + ms - 300000)%Z <$> expiresInMs) in
        let token := "Bearer " ++ to_string accessToken in
        ({| cachedToken := Some token; tokenExpiry := Some expiry |},
         Returned token)
  end.

(** [getAccessToken()], called at time [t]: the cached token while
    [cachedToken && tokenExpiry && new Date() < tokenExpiry]. *)
Definition getAccessToken (x : exchange) (t : Z) (c : cache)
  : cache * thrown string :=
  match cachedToken c, tokenExpiry c with
  | Some token, Some expiry =>
      if truthy (VStr token) && before t expiry
      then (c, Returned token)
      else refresh x c
  | _, _ => refresh x c
  end.

Definition clearTokenCache (c : cache) : cache := empty_cache.

End AccessToken.

(* ===================================================================== *)
(** ** routes/payment.routes.js: POST /pay                                *)
(* ===================================================================== *)

Module PayRoute.

(** How the request [axios.post(".../requesttopay", requestBody, ...)]
    ends: resolved with a status and data, or rejected with an error that
    carries a message and, when the network answered, the status and data
    of the answer. *)
Inductive posted :=
| Resolved (http_status : Z) (data : jsval)
| Failed (error_message : string) (answer : option (Z * jsval)).

(** What one POST /pay meets outside the process: the identifier
    [uuidv4()] draws, the end of the request-to-pay call, the row the store
    answers an insert with (none when it reports an error), and the two
    numeric functions the order columns go through. *)
Record exchange := {
  uuid : string;
  request_to_pay : posted;
  inserted : obj -> option obj;
  parseFloat : jsval -> jsval;
  floor_times_one : jsval -> jsval;
}.

(** The object of [.insert({...})]. *)
Definition order_columns (env : environment) (x : exchange) (reqbody : obj)
  (formattedPhone : string) : obj :=
  let amount := prop reqbody "amount" in
  let userInfo := prop reqbody "userInfo" in
  let deliveryInfo := prop reqbody "deliveryInfo" in
  let appliedDiscount := prop reqbody "appliedDiscount" in
  let d := PaymentRoutes.pay_details env reqbody formattedPhone in
  assign ∅ [
    ("reference_id", VNull);
    ("external_id", process_id d);
    ("customer_first_name", member userInfo "firstName");
    ("customer_last_name", member userInfo "lastName");
    ("customer_email", member userInfo "email");
    ("customer_phone", VStr formattedPhone);
    ("delivery_address", member deliveryInfo "deliveryAddress");
    ("delivery_city", member deliveryInfo "city" <||> VStr EmptyString);
    ("delivery_state", member deliveryInfo "state" <||> VStr EmptyString);
    ("amount", parseFloat x amount);
    ("currency", currency d);
    ("payment_method", VStr "momo");
    ("payment_status", VStr "PENDING");
    ("items", prop reqbody "items");
    ("subtotal", parseFloat x (prop reqbody "subtotal" <||> amount));
    ("discount",
       if truthy appliedDiscount
       then parseFloat x (member appliedDiscount "discount")
       else VNum 0);
    ("final_total", parseFloat x amount);
    ("points_earned", floor_times_one x amount);
    ("loyalty_discount_applied", appliedDiscount <||> VNull)].

(** [.insert(columns).select().maybeSingle()], read as [order]. *)
Definition insert_order (x : exchange) (columns : obj) (t : Supabase.table)
  : Supabase.table * option obj :=
  match inserted x columns with
  | Some row => ((t ++ [row])%list, Some row)
  | None => (t, None)
  end.

(** [.eq(column, value)] for a value of any type, compared as the filter
    string renders it; [NULL] equals nothing. *)
Definition col_is (column : string) (value : jsval) (r : Supabase.row) : bool :=
  match r !! column with
  | None | Some VNull | Some VUndefined => false
  | Some v => String.eqb (to_string v) (to_string value)
  end.

(** [.update({ reference_id }).eq("id", id)]. *)
Definition set_reference (referenceId : string) (id : jsval)
  (t : Supabase.table) : Supabase.table :=
  List.map
    (fun r =>
       if col_is "id" id r
       then Supabase.patch (assign ∅ [("reference_id", VStr referenceId)]) r
       else r)
    t.

(** The route's [catch]: [error.response?.status || 500] and the message
    and data of the error. *)
Definition payment_failed (error_message : string)
  (answer : option (Z * jsval)) : response :=
  json
    (match answer with
     | Some (s, _) => if Z.eqb s 0 then 500 else s
     | None => 500
     end)%Z
    [ ("success", VBool false);
      ("message", VStr error_message <||> VStr "Payment initiation failed");
      ("error", match answer with Some (_, data) => data | None => VUndefined end) ].

Definition payment_sent (x : exchange) (order : option obj)
  (transaction : jsval) : response :=
  json 200 [
    ("success", VBool true);
    ("message", VStr "Payment request sent to customer's phone");
    ("referenceId", VStr (uuid x));
    ("orderId", match order with Some o => prop o "id" | None => VUndefined end);
    ("transaction", transaction)].

(** The cache entry of a new payment. *)
Definition pending_entry (env : environment) (x : exchange)
  (order : option obj) (transaction : jsval) : obj :=
  assign ∅ [
    ("referenceId", VStr (uuid x));
    ("orderId", match order with Some o => prop o "id" | None => VUndefined end);
    ("status",
       AccessToken.optional_member transaction "status" <||> VStr "PENDING");
    ("timestamp", VNum (date_now env))].

(** [requestToPay(details, accessToken)] of services/momoService.js: the
    transaction it returns, or the response the route's [catch] gives to
    what it throws. *)
Definition requestToPay (env : environment) (x : exchange) (d : details)
  : response + jsval :=
  match MomoService.requestBody d with
  | Raised e => inl (payment_failed e None)
  | Returned requestBody =>
      match request_to_pay x with
      | Failed e answer => inl (payment_failed e answer)
      | Resolved s data =>
          if Z.eqb s 202 || Z.eqb s 201 || Z.eqb s 200
          then inr (momo_requesttopay env (uuid x))
          else
            let message :=
              AccessToken.optional_member data "message" <||> VStr EmptyString in
            inl (payment_failed
                   ("Unable to complete transaction. " ++ to_string message)
                   None)
      end
  end.

(** The body of the route's [try] block. *)
Definition pay_try (env : environment) (x : exchange) (reqbody : obj)
  : M response :=
  match PaymentRoutes.pay_validation reqbody with
  | inl res => ret res
  | inr formattedPhone =>
      db <~ connected ;;
      order <~
        (if db && truthy (prop reqbody "userInfo")
            && truthy (prop reqbody "deliveryInfo")
         then await_supabase env
                (insert_order x (order_columns env x reqbody formattedPhone))
         else ret None) ;;
      accessToken <~ PaymentRoutes.getAccessToken env ;;
      match requestToPay env x
              (PaymentRoutes.pay_details env reqbody formattedPhone) with
      | inl res => ret res
      | inr transaction =>
          match order with
          | Some o =>
              if db : bool
              then await_supabase env (fun t =>
                     (set_reference (uuid x) (prop o "id") t, Some tt)) ;;;
                   ret tt
              else ret tt
          | None => ret tt
          end ;;;
          store_set (VStr (uuid x)) (pending_entry env x order transaction) ;;;
          ret (payment_sent x order transaction)
      end
  end.

(** [router.post("/pay", ...)]. *)
Definition pay (env : environment) (x : exchange) (reqbody : obj)
  : world -> world * response :=
  try_catch (pay_try env x reqbody)
    (fun e => payment_failed e None).

End PayRoute.

(* ===================================================================== *)
(** ** The balance requests                                               *)
(* ===================================================================== *)

Module Balance.

(** config/momo.config.js, as far as these requests read it. *)
Record config := {
  MOMO_BASE_URL : string;
  MOMO_ENVIRONMENT : string;
  MOMO_SUBSCRIPTION_KEY : jsval;
}.

(** The request [axios.get(url, { headers })] is given. *)
Record get_request := {
  url : string;
  headers : list (string * jsval);
}.

(** [getAccountBalance(currency = "LRD", accessToken)]: the default
    replaces an [undefined] argument only. *)
Definition getAccountBalance (cfg : config) (currency accessToken : jsval)
  : get_request :=
  let currency :=
    match currency with
    | VUndefined => VStr "LRD"
    | _ => currency
    end in
  {| url := MOMO_BASE_URL cfg ++ "/collection/v1_0/account/balance/"
            ++ to_string currency;
     headers := [
       ("Authorization", accessToken);
       ("X-Target-Environment", VStr (MOMO_ENVIRONMENT cfg));
       ("Ocp-Apim-Subscription-Key", MOMO_SUBSCRIPTION_KEY cfg)] |}.

(** [testAccountBalance(accessToken)]. *)
Definition testAccountBalance (cfg : config) (accessToken : jsval)
  : get_request :=
  {| url := MOMO_BASE_URL cfg ++ "/collection/v1_0/account/balance";
     headers := [
       ("Authorization", accessToken);
       ("X-Target-Environment", VStr (MOMO_ENVIRONMENT cfg));
       ("Ocp-Apim-Subscription-Key", MOMO_SUBSCRIPTION_KEY cfg)] |}.

(** GET /balance: [getAccountBalance(accessToken)]. *)
Definition balance_request (cfg : config) (accessToken : string)
  : get_request :=
  getAccountBalance cfg (VStr accessToken) VUndefined.

(** GET /test-credentials: [testAccountBalance(token)]. *)
Definition test_credentials_request (cfg : config) (token : string)
  : get_request :=
  testAccountBalance cfg (VStr token).

End Balance.
(* ===================================================================== *)
(** * Vocabulary of the properties                                        *)
(* ===================================================================== *)

Fixpoint all_digits (s : string) : bool :=
  match s with
  | EmptyString => true
  | String c s' => PhoneFormatter.is_digit c && all_digits s'
  end.

(** The status the transaction [Map] holds for a reference. *)
Definition stored_status (w : world) (ref : jsval) : option jsval :=
  (fun transactionData => prop transactionData "status")
    <$> map_get ref (transactionStore w).

(** The listener notifications one call of [notifyListeners] adds. *)
Definition listener_events (env : environment) (transactionData : obj)
  : list event :=
  List.map
    (fun i => {| ev_hook := Listener i;
                 ev_reference := prop transactionData "referenceId";
                 ev_arg := transactionData |})
    (callbackListeners env).

Definition with_events (es : list event) (w : world) : world :=
  {| transactionStore := transactionStore w; supabase := supabase w;
     fired := fired w ++ es |}.

(** There is no store client, or the store takes the requests. *)
Definition store_responds (env : environment) (w : world) : Prop :=
  supabase_rejects env = false \/ supabase w = None.

Definition hook_event (h : hook) (ref : jsval) (arg : obj) : event :=
  {| ev_hook := h; ev_reference := ref; ev_arg := arg |}.

(** The hooks tied to each terminal status, in the order they run. *)
Definition success_hooks : list hook :=
  [ConfirmationEmail; InventoryUpdate; LoyaltyPoints; OrderFulfillment].

Definition failure_hooks : list hook :=
  [FailureNotification; FailedTransactionLog].

Definition terminal_hooks (status : string) : list hook :=
  if String.eqb status "SUCCESSFUL" then success_hooks
  else if String.eqb status "FAILED" then failure_hooks
  else [].

(** The property names POST /callback writes on every delivery. *)
Definition callback_field_names : list string :=
  [ "referenceId"; "financialTransactionId"; "externalId"; "amount";
    "currency"; "status"; "payer"; "payerPhone"; "payerIdType"; "payeeNote";
    "payerMessage"; "reason"; "callbackReceivedAt"; "rawCallbackPayload" ].

(** The places an inbound callback may carry an identifier, in the order of
    preference: the X-Reference-Id header, then the body's [referenceId],
    [externalId] and [financialTransactionId]. *)
Definition identifiers (req : CallbackHandler.request) : list jsval :=
  [ of_opt (CallbackHandler.x_reference_id req);
    prop (CallbackHandler.req_body req) "referenceId";
    prop (CallbackHandler.req_body req) "externalId";
    prop (CallbackHandler.req_body req) "financialTransactionId" ].

(** The first candidate that is present (truthy, as the code tests it). *)
Definition first_present (candidates : list jsval) : option jsval :=
  List.find truthy candidates.

(** *** The lookup of POST /callback *)

(** Letters, digits, hyphen and underscore: none of them is reserved by
    the filter syntax of the store. *)
Definition plain_char (c : ascii) : bool :=
  let n := nat_of_ascii c in
  (Nat.leb 48 n && Nat.leb n 57) || (Nat.leb 65 n && Nat.leb n 90)
  || (Nat.leb 97 n && Nat.leb n 122) || Nat.eqb n 45 || Nat.eqb n 95.

Fixpoint plain (s : string) : bool :=
  match s with
  | EmptyString => true
  | String c s' => plain_char c && plain s'
  end.

(** A value that can be interpolated into an [.or(...)] filter and is
    compared there as its own text: a plain string, [null], or a natural
    number printed in full. *)
Definition filter_safe (v : jsval) : bool :=
  match v with
  | VStr s => plain s
  | VNull => true
  | VNum n => (0 <=? n)%Z && (n <? 10 ^ 21)%Z
  | _ => false
  end.

(** What the orders lookup compares: the resolved identifier with
    [reference_id], and the body's [externalId] with [external_id]. *)
Definition matches (req : CallbackHandler.request) (order : Supabase.row)
  : bool :=
  Supabase.col_eq "reference_id"
    (to_string (CallbackHandler.transactionId req)) order
  || Supabase.col_eq "external_id"
       (to_string (CallbackHandler.externalId (CallbackHandler.req_body req)))
       order.

(** The order the lookup gets: the only matching one, where there is a
    store that takes the request. *)
Definition matching_order (env : environment) (req : CallbackHandler.request)
  (w : world) : option obj :=
  if supabase_rejects env then None
  else supabase w ≫= (fun t => Supabase.single (List.filter (matches req) t)).

(** The record the lookup builds: the cached one, else the one of the
    matching order, else a fresh one. *)
Definition record_found (env : environment) (req : CallbackHandler.request)
  (w : world) : obj :=
  let id := CallbackHandler.transactionId req in
  match map_get id (transactionStore w) with
  | Some transactionData => transactionData
  | None =>
      match matching_order env req w with
      | Some order => CallbackHandler.from_order order id
      | None => CallbackHandler.fresh_record env id
      end
  end.

(** A record that was looked up by the identifier [id] alone: cached
    under it, built from an order that carries it as reference, or
    fresh. *)
Definition looked_up_by (env : environment) (id : jsval) (w : world)
  (transactionData : obj) : Prop :=
  map_get id (transactionStore w) = Some transactionData
  \/ (exists t order,
        supabase w = Some t /\ In order t
        /\ Supabase.col_eq "reference_id" (to_string id) order = true
        /\ transactionData = CallbackHandler.from_order order id)
  \/ transactionData = CallbackHandler.fresh_record env id.

(** C3 as the specification words it, at one delivery: HTTP 400 exactly
    when no identifier is present, no other refusal of a callback that
    carries one, and a lookup by the first identifier present. *)
Definition resolved_as_specified (env : environment)
  (req : CallbackHandler.request) (w : world) : Prop :=
  (status_code (CallbackHandler.callback env req w).2 = 400%Z
   <-> first_present (identifiers req) = None)
  /\ (first_present (identifiers req) <> None ->
      status_code (CallbackHandler.callback env req w).2 = 200%Z)
  /\ (forall id transactionData,
        first_present (identifiers req) = Some id ->
        CallbackHandler.find_transaction env req w
        = (w, Returned transactionData) ->
        looked_up_by env id w transactionData).

(** The same process with other implementations of the two library
    functions behind [verifyCallbackSignature]. *)
Definition with_crypto (hmac : string -> string -> string)
  (stringify : jsval -> string) (env : environment) : environment :=
  {| now := now env;
     MOMO_CALLBACK_SECRET := MOMO_CALLBACK_SECRET env;
     callbackListeners := callbackListeners env;
     hmac_sha256_hex := hmac;
     JSON_stringify := stringify;
     supabase_rejects := supabase_rejects env;
     access_token := access_token env;
     momo_requesttopay := momo_requesttopay env;
     date_now := date_now env |}.

(** *** Status vocabulary of the specification *)

Definition terminal (status : jsval) : Prop :=
  status = VStr "SUCCESSFUL" \/ status = VStr "FAILED".

Definition tentative (status : jsval) : Prop :=
  status = VStr "PENDING" \/ status = VStr "CREATED".

(** The terminal guard, at one delivery: a stored terminal status survives
    a callback that carries a tentative one. *)
Definition terminal_status_kept (env : environment)
  (req : CallbackHandler.request) (w : world) : Prop :=
  forall s,
    stored_status w (CallbackHandler.transactionId req) = Some s ->
    terminal s ->
    tentative (CallbackHandler.status_of (CallbackHandler.req_body req)) ->
    stored_status (CallbackHandler.callback env req w).1
                  (CallbackHandler.transactionId req) = Some s.

(** At-most-once firing of the terminal hooks over a run of deliveries
    that starts with nothing fired. *)
Definition fires_at_most_once (env : environment)
  (reqs : list CallbackHandler.request) (w : world) : Prop :=
  forall h ref,
    In h (success_hooks ++ failure_hooks) ->
    (hook_count h ref (fired (CallbackHandler.deliver env reqs w)) <= 1)%nat.

(** An inbound field that is null or absent. *)
Definition inbound_missing (req : CallbackHandler.request) (k : string)
  : Prop :=
  CallbackHandler.req_body req !! k = None
  \/ CallbackHandler.req_body req !! k = Some VNull.

(** The merge rule of the specification: a populated field survives a
    missing inbound one. *)
Definition populated_fields_kept (env : environment)
  (req : CallbackHandler.request) (transactionData : obj) : Prop :=
  forall k v,
    transactionData !! k = Some v -> truthy v = true ->
    inbound_missing req k ->
    CallbackHandler.merge_callback env req transactionData !! k = Some v.

(** The record fields that take the value of the same-named body field. *)
Definition same_named_fields : list string :=
  [ "financialTransactionId"; "externalId"; "amount"; "currency"; "status";
    "payeeNote"; "payerMessage"; "reason" ].

(** Acknowledgement of every identified callback. *)
Definition always_acknowledged (env : environment)
  (req : CallbackHandler.request) (w : world) : Prop :=
  first_present (identifiers req) <> None ->
  status_code (CallbackHandler.callback env req w).2 = 200%Z.

(** *** Scenario data *)

(** A process without callback secret or listeners, whose store client
    (when there is one) responds and whose payment network knows no
    transaction. *)
Definition default_env : environment :=
  {| now := "2025-12-22T17:00:00.000Z";
     MOMO_CALLBACK_SECRET := None;
     callbackListeners := [];
     hmac_sha256_hex := fun _ _ => EmptyString;
     JSON_stringify := fun _ => EmptyString;
     supabase_rejects := false;
     access_token := Some "Bearer token";
     momo_requesttopay := fun _ => VNull;
     date_now := 1766422800000 |}.

Definition empty_world : world :=
  {| transactionStore := []; supabase := None; fired := [] |}.

(** A callback for reference [ref] that reports [status]. *)
Definition callback_for (ref status : string) : CallbackHandler.request :=
  {| CallbackHandler.x_reference_id := Some ref;
     CallbackHandler.x_momo_signature := None;
     CallbackHandler.req_body :=
       assign ∅ [("externalId", VStr "ORDER-1"); ("status", VStr status)] |}.

(** The world after the SUCCESSFUL callback for R1 reached an empty cache. *)
Definition settled_world : world :=
  CallbackHandler.deliver default_env [callback_for "R1" "SUCCESSFUL"]
    empty_world.

(** A callback for ORDER-1 that carries no reference header but a
    signature of 64 characters that is no hexadecimal digest. *)
Definition forged_callback : CallbackHandler.request :=
  {| CallbackHandler.x_reference_id := None;
     CallbackHandler.x_momo_signature :=
       Some "zzzzzzzzzzzzzzzzzzzzzzzzzzzzzzzzzzzzzzzzzzzzzzzzzzzzzzzzzzzzzzzz";
     CallbackHandler.req_body :=
       assign ∅ [("externalId", VStr "ORDER-1");
                 ("status", VStr "SUCCESSFUL")] |}.

(** A process with a callback secret; the digest stands for any 64
    hexadecimal characters. *)
Definition signing_env : environment :=
  {| now := "2025-12-22T17:00:00.000Z";
     MOMO_CALLBACK_SECRET := Some "s3cret";
     callbackListeners := [];
     hmac_sha256_hex := fun _ _ =>
       "0123456789abcdef0123456789abcdef0123456789abcdef0123456789abcdef";
     JSON_stringify := fun _ => "{}";
     supabase_rejects := false;
     access_token := Some "Bearer token";
     momo_requesttopay := fun _ => VNull;
     date_now := 1766422800000 |}.

(** A callback with the header reference R9 for the order ORDER-1. *)
Definition rerouted_callback : CallbackHandler.request :=
  {| CallbackHandler.x_reference_id := Some "R9";
     CallbackHandler.x_momo_signature := None;
     CallbackHandler.req_body :=
       assign ∅ [("externalId", VStr "ORDER-1");
                 ("status", VStr "SUCCESSFUL")] |}.

(** A callback for R1 whose signature header is shorter than a digest. *)
Definition truncated_signature_callback : CallbackHandler.request :=
  {| CallbackHandler.x_reference_id := Some "R1";
     CallbackHandler.x_momo_signature := Some "abc";
     CallbackHandler.req_body :=
       assign ∅ [("externalId", VStr "ORDER-1");
                 ("status", VStr "SUCCESSFUL")] |}.

(** A process whose store rejects every request. *)
Definition failing_store_env : environment :=
  {| now := "2025-12-22T17:00:00.000Z";
     MOMO_CALLBACK_SECRET := None;
     callbackListeners := [];
     hmac_sha256_hex := fun _ _ => EmptyString;
     JSON_stringify := fun _ => EmptyString;
     supabase_rejects := true;
     access_token := Some "Bearer token";
     momo_requesttopay := fun _ => VNull;
     date_now := 1766422800000 |}.

Definition connected_world : world :=
  {| transactionStore := []; supabase := Some []; fired := [] |}.

(** The record of R1 after its SUCCESSFUL callback carried FT1. *)
Definition paid_record : obj :=
  assign ∅ [("referenceId", VStr "R1");
            ("financialTransactionId", VStr "FT1");
            ("status", VStr "SUCCESSFUL")].

(** The order of ORDER-1 as POST /pay left it: reference REF-1, pending. *)
Definition pending_order : obj :=
  assign ∅ [("id", VNum 17);
            ("reference_id", VStr "REF-1");
            ("external_id", VStr "ORDER-1");
            ("payment_status", VStr "PENDING");
            ("created_at", VStr "2025-12-22T16:55:00.000Z")].

(** After a restart: the order is in the table, the cache is empty. *)
Definition restarted_world : world :=
  {| transactionStore := []; supabase := Some [pending_order]; fired := [] |}.

(** The network's callback for ORDER-1: no reference header. *)
Definition order_callback : CallbackHandler.request :=
  {| CallbackHandler.x_reference_id := None;
     CallbackHandler.x_momo_signature := None;
     CallbackHandler.req_body :=
       assign ∅ [("externalId", VStr "ORDER-1");
                 ("status", VStr "SUCCESSFUL");
                 ("financialTransactionId", VStr "FT1")] |}.

(** A POST /pay body and the [details] the route derives from it. *)
Definition pay_body : obj :=
  assign ∅ [("phone", VStr "0770123456");
            ("amount", VNum 100);
            ("externalId", VStr "ORDER-12345");
            ("payerMessage", VStr "Payment for order")].

Definition order_details : details :=
  {| amount := VNum 100;
     currency := VStr "LRD";
     process_id := VStr "ORDER-12345";
     phone_no := VStr "231770123456";
     message := VStr "Payment for order" |}.

(** *** Sources of a transaction, for GET /status/:referenceId *)

Definition in_store (w : world) (referenceId : string) : Prop :=
  exists t order,
    supabase w = Some t /\ In order t
    /\ Supabase.col_eq "reference_id" referenceId order = true.

Definition in_cache (w : world) (referenceId : string) : Prop :=
  map_get (VStr referenceId) (transactionStore w) <> None.

Definition in_remote (env : environment) (referenceId : string) : Prop :=
  truthy (momo_requesttopay env referenceId) = true.

(** 404 if and only if no source has the record. *)
Definition not_found_iff_absent (env : environment) (referenceId : string)
  (w : world) : Prop :=
  status_code (PaymentRoutes.status env referenceId w).2 = 404%Z
  <-> ~ (in_store w referenceId \/ in_cache w referenceId
         \/ in_remote env referenceId).

(** The orders table holds exactly one row for the reference, and its
    status is terminal: the case the route answers from the database. *)
Definition settled_in_store (w : world) (referenceId : string) : bool :=
  match supabase w with
  | Some t =>
      match Supabase.single (Supabase.select_eq "reference_id" referenceId t) with
      | Some order => PaymentRoutes.is_terminal (prop order "payment_status")
      | None => false
      end
  | None => false
  end.

(** GET /status can answer from the store: the store takes the request
    and holds the reference settled. *)
Definition answered_from_store (env : environment) (w : world)
  (referenceId : string) : bool :=
  negb (supabase_rejects env) && settled_in_store w referenceId.

(** R1 settled in both places: the cache holds its record and the orders
    table its row, both SUCCESSFUL. *)
Definition paid_order : obj :=
  assign ∅ [("id", VNum 21);
            ("reference_id", VStr "R1");
            ("external_id", VStr "ORDER-1");
            ("payment_status", VStr "SUCCESSFUL");
            ("financial_transaction_id", VStr "FT1")].

Definition paid_world : world :=
  {| transactionStore := [(VStr "R1", paid_record)];
     supabase := Some [paid_order];
     fired := [] |}.

(** *** Further vocabulary: what the routes keep and what they touch *)

(** A status the [switch] of POST /callback has a case for. *)
Definition recognized (status : jsval) : bool :=
  match status with
  | VStr s =>
      String.eqb s "SUCCESSFUL" || String.eqb s "FAILED"
      || String.eqb s "PENDING" || String.eqb s "CREATED"
  | _ => false
  end.

(** Every cached record sits under its own [referenceId]. *)
Definition keyed (store : jsmap obj) : Prop :=
  List.Forall (fun kv => prop kv.2 "referenceId" = kv.1) store.

(** The columns that identify an order. *)
Definition key_columns : list string := ["id"; "reference_id"; "external_id"].

Definition keys_of (r : Supabase.row) : list (option jsval) :=
  List.map (fun c => r !! c) key_columns.

(** The update objects of the three per-status handlers. *)
Definition success_update (env : environment) (transactionData : obj) : obj :=
  assign ∅ [
    ("payment_status", VStr "SUCCESSFUL");
    ("payment_confirmed_at", VStr (now env));
    ("financial_transaction_id",
       prop transactionData "financialTransactionId" <||> VNull);
    ("callback_received", VBool true);
    ("callback_data", VObj transactionData);
    ("last_status_check", VStr (now env))].

Definition failure_update (env : environment) (transactionData : obj)
  (reason : jsval) : obj :=
  assign ∅ [
    ("payment_status", VStr "FAILED");
    ("failure_reason", reason <||> VStr "Unknown");
    ("callback_received", VBool true);
    ("callback_data", VObj transactionData);
    ("last_status_check", VStr (now env))].

Definition pending_update (env : environment) (transactionData : obj) : obj :=
  assign ∅ [
    ("payment_status", VStr "PENDING");
    ("callback_received", VBool true);
    ("callback_data", VObj transactionData);
    ("last_status_check", VStr (now env))].

(** The orders table after one update by reference, when there is one. *)
Definition updated_by_reference (updateData : obj) (ref : jsval)
  (table : option Supabase.table) : option Supabase.table :=
  (fun t => (Supabase.update_eq_single updateData "reference_id"
               (to_string ref) t).1) <$> table.

(** What such an update answers: the updated row, if exactly one. *)
Definition updated_row (updateData : obj) (ref : jsval)
  (table : option Supabase.table) : option obj :=
  table ≫= (fun t => (Supabase.update_eq_single updateData "reference_id"
                         (to_string ref) t).2).

(** The same two, for a store that may reject the request: then no row
    changes and none is answered. *)
Definition table_after (env : environment) (updateData : obj) (ref : jsval)
  (table : option Supabase.table) : option Supabase.table :=
  if supabase_rejects env then table
  else updated_by_reference updateData ref table.

Definition row_after (env : environment) (updateData : obj) (ref : jsval)
  (table : option Supabase.table) : option obj :=
  if supabase_rejects env then None
  else updated_row updateData ref table.

(** The hooks a processed callback invokes, by kind, in order. *)
Definition hooks_invoked (env : environment) (status : jsval) : list hook :=
  if recognized status
  then (List.map Listener (callbackListeners env)
        ++ match status with
           | VStr s => terminal_hooks s
           | _ => []
           end)%list
  else [].

(** The token cache is empty or holds a bearer token. *)
Definition bearer (token : string) : Prop := String.prefix "Bearer " token = true.

(** Row by row, in order: the same key columns, and the same row where it
    does not carry the reference. *)
Definition same_orders (ref : string) (t t' : Supabase.table) : Prop :=
  List.Forall2
    (fun r r' =>
       keys_of r' = keys_of r
       /\ (Supabase.col_eq "reference_id" ref r = false -> r' = r))
    t t'.

(** A process with two registered listeners. *)
Definition listening_env : environment :=
  {| now := "2025-12-22T17:00:00.000Z";
     MOMO_CALLBACK_SECRET := None;
     callbackListeners := [0%nat; 1%nat];
     hmac_sha256_hex := fun _ _ => EmptyString;
     JSON_stringify := fun _ => EmptyString;
     supabase_rejects := false;
     access_token := Some "Bearer token";
     momo_requesttopay := fun _ => VNull;
     date_now := 1766422800000 |}.

(** A FAILED callback for R1 that gives no reason. *)
Definition failed_callback : CallbackHandler.request :=
  {| CallbackHandler.x_reference_id := Some "R1";
     CallbackHandler.x_momo_signature := None;
     CallbackHandler.req_body :=
       assign ∅ [("externalId", VStr "ORDER-1"); ("status", VStr "FAILED")] |}.

(** The SUCCESSFUL callback for R1 that carries FT1. *)
Definition paid_callback : CallbackHandler.request :=
  {| CallbackHandler.x_reference_id := Some "R1";
     CallbackHandler.x_momo_signature := None;
     CallbackHandler.req_body :=
       assign ∅ [("externalId", VStr "ORDER-1");
                 ("status", VStr "SUCCESSFUL");
                 ("financialTransactionId", VStr "FT1")] |}.

(** R1 pending in both places, with the order id the cache got at POST
    /pay. *)
Definition unpaid_order : obj :=
  assign ∅ [("id", VNum 21);
            ("reference_id", VStr "R1");
            ("external_id", VStr "ORDER-1");
            ("payment_status", VStr "PENDING")].

Definition unpaid_world : world :=
  {| transactionStore :=
       [(VStr "R1",
         assign ∅ [("referenceId", VStr "R1"); ("orderId", VNum 21);
                   ("status", VStr "PENDING")])];
     supabase := Some [unpaid_order];
     fired := [] |}.

(** The delivery of a body without headers. *)
Definition bare_callback (payload : obj) : CallbackHandler.request :=
  {| CallbackHandler.x_reference_id := None;
     CallbackHandler.x_momo_signature := None;
     CallbackHandler.req_body := payload |}.

(** The order row GET routes read for a reference: the single one. *)
Definition order_of (w : world) (referenceId : string) : option obj :=
  supabase w ≫= (fun t =>
    Supabase.single (Supabase.select_eq "reference_id" referenceId t)).

(** The world and the answer GET /status/:referenceId leaves when it
    polled the payment network and got a transaction. *)
Definition polled (env : environment) (referenceId : string) (w : world)
  : world * response :=
  let transaction := momo_requesttopay env referenceId in
  let status := member transaction "status" in
  ({| transactionStore :=
        match map_get (VStr referenceId) (transactionStore w) with
        | Some cached =>
            map_set (VStr referenceId) (<["status" := status]> cached)
              (transactionStore w)
        | None => transactionStore w
        end;
      supabase :=
        Supabase.update_eq (PaymentRoutes.status_update env transaction)
          "reference_id" referenceId <$> supabase w;
      fired := fired w |},
   PaymentRoutes.from_momo_api status transaction).

(** The same where the store rejects the update: only the cache entry
    changes. *)
Definition polled_unsaved (env : environment) (referenceId : string)
  (w : world) : world * response :=
  let transaction := momo_requesttopay env referenceId in
  let status := member transaction "status" in
  ({| transactionStore :=
        match map_get (VStr referenceId) (transactionStore w) with
        | Some cached =>
            map_set (VStr referenceId) (<["status" := status]> cached)
              (transactionStore w)
        | None => transactionStore w
        end;
      supabase := supabase w;
      fired := fired w |},
   PaymentRoutes.from_momo_api status transaction).

(** The payment network reports R1 as SUCCESSFUL with FT1. *)
Definition reporting_env : environment :=
  {| now := "2025-12-22T17:00:00.000Z";
     MOMO_CALLBACK_SECRET := None;
     callbackListeners := [0%nat; 1%nat];
     hmac_sha256_hex := fun _ _ => EmptyString;
     JSON_stringify := fun _ => EmptyString;
     supabase_rejects := false;
     access_token := Some "Bearer token";
     momo_requesttopay := fun _ =>
       VObj (assign ∅ [("status", VStr "SUCCESSFUL");
                       ("financialTransactionId", VStr "FT1")]);
     date_now := 1766422800000 |}.

(** The token exchange fails. *)
Definition tokenless_env : environment :=
  {| now := "2025-12-22T17:00:00.000Z";
     MOMO_CALLBACK_SECRET := None;
     callbackListeners := [];
     hmac_sha256_hex := fun _ _ => EmptyString;
     JSON_stringify := fun _ => EmptyString;
     supabase_rejects := false;
     access_token := None;
     momo_requesttopay := fun _ => VNull;
     date_now := 1766422800000 |}.

(** The cached token, if any, is a bearer token. *)
Definition bearer_cache (c : AccessToken.cache) : Prop :=
  forall token, AccessToken.cachedToken c = Some token -> bearer token.

(** At time [t] the cache has no token to hand out. *)
Definition stale (t : Z) (c : AccessToken.cache) : bool :=
  match AccessToken.cachedToken c, AccessToken.tokenExpiry c with
  | Some token, Some expiry =>
      negb (truthy (VStr token) && AccessToken.before t expiry)
  | _, _ => true
  end.

(** The token endpoint answers at 10:00:00.000 with a token good for one
    hour; then it is down. *)
Definition hour_token : AccessToken.exchange :=
  {| AccessToken.token_reply :=
       AccessToken.Replied
         (VObj (assign ∅ [("access_token", VStr "abc");
                          ("expires_in", VNum 3600)]))
         36000000;
     AccessToken.string_to_number := fun _ => None |}.

Definition token_endpoint_down : AccessToken.exchange :=
  {| AccessToken.token_reply := AccessToken.Rejected;
     AccessToken.string_to_number := fun _ => None |}.

(** The endpoint answers with an expiry that is no number. *)
Definition unreadable_expiry : AccessToken.exchange :=
  {| AccessToken.token_reply :=
       AccessToken.Replied
         (VObj (assign ∅ [("access_token", VStr "abc");
                          ("expires_in", VStr "soon")]))
         36000000;
     AccessToken.string_to_number := fun _ => None |}.

(** The order POST /pay creates: none without a store, without customer
    and delivery data, or when the store reports an error. *)
Definition new_order (env : environment) (x : PayRoute.exchange)
  (reqbody : obj) (formattedPhone : string) (w : world) : option obj :=
  match supabase w with
  | Some _ =>
      if truthy (prop reqbody "userInfo") && truthy (prop reqbody "deliveryInfo")
      then PayRoute.inserted x
             (PayRoute.order_columns env x reqbody formattedPhone)
      else None
  | None => None
  end.

(** The payment network took the request. *)
Definition accepted (x : PayRoute.exchange) : bool :=
  match PayRoute.request_to_pay x with
  | PayRoute.Resolved s _ => Z.eqb s 202 || Z.eqb s 201 || Z.eqb s 200
  | PayRoute.Failed _ _ => false
  end.

(** The world and the answer POST /pay leaves when the request went
    through. *)
Definition paid (env : environment) (x : PayRoute.exchange) (reqbody : obj)
  (formattedPhone : string) (w : world) : world * response :=
  let order := new_order env x reqbody formattedPhone w in
  let transaction := momo_requesttopay env (PayRoute.uuid x) in
  ({| transactionStore :=
        map_set (VStr (PayRoute.uuid x))
          (PayRoute.pending_entry env x order transaction)
          (transactionStore w);
      supabase :=
        (fun t =>
           match order with
           | Some o =>
               PayRoute.set_reference (PayRoute.uuid x) (prop o "id")
                 (t ++ [o])%list
           | None => t
           end) <$> supabase w;
      fired := fired w |},
   PayRoute.payment_sent x order transaction).

(** A checkout with customer and delivery data. *)
Definition checkout_body : obj :=
  assign pay_body [
    ("userInfo",
       VObj (assign ∅ [("firstName", VStr "Ada"); ("lastName", VStr "Doe");
                       ("email", VStr "ada@example.com")]));
    ("deliveryInfo",
       VObj (assign ∅ [("deliveryAddress", VStr "Broad Street");
                       ("city", VStr "Monrovia")]))].

(** The network takes the request as R7 and the store numbers the order
    21. *)
Definition accepting : PayRoute.exchange :=
  {| PayRoute.uuid := "R7";
     PayRoute.request_to_pay := PayRoute.Resolved 202 VUndefined;
     PayRoute.inserted := fun columns => Some (<["id" := VNum 21]> columns);
     PayRoute.parseFloat := fun v => v;
     PayRoute.floor_times_one := fun v => v |}.

(** The network refuses the request. *)
Definition refusing : PayRoute.exchange :=
  {| PayRoute.uuid := "R7";
     PayRoute.request_to_pay :=
       PayRoute.Failed "Request failed with status code 500"
         (Some (500%Z, VObj ∅));
     PayRoute.inserted := fun columns => Some (<["id" := VNum 21]> columns);
     PayRoute.parseFloat := fun v => v;
     PayRoute.floor_times_one := fun v => v |}.

(** The SUCCESSFUL callback for R7. *)
Definition checkout_callback : CallbackHandler.request :=
  {| CallbackHandler.x_reference_id := Some "R7";
     CallbackHandler.x_momo_signature := None;
     CallbackHandler.req_body :=
       assign ∅ [("externalId", VStr "ORDER-12345");
                 ("status", VStr "SUCCESSFUL");
                 ("financialTransactionId", VStr "FT7")] |}.

(* ===================================================================== *)
(** * Properties                                                          *)
(* ===================================================================== *)

(** ** Phone normalisation *)

Section PhoneNormalisation.

Import PhoneFormatter.

Lemma digits_only_all_digits s : all_digits (digits_only s) = true.
Proof.
  induction s as [|c s IH]; simpl; [reflexivity|].
  destruct (is_digit c) eqn:Hc; simpl; [rewrite Hc|]; exact IH.
Qed.

Lemma strip_leading_plus_all_digits s :
  all_digits s = true -> all_digits (strip_leading_plus s) = true.
Proof.
  destruct s as [|c s]; simpl; [tauto|].
  destruct (Ascii.eqb c "+"); simpl; [|tauto].
  intros H. apply andb_prop in H. tauto.
Qed.

Lemma strip_leading_zeros_all_digits s :
  all_digits s = true -> all_digits (strip_leading_zeros s) = true.
Proof.
  induction s as [|c s IH]; simpl; [tauto|].
  destruct (Ascii.eqb c "0"); simpl; [|tauto].
  intros H. apply andb_prop in H. tauto.
Qed.

Lemma prefix_231_app s : String.prefix "231" ("231" ++ s) = true.
Proof. simpl. destruct s; reflexivity. Qed.

Lemma normalise_all_digits phone : all_digits (normalise phone) = true.
Proof.
  unfold normalise.
  pose proof (strip_leading_zeros_all_digits _
                (strip_leading_plus_all_digits _ (digits_only_all_digits phone)))
    as H.
  set (s := strip_leading_zeros (strip_leading_plus (digits_only phone))) in *.
  destruct (String.prefix "231" s); [exact H|].
  simpl. exact H.
Qed.

Lemma normalise_prefix phone : String.prefix "231" (normalise phone) = true.
Proof.
  unfold normalise.
  set (s := strip_leading_zeros (strip_leading_plus (digits_only phone))).
  destruct (String.prefix "231" s) eqn:Hp; [exact Hp|apply prefix_231_app].
Qed.

Lemma nonempty_truthy s : s <> EmptyString -> truthy (VStr s) = true.
Proof.
  intros H. simpl. destruct (String.eqb s EmptyString) eqn:E; [|reflexivity].
  apply String.eqb_eq in E. contradiction.
Qed.

(** C8.  For a non-empty phone string, [formatLiberianPhone] either returns
    the normalised number, which then has exactly 12 characters, all of
    them digits, and starts with the country prefix 231, or it reports an
    error, which happens exactly when the normalised number does not have
    12 characters; POST /pay continues with the number in the first case
    and answers HTTP 400 in the second.  The input 0770123456 normalises
    to 231770123456. *)
Theorem formatLiberianPhone_normalises (phone : string) (reqbody : obj) :
  phone <> EmptyString ->
  prop reqbody "phone" = VStr phone ->
  truthy (prop reqbody "amount") = true ->
  let n := normalise phone in
  (String.prefix "231" n = true /\ all_digits n = true)
  /\ ((String.length n = 12%nat
       /\ formatLiberianPhone (VStr phone) = Returned (PhoneOk n)
       /\ PaymentRoutes.pay_validation reqbody = inr n)
      \/ (String.length n <> 12%nat
          /\ (exists e, formatLiberianPhone (VStr phone) = Returned (PhoneError e))
          /\ (exists res, PaymentRoutes.pay_validation reqbody = inl res
                          /\ status_code res = 400%Z)))
  /\ formatLiberianPhone (VStr "0770123456") = Returned (PhoneOk "231770123456").
Proof.
  intros Hne Hphone Hamount n.
  split; [split; [apply normalise_prefix|apply normalise_all_digits]|].
  split; [|reflexivity].
  unfold PaymentRoutes.pay_validation. rewrite Hphone, Hamount.
  unfold formatLiberianPhone. rewrite (nonempty_truthy _ Hne). simpl negb.
  cbv iota. unfold check_length. fold n.
  destruct (Nat.eqb (String.length n) 12) eqn:Hlen; simpl.
  - left. apply Nat.eqb_eq in Hlen. auto.
  - right. apply Nat.eqb_neq in Hlen. split; [exact Hlen|].
    split; eexists; [reflexivity|]. split; reflexivity.
Qed.

Lemma formatLiberianPhone_normalises_witness :
  let reqbody : obj := assign ∅ [("phone", VStr "0770123456"); ("amount", VNum 100)] in
  let n := normalise "0770123456" in
  (String.prefix "231" n = true /\ all_digits n = true)
  /\ ((String.length n = 12%nat
       /\ formatLiberianPhone (VStr "0770123456") = Returned (PhoneOk n)
       /\ PaymentRoutes.pay_validation reqbody = inr n)
      \/ (String.length n <> 12%nat
          /\ (exists e, formatLiberianPhone (VStr "0770123456")
                        = Returned (PhoneError e))
          /\ (exists res, PaymentRoutes.pay_validation reqbody = inl res
                          /\ status_code res = 400%Z)))
  /\ formatLiberianPhone (VStr "0770123456") = Returned (PhoneOk "231770123456").
Proof.
  apply (formatLiberianPhone_normalises "0770123456"
           (assign ∅ [("phone", VStr "0770123456"); ("amount", VNum 100)])).
  - discriminate.
  - reflexivity.
  - reflexivity.
Defined.

End PhoneNormalisation.

(** ** Objects, the transaction [Map] and the handler monad *)

Section Infrastructure.

Lemma assign_cons (o : obj) k v fields :
  assign o ((k, v) :: fields) = assign (<[k := v]> o) fields.
Proof. reflexivity. Qed.

Lemma assign_lookup_other (fields : list (string * jsval)) (o : obj) k :
  ~ In k (List.map fst fields) -> assign o fields !! k = o !! k.
Proof.
  revert o. induction fields as [|[k' v'] fields IH]; intros o Hk.
  - reflexivity.
  - rewrite assign_cons, IH.
    + apply lookup_insert_ne. intros ->. apply Hk. now left.
    + intros Hin. apply Hk. now right.
Qed.

Lemma assign_lookup_field (fields : list (string * jsval)) (o : obj) k v :
  List.NoDup (List.map fst fields) -> In (k, v) fields ->
  assign o fields !! k = Some v.
Proof.
  revert o. induction fields as [|[k' v'] fields IH]; intros o Hnd Hin.
  - destruct Hin.
  - rewrite assign_cons. simpl in Hnd. inversion Hnd as [|? ? Hk' Hnd']; subst.
    destruct Hin as [Heq|Hin].
    + inversion Heq; subst. rewrite assign_lookup_other by exact Hk'.
      apply lookup_insert_eq.
    + apply IH; assumption.
Qed.

Lemma prop_lookup (o : obj) k v : o !! k = Some v -> prop o k = v.
Proof. unfold prop. now intros ->. Qed.

Lemma prop_insert_eq (o : obj) k v : prop (<[k := v]> o) k = v.
Proof. unfold prop. now rewrite lookup_insert_eq. Qed.

Lemma prop_insert_ne (o : obj) k k' v :
  k <> k' -> prop (<[k := v]> o) k' = prop o k'.
Proof. intros H. unfold prop. now rewrite lookup_insert_ne. Qed.

Lemma key_eqb_refl k : is_primitive k = true -> key_eqb k k = true.
Proof.
  destruct k as [| |b|n|s|o]; simpl; try reflexivity; try discriminate; intros _.
  - now destruct b.
  - apply Z.eqb_refl.
  - apply String.eqb_refl.
Qed.

Lemma map_get_set_same {V} (k : jsval) (v : V) (m : jsmap V) :
  key_eqb k k = true -> map_get k (map_set k v m) = Some v.
Proof.
  intros Hk. induction m as [|[k' v'] m IH]; simpl.
  - now rewrite Hk.
  - destruct (key_eqb k' k) eqn:E; simpl; rewrite E; [reflexivity|exact IH].
Qed.

Lemma with_table_same t w : supabase w = Some t -> with_table t w = w.
Proof. destruct w; simpl; intros ->; reflexivity. Qed.

Lemma hook_count_app h ref l1 l2 :
  hook_count h ref (l1 ++ l2) = (hook_count h ref l1 + hook_count h ref l2)%nat.
Proof. unfold hook_count. now rewrite List.filter_app, List.length_app. Qed.

Lemma notify_each_run ls td w :
  CallbackHandler.notify_each ls td w =
  (with_events
     (List.map (fun i => {| ev_hook := Listener i;
                            ev_reference := prop td "referenceId";
                            ev_arg := td |}) ls) w,
   Returned tt).
Proof.
  revert w. induction ls as [|i ls IH]; intros w; simpl.
  - unfold ret, with_events. rewrite List.app_nil_r. now destruct w.
  - unfold bind, emit. simpl. rewrite IH. unfold with_events, with_event. simpl.
    now rewrite <- List.app_assoc.
Qed.

(** *** The orders table *)

Lemma patch_lookup_written (updateData : obj) (r : Supabase.row) k v :
  updateData !! k = Some v -> Supabase.is_undefined v = false ->
  Supabase.patch updateData r !! k = Some v.
Proof.
  intros Hk Hv. unfold Supabase.patch.
  assert (Hf : filter (fun kv : string * jsval =>
                         Supabase.is_undefined kv.2 = false) updateData !! k
               = Some v)
    by (apply map_lookup_filter_Some_2; [exact Hk|exact Hv]).
  rewrite lookup_union_l'; [exact Hf|eexists; exact Hf].
Qed.

Lemma patch_lookup_other (updateData : obj) (r : Supabase.row) k :
  updateData !! k = None -> Supabase.patch updateData r !! k = r !! k.
Proof.
  intros Hk. unfold Supabase.patch. apply lookup_union_r.
  apply map_lookup_filter_None_2. now left.
Qed.

Lemma col_eq_patch (updateData : obj) (r : Supabase.row) c v :
  updateData !! c = None ->
  Supabase.col_eq c v (Supabase.patch updateData r) = Supabase.col_eq c v r.
Proof.
  intros Hc. unfold Supabase.col_eq. now rewrite patch_lookup_other.
Qed.

Lemma select_eq_update_eq (updateData : obj) c v (t : Supabase.table) :
  updateData !! c = None ->
  Supabase.select_eq c v (Supabase.update_eq updateData c v t)
  = List.map (Supabase.patch updateData) (Supabase.select_eq c v t).
Proof.
  intros Hc. unfold Supabase.select_eq, Supabase.update_eq.
  induction t as [|r t IH]; [reflexivity|]. simpl.
  destruct (Supabase.col_eq c v r) eqn:E.
  - rewrite col_eq_patch, E by exact Hc. simpl. now rewrite IH.
  - rewrite E. exact IH.
Qed.

(** An update that does not write the key column, applied where exactly
    one row has the key, leaves exactly that row under the key, patched. *)
Lemma update_eq_single_row (updateData : obj) c v (t : Supabase.table) order :
  updateData !! c = None ->
  Supabase.single (Supabase.select_eq c v t) = Some order ->
  Supabase.single
    (Supabase.select_eq c v (Supabase.update_eq_single updateData c v t).1)
  = Some (Supabase.patch updateData order).
Proof.
  intros Hc Hone. unfold Supabase.update_eq_single.
  destruct (Supabase.select_eq c v t) as [|r [|r' rs]] eqn:E;
    try discriminate Hone.
  simpl in Hone. inversion Hone; subst r. simpl.
  now rewrite select_eq_update_eq, E.
Qed.

End Infrastructure.

(** ** The per-status handlers *)

Section Handlers.

Import CallbackHandler.

Variable env : environment.

Lemma bind_returned {A B} (m : M A) (k : A -> M B) w w' a :
  m w = (w', Returned a) -> bind m k w = k a w'.
Proof. unfold bind. now intros ->. Qed.

Lemma bind_raised {A B} (m : M A) (k : A -> M B) w w' e :
  m w = (w', Raised e) -> bind m k w = (w', Raised e).
Proof. unfold bind. now intros ->. Qed.

(** The orders table after [.update(updateData).eq("reference_id", ref)
    .select().single()]. *)
Lemma update_if_connected (updateData : obj) (ref : jsval) w :
  store_responds env w ->
  exists w' updatedOrder,
    (if (match supabase w with Some _ => true | None => false end)
     then update_order env updateData ref else ret None) w
    = (w', Returned updatedOrder)
    /\ transactionStore w' = transactionStore w
    /\ fired w' = fired w
    /\ supabase w'
       = (fun t => (Supabase.update_eq_single updateData "reference_id"
                      (to_string ref) t).1) <$> supabase w.
Proof.
  intros Hok. destruct (supabase w) as [t|] eqn:Ht.
  - destruct Hok as [Hok|Hok]; [|congruence].
    unfold update_order, await_supabase. rewrite Hok, Ht.
    destruct (Supabase.update_eq_single _ _ _ t) as [t' r] eqn:E.
    eexists _, _. split; [reflexivity|]. split; [reflexivity|].
    split; [reflexivity|]. simpl. now rewrite E.
  - eexists _, _. split; [reflexivity|]. split; [reflexivity|].
    split; [reflexivity|]. simpl. exact Ht.
Qed.

Lemma processPendingPayment_run (transactionData : obj) w :
  store_responds env w ->
  let stored :=
    <["lastUpdated" := VStr (now env)]>
      (<["status" := VStr "PENDING"]> transactionData) in
  exists w' res,
    processPendingPayment env transactionData w = (w', Returned res)
    /\ transactionStore w'
       = map_set (prop stored "referenceId") stored (transactionStore w)
    /\ fired w' = (fired w ++ listener_events env stored)%list
    /\ exists updateData : obj,
         updateData !! "payment_status" = Some (VStr "PENDING")
         /\ updateData !! "reference_id" = None
         /\ supabase w'
            = (fun t => (Supabase.update_eq_single updateData "reference_id"
                           (to_string (prop transactionData "referenceId"))
                           t).1) <$> supabase w.
Proof.
  intros Hok stored. unfold processPendingPayment.
  rewrite (bind_returned _ _ w w _ eq_refl).
  match goal with
  | |- context [update_order env ?u ?r] =>
      destruct (update_if_connected u r w Hok)
        as (w1 & upd & Hrun & Hst & Hf & Hdb);
      assert (Hu : u !! "payment_status" = Some (VStr "PENDING")
                   /\ u !! "reference_id" = None)
        by (split; reflexivity)
  end.
  rewrite (bind_returned _ _ _ _ _ Hrun).
  fold stored.
  rewrite (bind_returned _ _ _ _ _ eq_refl).
  unfold notifyListeners.
  rewrite (bind_returned _ _ _ _ _ (notify_each_run _ _ _)).
  eexists _, _. split; [reflexivity|]. simpl. rewrite Hst, Hf.
  split; [reflexivity|]. split; [reflexivity|].
  eexists. split; [apply Hu|]. split; [apply Hu|]. exact Hdb.
Qed.

Lemma processSuccessfulPayment_run (transactionData : obj) w :
  store_responds env w ->
  let stored :=
    <["processedAt" := VStr (now env)]>
      (<["status" := VStr "SUCCESSFUL"]> transactionData) in
  let ref := prop stored "referenceId" in
  exists w' order,
    processSuccessfulPayment env transactionData w = (w', Returned order)
    /\ transactionStore w' = map_set ref stored (transactionStore w)
    /\ fired w' = (fired w ++ listener_events env stored
                     ++ List.map (fun h => hook_event h ref order) success_hooks)%list.
Proof.
  intros Hok stored ref. unfold processSuccessfulPayment.
  rewrite (bind_returned _ _ w w _ eq_refl).
  match goal with
  | |- context [update_order env ?u ?r] =>
      destruct (update_if_connected u r w Hok)
        as (w1 & upd & Hrun & Hst & Hf & _)
  end.
  rewrite (bind_returned _ _ _ _ _ Hrun).
  fold stored. fold ref.
  rewrite (bind_returned _ _ _ _ _ eq_refl).
  unfold notifyListeners.
  rewrite (bind_returned _ _ _ _ _ (notify_each_run _ _ _)).
  do 4 rewrite (bind_returned _ _ _ _ _ eq_refl).
  eexists _, _. split; [reflexivity|]. simpl. rewrite Hst, Hf.
  split; [reflexivity|].
  unfold listener_events, hook_event. fold ref.
  now rewrite <- !List.app_assoc.
Qed.

Lemma processFailedPayment_run (transactionData : obj) (reason : jsval) w :
  store_responds env w ->
  let stored :=
    <["processedAt" := VStr (now env)]>
      (<["failureReason" := reason <||> VStr "Unknown"]>
         (<["status" := VStr "FAILED"]> transactionData)) in
  let ref := prop stored "referenceId" in
  exists w' order,
    processFailedPayment env transactionData reason w = (w', Returned order)
    /\ transactionStore w' = map_set ref stored (transactionStore w)
    /\ fired w' = (fired w ++ listener_events env stored
                     ++ [hook_event FailureNotification ref order;
                         hook_event FailedTransactionLog ref stored])%list.
Proof.
  intros Hok stored ref. unfold processFailedPayment.
  rewrite (bind_returned _ _ w w _ eq_refl).
  match goal with
  | |- context [update_order env ?u ?r] =>
      destruct (update_if_connected u r w Hok)
        as (w1 & upd & Hrun & Hst & Hf & _)
  end.
  rewrite (bind_returned _ _ _ _ _ Hrun).
  fold stored. fold ref.
  rewrite (bind_returned _ _ _ _ _ eq_refl).
  unfold notifyListeners.
  rewrite (bind_returned _ _ _ _ _ (notify_each_run _ _ _)).
  do 2 rewrite (bind_returned _ _ _ _ _ eq_refl).
  eexists _, _. split; [reflexivity|]. simpl. rewrite Hst, Hf.
  split; [reflexivity|].
  unfold listener_events, hook_event. fold ref.
  now rewrite <- !List.app_assoc.
Qed.

End Handlers.

(** ** POST /callback *)

Section CallbackRoute.

Import CallbackHandler.

Variable env : environment.

Lemma callback_fields_names req :
  List.map fst (callback_fields env req) = callback_field_names.
Proof. reflexivity. Qed.

Lemma callback_field_names_nodup : List.NoDup callback_field_names.
Proof.
  unfold callback_field_names.
  repeat (constructor; [simpl; intuition discriminate|]). constructor.
Qed.

Lemma merge_callback_field req td k v :
  In (k, v) (callback_fields env req) -> merge_callback env req td !! k = Some v.
Proof.
  intros Hin. unfold merge_callback. apply assign_lookup_field; [|exact Hin].
  rewrite callback_fields_names. apply callback_field_names_nodup.
Qed.

Lemma merge_callback_other req td k :
  ~ In k callback_field_names -> merge_callback env req td !! k = td !! k.
Proof.
  intros Hk. unfold merge_callback. apply assign_lookup_other.
  now rewrite callback_fields_names.
Qed.

Lemma merge_callback_referenceId req td :
  prop (merge_callback env req td) "referenceId" = transactionId req.
Proof. apply prop_lookup, merge_callback_field. simpl. auto. Qed.

Lemma merge_callback_status req td :
  prop (merge_callback env req td) "status" = status_of (req_body req).
Proof. apply prop_lookup, merge_callback_field. simpl. auto 10. Qed.

(** Looking a transaction up changes nothing. *)
Lemma find_transaction_frame req w :
  exists r, find_transaction env req w = (w, r).
Proof.
  unfold find_transaction.
  rewrite (bind_returned _ _ w w _ eq_refl).
  destruct (map_get _ _); [eexists; reflexivity|].
  rewrite (bind_returned _ _ w w _ eq_refl).
  destruct (supabase w) as [t|] eqn:Ht; [|eexists; reflexivity].
  unfold bind, await_supabase. rewrite Ht.
  destruct (supabase_rejects env); [eexists; reflexivity|].
  rewrite (with_table_same _ _ Ht).
  destruct (Supabase.single _); eexists; reflexivity.
Qed.

Lemma find_transaction_cached req w td :
  map_get (transactionId req) (transactionStore w) = Some td ->
  find_transaction env req w = (w, Returned td).
Proof.
  intros H. unfold find_transaction.
  rewrite (bind_returned _ _ w w _ eq_refl). now rewrite H.
Qed.

Lemma find_transaction_returns req w :
  store_responds env w ->
  exists td, find_transaction env req w = (w, Returned td).
Proof.
  intros Hok. unfold find_transaction.
  rewrite (bind_returned _ _ w w _ eq_refl).
  destruct (map_get _ _); [eexists; reflexivity|].
  rewrite (bind_returned _ _ w w _ eq_refl).
  destruct (supabase w) as [t|] eqn:Ht; [|eexists; reflexivity].
  destruct Hok as [Hok|Hok]; [|congruence].
  unfold bind, await_supabase. rewrite Hok, Ht, (with_table_same _ _ Ht).
  destruct (Supabase.single _); eexists; reflexivity.
Qed.

Lemma hook_count_listeners h ref td :
  (forall i, h <> Listener i) ->
  hook_count h ref (listener_events env td) = 0%nat.
Proof.
  intros Hh. unfold listener_events, hook_count.
  induction (callbackListeners env) as [|i ls IH]; simpl; [reflexivity|].
  destruct h; try exact IH. now destruct (Hh i0).
Qed.

Lemma hook_count_success h ref order :
  In h success_hooks -> key_eqb ref ref = true ->
  hook_count h ref (List.map (fun h' => hook_event h' ref order) success_hooks)
  = 1%nat.
Proof.
  intros Hin Hk. unfold hook_count, success_hooks. simpl.
  rewrite Hk. simpl in Hin.
  destruct Hin as [<-|[<-|[<-|[<-|[]]]]]; reflexivity.
Qed.

Lemma hook_count_failure h ref order stored :
  In h failure_hooks -> key_eqb ref ref = true ->
  hook_count h ref [hook_event FailureNotification ref order;
                    hook_event FailedTransactionLog ref stored]
  = 1%nat.
Proof.
  intros Hin Hk. unfold hook_count. simpl.
  rewrite Hk. simpl in Hin.
  destruct Hin as [<-|[<-|[]]]; reflexivity.
Qed.

Lemma terminal_hooks_not_listener s h :
  In h (terminal_hooks s) -> forall i, h <> Listener i.
Proof.
  unfold terminal_hooks, success_hooks, failure_hooks.
  intros Hin i ->.
  destruct (String.eqb s "SUCCESSFUL"); [simpl in Hin; intuition discriminate|].
  destruct (String.eqb s "FAILED"); simpl in Hin; intuition discriminate.
Qed.

(** What the [switch] does to the world when the store responds: one
    record is written under the resolved identifier, a pending or created
    status is stored as PENDING, and every hook of a terminal status is
    invoked once. *)
Lemma dispatch_run req td w :
  store_responds env w ->
  prop td "referenceId" = transactionId req ->
  exists w' stored es,
    dispatch env req td w = (w', Returned tt)
    /\ transactionStore w'
       = map_set (transactionId req) stored (transactionStore w)
    /\ fired w' = (fired w ++ es)%list
    /\ prop stored "referenceId" = transactionId req
    /\ (forall s, status_of (req_body req) = VStr s ->
                  s = "PENDING" \/ s = "CREATED" ->
                  prop stored "status" = VStr "PENDING")
    /\ (forall s h, status_of (req_body req) = VStr s ->
                    In h (terminal_hooks s) ->
                    is_primitive (transactionId req) = true ->
                    hook_count h (transactionId req) es = 1%nat)
    /\ (forall s, status_of (req_body req) = VStr s ->
                  s = "PENDING" \/ s = "CREATED" ->
                  exists updateData : obj,
                    updateData !! "payment_status" = Some (VStr "PENDING")
                    /\ updateData !! "reference_id" = None
                    /\ supabase w'
                       = (fun t => (Supabase.update_eq_single updateData
                                      "reference_id"
                                      (to_string (transactionId req)) t).1)
                           <$> supabase w).
Proof.
  intros Hok Href. unfold dispatch.
  assert (Hdefault :
    exists w' stored es,
      store_set (transactionId req) td w = (w', Returned tt)
      /\ transactionStore w'
         = map_set (transactionId req) stored (transactionStore w)
      /\ fired w' = (fired w ++ es)%list
      /\ prop stored "referenceId" = transactionId req).
  { exists (with_store (map_set (transactionId req) td (transactionStore w)) w), td, [].
    split; [reflexivity|]. split; [reflexivity|].
    split; [simpl; now rewrite List.app_nil_r|exact Href]. }
  destruct (status_of (req_body req)) as [| |b|n|s|o] eqn:Hs;
    try (destruct Hdefault as (w' & stored & es & H1 & H2 & H3 & H4);
         exists w', stored, es;
         split; [exact H1|]; split; [exact H2|]; split; [exact H3|];
         split; [exact H4|]; split; [|split]; intros; discriminate).
  destruct (String.eqb s "SUCCESSFUL") eqn:E1.
  { apply String.eqb_eq in E1. subst s.
    pose proof (processSuccessfulPayment_run env td w Hok) as H. cbv zeta in H.
    destruct H as (w' & order & Hrun & Hst & Hf).
    rewrite (bind_returned _ _ _ _ _ Hrun).
    rewrite !prop_insert_ne, Href in Hst, Hf by discriminate.
    eexists w', _, _. split; [reflexivity|]. split; [exact Hst|].
    split; [exact Hf|]. split; [now rewrite !prop_insert_ne by discriminate|].
    split; [|split].
    - intros s Heq [->| ->]; discriminate.
    - intros s h Heq Hin Hprim. inversion Heq; subst s.
      rewrite hook_count_app, hook_count_listeners
        by (eapply terminal_hooks_not_listener; exact Hin).
      apply hook_count_success; [exact Hin|now apply key_eqb_refl].
    - intros s Heq [->| ->]; discriminate. }
  destruct (String.eqb s "FAILED") eqn:E2.
  { apply String.eqb_eq in E2. subst s.
    pose proof (processFailedPayment_run env td (reason_of (req_body req)) w Hok)
      as H. cbv zeta in H.
    destruct H as (w' & order & Hrun & Hst & Hf).
    rewrite (bind_returned _ _ _ _ _ Hrun).
    rewrite !prop_insert_ne, Href in Hst, Hf by discriminate.
    eexists w', _, _. split; [reflexivity|]. split; [exact Hst|].
    split; [exact Hf|]. split; [now rewrite !prop_insert_ne by discriminate|].
    split; [|split].
    - intros s Heq [->| ->]; discriminate.
    - intros s h Heq Hin Hprim. inversion Heq; subst s.
      rewrite hook_count_app, hook_count_listeners
        by (eapply terminal_hooks_not_listener; exact Hin).
      apply hook_count_failure; [exact Hin|now apply key_eqb_refl].
    - intros s Heq [->| ->]; discriminate. }
  destruct (String.eqb s "PENDING" || String.eqb s "CREATED") eqn:E3.
  { pose proof (processPendingPayment_run env td w Hok) as H. cbv zeta in H.
    destruct H as (w' & res & Hrun & Hst & Hf & Hdb).
    rewrite (bind_returned _ _ _ _ _ Hrun).
    rewrite !prop_insert_ne, Href in Hst by discriminate.
    rewrite Href in Hdb.
    eexists w', _, _. split; [reflexivity|]. split; [exact Hst|].
    split; [exact Hf|]. split; [now rewrite !prop_insert_ne by discriminate|].
    split; [|split].
    - intros s' _ _. rewrite prop_insert_ne by discriminate.
      apply prop_insert_eq.
    - intros s' h Heq Hin _. inversion Heq; subst s'.
      unfold terminal_hooks in Hin. rewrite E1, E2 in Hin. destruct Hin.
    - intros s' _ _. exact Hdb. }
  destruct Hdefault as (w' & stored & es & H1 & H2 & H3 & H4).
  apply orb_false_elim in E3. destruct E3 as [E3 E4].
  exists w', stored, es.
  split; [exact H1|]. split; [exact H2|]. split; [exact H3|].
  split; [exact H4|]. split; [|split].
  - intros s' Heq Hor. inversion Heq; subst s'.
    destruct Hor as [->| ->]; discriminate.
  - intros s' h Heq Hin _. inversion Heq; subst s'.
    unfold terminal_hooks in Hin. rewrite E1, E2 in Hin. destruct Hin.
  - intros s' Heq Hor. inversion Heq; subst s'.
    destruct Hor as [->| ->]; discriminate.
Qed.

Lemma no_identifier_first_present req :
  no_identifier req = true <-> first_present (identifiers req) = None.
Proof.
  unfold no_identifier, referenceId, externalId, financialTransactionId,
    first_present, identifiers, js_or. simpl.
  destruct (truthy (of_opt (x_reference_id req))) eqn:Ha;
  destruct (truthy (prop (req_body req) "referenceId")) eqn:Hb;
  destruct (truthy (prop (req_body req) "externalId")) eqn:Hc;
  destruct (truthy (prop (req_body req) "financialTransactionId")) eqn:Hd;
  rewrite ?Ha, ?Hb, ?Hc, ?Hd; simpl; rewrite ?Ha, ?Hb, ?Hc, ?Hd; simpl;
  split; try reflexivity; discriminate.
Qed.

Lemma transactionId_first_present req id :
  first_present (identifiers req) = Some id -> transactionId req = id.
Proof.
  unfold transactionId, referenceId, externalId, financialTransactionId,
    first_present, identifiers, js_or. simpl.
  destruct (truthy (of_opt (x_reference_id req))) eqn:Ha;
  destruct (truthy (prop (req_body req) "referenceId")) eqn:Hb;
  destruct (truthy (prop (req_body req) "externalId")) eqn:Hc;
  destruct (truthy (prop (req_body req) "financialTransactionId")) eqn:Hd;
  rewrite ?Ha, ?Hb, ?Hc, ?Hd; simpl; rewrite ?Ha, ?Hb, ?Hc, ?Hd; simpl;
  congruence.
Qed.

Lemma callback_try_gate req w :
  no_identifier req = false ->
  callback_try env req w =
  match signature_gate env req with
  | Raised e => (w, Raised e)
  | Returned false => (w, Returned invalid_signature)
  | Returned true =>
      (transactionData <~ find_transaction env req ;;
       dispatch env req (merge_callback env req transactionData) ;;;
       ret (acknowledged req)) w
  end.
Proof.
  intros Hid. unfold callback_try. rewrite Hid.
  unfold bind at 1. unfold lift.
  destruct (signature_gate env req) as [[|]|e]; reflexivity.
Qed.

Lemma callback_try_catch req w w' r :
  callback_try env req w = (w', r) ->
  callback env req w
  = (w', match r with Returned res => res | Raised e => processing_failed e end).
Proof. unfold callback, try_catch. intros ->. now destruct r. Qed.

(** The five ways the route can answer. *)
Lemma callback_cases req w :
  (no_identifier req = true /\ callback env req w = (w, bad_request))
  \/ (no_identifier req = false
      /\ ((exists e, signature_gate env req = Raised e
                     /\ callback_try env req w = (w, Raised e)
                     /\ callback env req w = (w, processing_failed e))
          \/ (signature_gate env req = Returned false
              /\ callback env req w = (w, invalid_signature))
          \/ (signature_gate env req = Returned true
              /\ ((exists w' e, callback_try env req w = (w', Raised e)
                                /\ callback env req w = (w', processing_failed e))
                  \/ (exists w', callback_try env req w
                                 = (w', Returned (acknowledged req))
                                 /\ callback env req w = (w', acknowledged req)))))).
Proof.
  destruct (no_identifier req) eqn:Hid.
  { left. split; [reflexivity|].
    apply (callback_try_catch req w w (Returned bad_request)).
    unfold callback_try. now rewrite Hid. }
  right. split; [reflexivity|].
  pose proof (callback_try_gate req w Hid) as Htry.
  destruct (signature_gate env req) as [[|]|e].
  - right. right. split; [reflexivity|].
    destruct (find_transaction_frame req w) as [[td|e] Hfind].
    + rewrite (bind_returned _ _ _ _ _ Hfind) in Htry.
      destruct (dispatch env req (merge_callback env req td) w)
        as [w' [[]|e]] eqn:Hd.
      * rewrite (bind_returned _ _ _ _ _ Hd) in Htry. right. exists w'.
        split; [exact Htry|]. exact (callback_try_catch _ _ _ _ Htry).
      * rewrite (bind_raised _ _ _ _ _ Hd) in Htry. left. exists w', e.
        split; [exact Htry|]. exact (callback_try_catch _ _ _ _ Htry).
    + rewrite (bind_raised _ _ _ _ _ Hfind) in Htry. left. exists w, e.
      split; [exact Htry|]. exact (callback_try_catch _ _ _ _ Htry).
  - right. left. split; [reflexivity|].
    exact (callback_try_catch _ _ _ _ Htry).
  - left. exists e. split; [reflexivity|]. split; [exact Htry|].
    exact (callback_try_catch _ _ _ _ Htry).
Qed.

(** A callback that names a transaction, passes the signature gate and
    finds the store responding is processed and acknowledged. *)
Lemma callback_processed req w :
  no_identifier req = false ->
  signature_gate env req = Returned true ->
  store_responds env w ->
  exists w' stored es,
    callback env req w = (w', acknowledged req)
    /\ transactionStore w'
       = map_set (transactionId req) stored (transactionStore w)
    /\ fired w' = (fired w ++ es)%list
    /\ prop stored "referenceId" = transactionId req
    /\ (forall s, status_of (req_body req) = VStr s ->
                  s = "PENDING" \/ s = "CREATED" ->
                  prop stored "status" = VStr "PENDING")
    /\ (forall s h, status_of (req_body req) = VStr s ->
                    In h (terminal_hooks s) ->
                    is_primitive (transactionId req) = true ->
                    hook_count h (transactionId req) es = 1%nat)
    /\ (forall s, status_of (req_body req) = VStr s ->
                  s = "PENDING" \/ s = "CREATED" ->
                  exists updateData : obj,
                    updateData !! "payment_status" = Some (VStr "PENDING")
                    /\ updateData !! "reference_id" = None
                    /\ supabase w'
                       = (fun t => (Supabase.update_eq_single updateData
                                      "reference_id"
                                      (to_string (transactionId req)) t).1)
                           <$> supabase w).
Proof.
  intros Hid Hgate Hok.
  destruct (find_transaction_returns req w Hok) as [td Hfind].
  destruct (dispatch_run req (merge_callback env req td) w Hok
              (merge_callback_referenceId req td))
    as (w' & stored & es & Hd & Hrest).
  exists w', stored, es. split; [|exact Hrest].
  apply (callback_try_catch req w w' (Returned (acknowledged req))).
  rewrite (callback_try_gate req w Hid), Hgate.
  now rewrite (bind_returned _ _ _ _ _ Hfind), (bind_returned _ _ _ _ _ Hd).
Qed.

Lemma signature_gate_unchecked req :
  signature_checked env req = false -> signature_gate env req = Returned true.
Proof. unfold signature_gate. now intros ->. Qed.

End CallbackRoute.

(** ** Properties of POST /callback *)

Section CallbackProperties.

Import CallbackHandler.

Lemma callback_stored env req w :
  no_identifier req = false ->
  signature_gate env req = Returned true ->
  store_responds env w ->
  is_primitive (transactionId req) = true ->
  exists stored,
    (callback env req w).2 = acknowledged req
    /\ map_get (transactionId req) (transactionStore (callback env req w).1)
       = Some stored
    /\ prop stored "referenceId" = transactionId req
    /\ (tentative (status_of (req_body req)) ->
        prop stored "status" = VStr "PENDING").
Proof.
  intros Hid Hgate Hok Hprim.
  destruct (callback_processed env req w Hid Hgate Hok)
    as (w' & stored & es & Hrun & Hst & _ & Href & Hpending & _).
  exists stored. rewrite Hrun. simpl. split; [reflexivity|].
  split; [rewrite Hst; apply map_get_set_same, key_eqb_refl, Hprim|].
  split; [exact Href|].
  intros [Hs|Hs]; eapply Hpending; eauto.
Qed.

(** C1, as the code has it.  POST /callback has no terminal guard: a
    callback that names a transaction, passes the signature gate and
    carries PENDING or CREATED leaves PENDING as the stored status of that
    transaction, whatever was stored before, SUCCESSFUL and FAILED
    included: in the transaction [Map], and in the order row of that
    reference when the store client is connected and holds exactly one. *)
Theorem tentative_callback_stores_pending env req w :
  no_identifier req = false ->
  signature_gate env req = Returned true ->
  store_responds env w ->
  is_primitive (transactionId req) = true ->
  tentative (status_of (req_body req)) ->
  stored_status (callback env req w).1 (transactionId req)
  = Some (VStr "PENDING")
  /\ forall t order,
       supabase w = Some t ->
       Supabase.single
         (Supabase.select_eq "reference_id" (to_string (transactionId req)) t)
       = Some order ->
       exists t' order',
         supabase (callback env req w).1 = Some t'
         /\ Supabase.single
              (Supabase.select_eq "reference_id"
                 (to_string (transactionId req)) t')
            = Some order'
         /\ prop order' "payment_status" = VStr "PENDING".
Proof.
  intros Hid Hgate Hok Hprim Htent. split.
  - destruct (callback_stored env req w Hid Hgate Hok Hprim)
      as (stored & _ & Hget & _ & Hpending).
    unfold stored_status. rewrite Hget. simpl. now rewrite Hpending.
  - intros t order Ht Hone.
    destruct (callback_processed env req w Hid Hgate Hok)
      as (w' & stored & es & Hrun & _ & _ & _ & _ & _ & Hdb).
    rewrite Hrun. simpl.
    assert (exists s, status_of (req_body req) = VStr s
                      /\ (s = "PENDING" \/ s = "CREATED"))
      as (s & Hs & Hor)
      by (destruct Htent as [H|H]; eexists; split; eauto).
    destruct (Hdb s Hs Hor) as (updateData & Hps & Hkey & Htable).
    rewrite Ht in Htable. simpl in Htable.
    eexists _, _. split; [exact Htable|]. split.
    + exact (update_eq_single_row _ _ _ _ _ Hkey Hone).
    + apply prop_lookup, patch_lookup_written; [exact Hps|reflexivity].
Qed.

Lemma tentative_callback_stores_pending_witness :
  let req := callback_for "R1" "PENDING" in
  stored_status paid_world (VStr "R1") = Some (VStr "SUCCESSFUL")
  /\ stored_status (callback default_env req paid_world).1 (transactionId req)
     = Some (VStr "PENDING")
  /\ exists t' order',
       supabase (callback default_env req paid_world).1 = Some t'
       /\ Supabase.single
            (Supabase.select_eq "reference_id" (to_string (transactionId req))
               t')
          = Some order'
       /\ prop order' "payment_status" = VStr "PENDING".
Proof.
  intros req. split; [reflexivity|].
  destruct (tentative_callback_stores_pending default_env req paid_world)
    as [Hmap Hrow].
  - reflexivity.
  - reflexivity.
  - left. reflexivity.
  - reflexivity.
  - left. reflexivity.
  - split; [exact Hmap|].
    exact (Hrow [paid_order] paid_order eq_refl eq_refl).
Defined.

(** C1, as the specification words it, fails: after the SUCCESSFUL
    callback for R1, a PENDING callback for R1 replaces the stored
    SUCCESSFUL by PENDING. *)
Lemma terminal_status_regresses :
  ~ terminal_status_kept default_env (callback_for "R1" "PENDING")
      settled_world.
Proof.
  intros H.
  specialize (H (VStr "SUCCESSFUL") eq_refl (or_introl eq_refl)
                (or_introl eq_refl)).
  vm_compute in H. discriminate H.
Qed.

Lemma deliver_cons env req reqs w :
  deliver env (req :: reqs) w = deliver env reqs (callback env req w).1.
Proof. reflexivity. Qed.

(** C2, as the code has it.  Nothing records that a terminal callback was
    already processed: every delivery of a SUCCESSFUL (or FAILED) callback
    that passes the signature gate invokes each hook of that status once
    more, so [n] deliveries of the same callback invoke it [n] times. *)
Theorem terminal_hooks_fire_on_every_delivery env req s h n w :
  no_identifier req = false ->
  signature_gate env req = Returned true ->
  supabase_rejects env = false ->
  is_primitive (transactionId req) = true ->
  status_of (req_body req) = VStr s ->
  In h (terminal_hooks s) ->
  hook_count h (transactionId req) (fired (deliver env (replicate n req) w))
  = (hook_count h (transactionId req) (fired w) + n)%nat.
Proof.
  intros Hid Hgate Hdb Hprim Hs Hh. revert w.
  induction n as [|n IH]; intros w; simpl replicate.
  - simpl. lia.
  - rewrite deliver_cons, IH.
    destruct (callback_processed env req w Hid Hgate (or_introl Hdb))
      as (w' & stored & es & Hrun & _ & Hf & _ & _ & Hhooks & _).
    rewrite Hrun. simpl. rewrite Hf, hook_count_app.
    rewrite (Hhooks s h Hs Hh Hprim). lia.
Qed.

Lemma terminal_hooks_fire_on_every_delivery_witness :
  hook_count ConfirmationEmail (VStr "R1")
    (fired (deliver default_env (replicate 2 (callback_for "R1" "SUCCESSFUL"))
              empty_world))
  = (hook_count ConfirmationEmail (VStr "R1") (fired empty_world) + 2)%nat.
Proof.
  apply (terminal_hooks_fire_on_every_delivery default_env
           (callback_for "R1" "SUCCESSFUL") "SUCCESSFUL" ConfirmationEmail 2
           empty_world).
  - reflexivity.
  - reflexivity.
  - reflexivity.
  - reflexivity.
  - reflexivity.
  - simpl. left. reflexivity.
Defined.

(** C2, as the specification words it, fails: the SUCCESSFUL callback for
    R1 delivered twice sends the confirmation twice. *)
Lemma terminal_hooks_fire_twice :
  ~ fires_at_most_once default_env
      [callback_for "R1" "SUCCESSFUL"; callback_for "R1" "SUCCESSFUL"]
      empty_world.
Proof.
  intros H.
  specialize (H ConfirmationEmail (VStr "R1") (or_introl eq_refl)).
  vm_compute in H. lia.
Qed.

Lemma status_code_cases env req w :
  (status_code (callback env req w).2 = 400%Z /\ no_identifier req = true)
  \/ (status_code (callback env req w).2 = 401%Z
      /\ no_identifier req = false
      /\ signature_gate env req = Returned false)
  \/ (status_code (callback env req w).2 = 200%Z
      /\ no_identifier req = false
      /\ signature_gate env req <> Returned false).
Proof.
  destruct (callback_cases env req w)
    as [[Hid ->]|[Hid [(e & Hg & _ & ->)|[[Hg ->]|[Hg [(w' & e & _ & ->)|(w' & _ & ->)]]]]]].
  - left. split; [reflexivity|exact Hid].
  - right. right. split; [reflexivity|]. split; [exact Hid|]. now rewrite Hg.
  - right. left. split; [reflexivity|]. split; assumption.
  - right. right. split; [reflexivity|]. split; [exact Hid|]. now rewrite Hg.
  - right. right. split; [reflexivity|]. split; [exact Hid|]. now rewrite Hg.
Qed.

(** A signature of the digest's length that differs from the digest is
    answered with HTTP 401 and nothing is processed. *)
Lemma invalid_signature_rejected env req w secret signature :
  no_identifier req = false ->
  MOMO_CALLBACK_SECRET env = Some secret ->
  x_momo_signature req = Some signature ->
  secret <> EmptyString -> signature <> EmptyString ->
  let expected :=
    hmac_sha256_hex env secret (JSON_stringify env (VObj (req_body req))) in
  String.length signature = String.length expected ->
  signature <> expected ->
  callback env req w = (w, invalid_signature).
Proof.
  intros Hid Hsecret Hsig Hs1 Hs2 expected Hlen Hne.
  assert (Hgate : signature_gate env req = Returned false).
  { unfold signature_gate, signature_checked, verifyCallbackSignature.
    rewrite Hsecret, Hsig. simpl of_opt.
    rewrite (nonempty_truthy _ Hs1), (nonempty_truthy _ Hs2). simpl.
    unfold timingSafeEqual. fold expected. rewrite Hlen, Nat.eqb_refl.
    destruct (String.eqb signature expected) eqn:E; [|reflexivity].
    apply String.eqb_eq in E. contradiction. }
  destruct (callback_cases env req w)
    as [[H _]|[_ [(e & Hg & _)|[[_ H]|[Hg _]]]]]; congruence.
Qed.

(** The only signatures the gate rejects: both the secret and the header
    are present, and the header has the digest's length without being the
    digest. *)
Lemma signature_gate_rejects env req :
  signature_gate env req = Returned false ->
  exists signature secret,
    x_momo_signature req = Some signature
    /\ MOMO_CALLBACK_SECRET env = Some secret
    /\ signature <> EmptyString /\ secret <> EmptyString
    /\ String.length signature
       = String.length
           (hmac_sha256_hex env secret (JSON_stringify env (VObj (req_body req))))
    /\ signature
       <> hmac_sha256_hex env secret (JSON_stringify env (VObj (req_body req))).
Proof.
  unfold signature_gate, signature_checked, verifyCallbackSignature.
  destruct (MOMO_CALLBACK_SECRET env) as [secret|]; [|discriminate].
  destruct (x_momo_signature req) as [signature|]; simpl;
    [|rewrite andb_false_r; discriminate].
  destruct (String.eqb secret EmptyString) eqn:Hsecret; simpl;
    [discriminate|].
  destruct (String.eqb signature EmptyString) eqn:Hsignature; simpl;
    [discriminate|].
  unfold timingSafeEqual.
  destruct (Nat.eqb _ _) eqn:Hlen; [|discriminate].
  destruct (String.eqb signature (hmac_sha256_hex env secret _)) eqn:Heq;
    [discriminate|]. intros _.
  exists signature, secret.
  apply String.eqb_neq in Hsecret. apply String.eqb_neq in Hsignature.
  apply String.eqb_neq in Heq. apply Nat.eqb_eq in Hlen.
  repeat split; assumption.
Qed.

(** C4, as the code has it.  A callback that carries an identifier is
    answered with HTTP 200 unless the signature check rejects it, which
    takes a configured secret and a signature header of the digest's
    length that is not the digest, and which is answered with HTTP 401;
    whenever anything in the [try] block throws (as the signature
    comparison does on a length mismatch), the answer is HTTP 200 with
    [success: false]. *)
Theorem callback_acknowledged_unless_signature_rejected env req w :
  first_present (identifiers req) <> None ->
  (signature_gate env req <> Returned false ->
   status_code (callback env req w).2 = 200%Z)
  /\ (signature_gate env req = Returned false ->
      callback env req w = (w, invalid_signature)
      /\ exists signature secret,
           x_momo_signature req = Some signature
           /\ MOMO_CALLBACK_SECRET env = Some secret
           /\ signature <> EmptyString /\ secret <> EmptyString
           /\ String.length signature
              = String.length
                  (hmac_sha256_hex env secret
                     (JSON_stringify env (VObj (req_body req))))
           /\ signature
              <> hmac_sha256_hex env secret
                   (JSON_stringify env (VObj (req_body req))))
  /\ (forall w' e, callback_try env req w = (w', Raised e) ->
        callback env req w = (w', processing_failed e)
        /\ status_code (callback env req w).2 = 200%Z
        /\ prop (body (callback env req w).2) "success" = VBool false).
Proof.
  intros Hsome.
  assert (Hid : no_identifier req = false).
  { destruct (no_identifier req) eqn:E; [|reflexivity].
    apply no_identifier_first_present in E. congruence. }
  split; [|split].
  - intros Hg.
    destruct (status_code_cases env req w)
      as [[_ H]|[(_ & _ & H)|(Hc & _ & _)]]; [congruence|congruence|exact Hc].
  - intros Hg. split; [|exact (signature_gate_rejects env req Hg)].
    destruct (callback_cases env req w)
      as [[H _]|[_ [(e & Hg' & _)|[[_ H]|[Hg' _]]]]]; congruence.
  - intros w' e Htry.
    rewrite (callback_try_catch env req w w' (Raised e) Htry).
    split; [reflexivity|]. split; reflexivity.
Qed.

Lemma callback_acknowledged_unless_signature_rejected_witness :
  let req := truncated_signature_callback in
  callback signing_env req connected_world
  = (connected_world,
     processing_failed "Input buffers must have the same byte length")
  /\ status_code (callback signing_env req connected_world).2 = 200%Z
  /\ prop (body (callback signing_env req connected_world).2) "success"
     = VBool false.
Proof.
  intros req.
  destruct (callback_acknowledged_unless_signature_rejected
              signing_env req connected_world)
    as (_ & _ & H); [discriminate|].
  exact (H connected_world "Input buffers must have the same byte length"
           eq_refl).
Defined.

(** C4, as the specification words it, fails: with a callback secret
    configured, a callback for ORDER-1 whose signature header is not the
    digest is answered with HTTP 401. *)
Lemma forged_callback_not_acknowledged :
  ~ always_acknowledged signing_env forged_callback empty_world.
Proof.
  intros H.
  assert (Hsome : first_present (identifiers forged_callback) <> None)
    by discriminate.
  specialize (H Hsome).
  assert (Hrun : callback signing_env forged_callback empty_world
                 = (empty_world, invalid_signature)).
  { apply (invalid_signature_rejected signing_env forged_callback empty_world
             "s3cret"
             "zzzzzzzzzzzzzzzzzzzzzzzzzzzzzzzzzzzzzzzzzzzzzzzzzzzzzzzzzzzzzzzz");
      try reflexivity; discriminate. }
  rewrite Hrun in H. discriminate H.
Qed.

Lemma same_named_field env req k :
  In k same_named_fields ->
  In (k, prop (req_body req) k <||> VNull) (callback_fields env req).
Proof.
  unfold same_named_fields. simpl.
  intros [<-|[<-|[<-|[<-|[<-|[<-|[<-|[<-|[]]]]]]]]]; auto 20.
Qed.

(** C5, as the code has it.  The merge writes every callback field over
    the record it found: a same-named field takes the inbound value, or
    [null] when the inbound value is null or absent, whatever the record
    held; only the fields the callback does not write keep their value. *)
Theorem merge_callback_overwrites env req transactionData k :
  (In k same_named_fields ->
   merge_callback env req transactionData !! k
   = Some (prop (req_body req) k <||> VNull))
  /\ (In k same_named_fields -> inbound_missing req k ->
      merge_callback env req transactionData !! k = Some VNull)
  /\ (forall v, In (k, v) (callback_fields env req) ->
      merge_callback env req transactionData !! k = Some v)
  /\ (~ In k callback_field_names ->
      merge_callback env req transactionData !! k = transactionData !! k).
Proof.
  split; [|split; [|split]].
  - intros Hk. apply merge_callback_field, same_named_field, Hk.
  - intros Hk Hmiss.
    rewrite (merge_callback_field env req _ _ _ (same_named_field env req k Hk)).
    unfold prop. destruct Hmiss as [-> | ->]; reflexivity.
  - intros v. apply merge_callback_field.
  - apply merge_callback_other.
Qed.

Lemma merge_callback_overwrites_witness :
  let req := callback_for "R1" "SUCCESSFUL" in
  merge_callback default_env req paid_record !! "financialTransactionId"
  = Some VNull
  /\ merge_callback default_env req paid_record !! "status"
     = Some (VStr "SUCCESSFUL")
  /\ merge_callback default_env req (<["orderId" := VNum 7]> paid_record)
       !! "orderId" = Some (VNum 7).
Proof.
  intros req. split; [|split].
  - destruct (merge_callback_overwrites default_env req paid_record
                "financialTransactionId") as (_ & H & _).
    apply H; [simpl; auto|left; reflexivity].
  - destruct (merge_callback_overwrites default_env req paid_record "status")
      as (H & _).
    apply H. simpl. auto 10.
  - destruct (merge_callback_overwrites default_env req
                (<["orderId" := VNum 7]> paid_record) "orderId")
      as (_ & _ & _ & H).
    rewrite H; [reflexivity|].
    unfold callback_field_names. simpl. intuition discriminate.
Defined.

(** C5, as the specification words it, fails: the record of R1 holds FT1;
    a second SUCCESSFUL callback without a financialTransactionId leaves
    [null] there. *)
Lemma merge_nulls_populated_field :
  ~ populated_fields_kept default_env (callback_for "R1" "SUCCESSFUL")
      paid_record.
Proof.
  intros H.
  specialize (H "financialTransactionId" (VStr "FT1") eq_refl eq_refl
                (or_introl eq_refl)).
  vm_compute in H. discriminate H.
Qed.

(** C10.  [verifyCallbackSignature] accepts whenever the signature or the
    secret is missing; the route runs the check only when both the
    X-MOMO-Signature header and MOMO_CALLBACK_SECRET are present, and
    otherwise never answers 401 and does not depend on the digest at all;
    so without a configured secret every callback that carries an
    identifier is processed and acknowledged unauthenticated. *)
Theorem signature_check_skipped_when_unconfigured env :
  (forall payload signature secret,
      truthy (of_opt signature) = false \/ truthy (of_opt secret) = false ->
      verifyCallbackSignature env payload signature secret = Returned true)
  /\ (forall req,
        signature_checked env req = true
        <-> truthy (of_opt (MOMO_CALLBACK_SECRET env)) = true
            /\ truthy (of_opt (x_momo_signature req)) = true)
  /\ (forall req w,
        signature_checked env req = false ->
        signature_gate env req = Returned true
        /\ status_code (callback env req w).2 <> 401%Z
        /\ forall hmac stringify,
             callback (with_crypto hmac stringify env) req w
             = callback env req w)
  /\ (forall req w,
        MOMO_CALLBACK_SECRET env = None ->
        first_present (identifiers req) <> None ->
        store_responds env w ->
        (callback env req w).2 = acknowledged req).
Proof.
  split; [|split; [|split]].
  - intros payload signature secret H. unfold verifyCallbackSignature.
    destruct H as [-> | ->]; [reflexivity|].
    now rewrite orb_true_r.
  - intros req. unfold signature_checked. apply andb_true_iff.
  - intros req w Hunchecked.
    pose proof (signature_gate_unchecked env req Hunchecked) as Hg.
    split; [exact Hg|]. split.
    + destruct (status_code_cases env req w)
        as [[Hc _]|[(_ & _ & H)|(Hc & _ & _)]]; [|congruence|];
        rewrite Hc; discriminate.
    + intros hmac stringify.
      unfold callback, callback_try.
      assert (Hg' : signature_gate (with_crypto hmac stringify env) req
                    = Returned true).
      { apply signature_gate_unchecked. exact Hunchecked. }
      rewrite Hg, Hg'. reflexivity.
  - intros req w Hsecret Hsome Hok.
    assert (Hid : no_identifier req = false).
    { destruct (no_identifier req) eqn:E; [|reflexivity].
      apply no_identifier_first_present in E. congruence. }
    assert (Hg : signature_gate env req = Returned true).
    { apply signature_gate_unchecked. unfold signature_checked.
      now rewrite Hsecret. }
    destruct (callback_processed env req w Hid Hg Hok) as (w' & ? & ? & -> & _).
    reflexivity.
Qed.

Lemma signature_check_skipped_when_unconfigured_witness :
  verifyCallbackSignature default_env (VObj ∅) (Some "abc") None
  = Returned true
  /\ signature_gate signing_env (callback_for "R1" "SUCCESSFUL")
     = Returned true
  /\ (callback default_env forged_callback empty_world).2
     = acknowledged forged_callback.
Proof.
  split; [|split].
  - destruct (signature_check_skipped_when_unconfigured default_env)
      as (H & _).
    apply H. right. reflexivity.
  - destruct (signature_check_skipped_when_unconfigured signing_env)
      as (_ & _ & H & _).
    destruct (H (callback_for "R1" "SUCCESSFUL") empty_world eq_refl)
      as (Hg & _).
    exact Hg.
  - destruct (signature_check_skipped_when_unconfigured default_env)
      as (_ & _ & _ & H).
    apply H; [reflexivity|discriminate|left; reflexivity].
Defined.

End CallbackProperties.

(** ** The reference of a record found through the orders table *)

Section ReferenceId.

Import CallbackHandler.

(** C6 fails on the code.  After a restart the order of ORDER-1 (reference
    REF-1) is only in the orders table.  The callback for ORDER-1 arrives
    without a reference header: the order is found through its external
    id and the record is built with reference REF-1, but the merge then
    writes the fallback identifier over it.  The record is cached under
    ORDER-1 with [referenceId] ORDER-1, none is cached under REF-1, and
    the update by reference ORDER-1 reaches no row, so the order stays
    PENDING although the callback is acknowledged. *)
Theorem callback_replaces_referenceId :
  let res := callback default_env order_callback restarted_world in
  (exists td,
      find_transaction default_env order_callback restarted_world
      = (restarted_world, Returned td)
      /\ prop td "referenceId" = VStr "REF-1"
      /\ prop (merge_callback default_env order_callback td) "referenceId"
         = VStr "ORDER-1")
  /\ res.2 = acknowledged order_callback
  /\ (fun td => prop td "referenceId")
       <$> map_get (VStr "ORDER-1") (transactionStore res.1)
     = Some (VStr "ORDER-1")
  /\ map_get (VStr "REF-1") (transactionStore res.1) = None
  /\ supabase res.1 = Some [pending_order].
Proof.
  split.
  - eexists. split; [reflexivity|]. split; reflexivity.
  - split; [reflexivity|]. split; [reflexivity|]. split; reflexivity.
Qed.

End ReferenceId.

(** ** The two request-to-pay bodies *)

Section RequestToPay.

(** What services/momoService.js posts is what its caller supplied. *)
Lemma service_body_carries_input (d : details) (a : string) :
  toString (amount d) = Returned a ->
  exists b,
    MomoService.requestBody d = Returned b
    /\ prop b "amount" = VStr a
    /\ prop b "currency" = currency d
    /\ prop b "externalId" = process_id d
    /\ prop b "payerMessage" = message d
    /\ prop b "payeeNote" = message d.
Proof.
  intros Ha. unfold MomoService.requestBody. rewrite Ha.
  eexists. split; [reflexivity|].
  repeat split; apply prop_lookup, assign_lookup_field;
    try (repeat (constructor; [simpl; intuition discriminate|]); constructor);
    simpl; auto 10.
Qed.

(** What the copy in routes/payment.routes.js posts does not depend on the
    amount, the currency or the message of its caller. *)
Lemma routes_body_ignores_input (d : details) :
  exists b,
    PaymentRoutes.requestBody d = Returned b
    /\ prop b "amount" = VStr "1.00"
    /\ prop b "currency" = VStr "USD"
    /\ prop b "externalId" = process_id d
    /\ prop b "payerMessage" = VStr "Payment for Litway Picks"
    /\ prop b "payeeNote" = VStr "Payment for Litway Picks".
Proof.
  unfold PaymentRoutes.requestBody.
  eexists. split; [reflexivity|].
  repeat split; apply prop_lookup, assign_lookup_field;
    try (repeat (constructor; [simpl; intuition discriminate|]); constructor);
    simpl; auto 10.
Qed.

(** C7 fails on the code.  POST /pay with phone 0770123456, amount 100,
    order ORDER-12345 and message "Payment for order" hands
    [order_details] to [requestToPay].  services/momoService.js posts
    amount 100 in LRD with that message; the [requestToPay] of
    routes/payment.routes.js posts amount 1.00 in USD with a fixed
    message. *)
Theorem requestToPay_bodies_diverge :
  PaymentRoutes.pay_validation pay_body = inr "231770123456"
  /\ PaymentRoutes.pay_details default_env pay_body "231770123456"
     = order_details
  /\ MomoService.requestBody order_details
     = Returned (assign ∅ [
         ("amount", VStr "100");
         ("currency", VStr "LRD");
         ("externalId", VStr "ORDER-12345");
         ("payer", VObj (assign ∅ [("partyIdType", VStr "MSISDN");
                                   ("partyId", VStr "231770123456")]));
         ("payerMessage", VStr "Payment for order");
         ("payeeNote", VStr "Payment for order")])
  /\ PaymentRoutes.requestBody order_details
     = Returned (assign ∅ [
         ("amount", VStr "1.00");
         ("currency", VStr "USD");
         ("externalId", VStr "ORDER-12345");
         ("payer", VObj (assign ∅ [("partyIdType", VStr "MSISDN");
                                   ("partyId", VStr "231770123456")]));
         ("payerMessage", VStr "Payment for Litway Picks");
         ("payeeNote", VStr "Payment for Litway Picks")])
  /\ MomoService.requestBody order_details
     <> PaymentRoutes.requestBody order_details.
Proof.
  split; [reflexivity|]. split; [reflexivity|]. split; [reflexivity|].
  split; [reflexivity|].
  intros H. apply (f_equal (fun r => match r with
                                     | Returned b => prop b "currency"
                                     | Raised _ => VUndefined
                                     end)) in H.
  vm_compute in H. discriminate H.
Qed.

End RequestToPay.

(** ** GET /status/:referenceId *)

Section StatusRoute.

Import PaymentRoutes.

Lemma status_try_catch env referenceId w w' r :
  status_try env referenceId w = (w', r) ->
  PaymentRoutes.status env referenceId w
  = (w', match r with
         | Returned res => res
         | Raised e => status_check_failed e
         end).
Proof. unfold PaymentRoutes.status, try_catch. intros ->. now destruct r. Qed.

(** The answer of the route, source by source. *)
Lemma status_code_of env referenceId w :
  status_code (PaymentRoutes.status env referenceId w).2 =
  if answered_from_store env w referenceId then 200%Z
  else
    match access_token env with
    | None => 500%Z
    | Some _ =>
        if truthy (momo_requesttopay env referenceId) then 200%Z
        else
          match map_get (VStr referenceId) (transactionStore w) with
          | Some _ => 200%Z
          | None => 404%Z
          end
    end.
Proof.
  unfold PaymentRoutes.status, try_catch, status_try, answered_from_store,
    settled_in_store.
  unfold bind, connected, await_supabase, store_get, store_set, getAccessToken,
    fetchTransactionDetails, ret, throw.
  destruct (supabase w) as [t|] eqn:Ht.
  - cbv beta. rewrite Ht.
    destruct (supabase_rejects env) eqn:Hr; cbn [negb andb].
    + destruct (access_token env); [|reflexivity].
      destruct (truthy (momo_requesttopay env referenceId)); cbn [negb];
        rewrite ?Ht;
        destruct (map_get (VStr referenceId) (transactionStore w)); reflexivity.
    + destruct (Supabase.single
                  (Supabase.select_eq "reference_id" referenceId t))
        as [order|].
      * destruct (is_terminal (prop order "payment_status")); [reflexivity|].
        cbn [transactionStore with_table supabase].
        destruct (access_token env); [|reflexivity].
        destruct (truthy (momo_requesttopay env referenceId)); cbn [negb];
          cbn [supabase with_table transactionStore];
          destruct (map_get (VStr referenceId) (transactionStore w));
          reflexivity.
      * cbn [transactionStore with_table supabase].
        destruct (access_token env); [|reflexivity].
        destruct (truthy (momo_requesttopay env referenceId)); cbn [negb];
          cbn [supabase with_table transactionStore];
          destruct (map_get (VStr referenceId) (transactionStore w));
          reflexivity.
  - rewrite Bool.andb_false_r.
    destruct (access_token env); [|reflexivity].
    destruct (truthy (momo_requesttopay env referenceId)); cbn [negb];
      rewrite ?Ht;
      destruct (map_get (VStr referenceId) (transactionStore w)); reflexivity.
Qed.

(** C9, as the code has it.  GET /status/:referenceId answers 404 exactly
    when it cannot answer from the store (there is no store client, the
    store rejects the request, or the store does not hold a single row for
    the reference in a terminal status), the access token is obtained, the
    payment network returns no transaction, and the cache has no entry.  A
    row with a tentative status does not prevent the 404, and a store that
    rejects the request is no error: the route goes on to the poll.  The
    route answers 500 exactly when it cannot answer from the store and the
    token exchange fails, and 200 in every other case. *)
Theorem status_not_found_iff env referenceId w :
  (status_code (PaymentRoutes.status env referenceId w).2 = 404%Z
   <-> answered_from_store env w referenceId = false
       /\ access_token env <> None
       /\ truthy (momo_requesttopay env referenceId) = false
       /\ map_get (VStr referenceId) (transactionStore w) = None)
  /\ (status_code (PaymentRoutes.status env referenceId w).2 = 500%Z
      <-> answered_from_store env w referenceId = false
          /\ access_token env = None)
  /\ (status_code (PaymentRoutes.status env referenceId w).2 = 200%Z
      \/ status_code (PaymentRoutes.status env referenceId w).2 = 404%Z
      \/ status_code (PaymentRoutes.status env referenceId w).2 = 500%Z).
Proof.
  rewrite status_code_of.
  destruct (answered_from_store env w referenceId);
  destruct (access_token env);
  destruct (truthy (momo_requesttopay env referenceId));
  destruct (map_get (VStr referenceId) (transactionStore w));
  (split; [|split]);
  try (split; [discriminate|]); try (now left); try (now right; left);
  try (now right; right);
  try (intros (H1 & H2 & H3 & H4); congruence);
  try (intros (H1 & H2); congruence);
  try (split; [intros _|reflexivity]; repeat split; congruence).
Qed.

(** C9, as the specification words it, fails: the order of REF-1 is in the
    orders table with status PENDING, the cache is empty and the payment
    network returns nothing; the route answers 404. *)
Lemma pending_order_not_found :
  ~ not_found_iff_absent default_env "REF-1" restarted_world.
Proof.
  intros [H _].
  apply H; [reflexivity|].
  left. exists [pending_order], pending_order.
  split; [reflexivity|]. split; [now left|reflexivity].
Qed.

End StatusRoute.

(** ** Scenarios of the specification *)

Section Scenarios.

Import CallbackHandler.

(** A callback with unresolvable identifiers is answered with HTTP 400. *)
Example scenario_empty_callback :
  callback default_env
    {| x_reference_id := None; x_momo_signature := None; req_body := ∅ |}
    empty_world
  = (empty_world, bad_request).
Proof. reflexivity. Qed.

(** The same SUCCESSFUL callback delivered twice does not error. *)
Example scenario_duplicate_callback :
  let req := callback_for "R1" "SUCCESSFUL" in
  (callback default_env req (callback default_env req empty_world).1).2
  = acknowledged req.
Proof. reflexivity. Qed.

(** A reference absent from cache, store and payment network: HTTP 404. *)
Example scenario_unknown_reference :
  status_code (PaymentRoutes.status default_env "R404" empty_world).2 = 404%Z.
Proof. reflexivity. Qed.

(** A settled order is answered from the database. *)
Example scenario_settled_order :
  (PaymentRoutes.status default_env "R1" paid_world).2
  = PaymentRoutes.from_database paid_order.
Proof. reflexivity. Qed.

End Scenarios.

(** ** The whole effect of the per-status handlers *)

Section HandlerEffects.

Import CallbackHandler.

Variable env : environment.

(** The conditional update, in closed form. *)
Lemma update_if_connected_outcome (updateData : obj) (ref : jsval) w :
  (if (match supabase w with Some _ => true | None => false end)
   then update_order env updateData ref else ret None) w
  = ({| transactionStore := transactionStore w;
        supabase := table_after env updateData ref (supabase w);
        fired := fired w |},
     Returned (row_after env updateData ref (supabase w))).
Proof.
  unfold table_after, row_after, updated_by_reference, updated_row.
  destruct w as [store [t|] events]; simpl.
  - unfold update_order, await_supabase. simpl.
    destruct (supabase_rejects env); [reflexivity|].
    now destruct (Supabase.update_eq_single _ _ _ t) as [t' r].
  - now destruct (supabase_rejects env).
Qed.

Lemma table_after_responds (updateData : obj) (ref : jsval) w :
  store_responds env w ->
  table_after env updateData ref (supabase w)
  = updated_by_reference updateData ref (supabase w)
  /\ row_after env updateData ref (supabase w)
     = updated_row updateData ref (supabase w).
Proof.
  unfold table_after, row_after. intros [-> | ->]; [now split|].
  now destruct (supabase_rejects env).
Qed.

Lemma update_if_connected_effect (updateData : obj) (ref : jsval) w :
  store_responds env w ->
  (if (match supabase w with Some _ => true | None => false end)
   then update_order env updateData ref else ret None) w
  = ({| transactionStore := transactionStore w;
        supabase := updated_by_reference updateData ref (supabase w);
        fired := fired w |},
     Returned (updated_row updateData ref (supabase w))).
Proof.
  intros Hok. rewrite update_if_connected_outcome.
  now destruct (table_after_responds updateData ref w Hok) as [-> ->].
Qed.

Lemma processSuccessfulPayment_outcome (transactionData : obj) w :
  let stored :=
    <["processedAt" := VStr (now env)]>
      (<["status" := VStr "SUCCESSFUL"]> transactionData) in
  let ref := prop transactionData "referenceId" in
  let updateData := success_update env transactionData in
  let order := default stored (row_after env updateData ref (supabase w)) in
  processSuccessfulPayment env transactionData w
  = ({| transactionStore := map_set ref stored (transactionStore w);
        supabase := table_after env updateData ref (supabase w);
        fired := (fired w ++ listener_events env stored
                  ++ List.map (fun h => hook_event h ref order) success_hooks)%list |},
     Returned order).
Proof.
  intros stored ref updateData order. unfold processSuccessfulPayment.
  rewrite (bind_returned _ _ w w _ eq_refl).
  rewrite (bind_returned _ _ _ _ _
             (update_if_connected_outcome updateData ref w)).
  fold stored.
  replace (prop stored "referenceId") with ref
    by (unfold stored; now rewrite !prop_insert_ne by discriminate).
  rewrite (bind_returned _ _ _ _ _ eq_refl).
  unfold notifyListeners.
  rewrite (bind_returned _ _ _ _ _ (notify_each_run _ _ _)).
  do 4 rewrite (bind_returned _ _ _ _ _ eq_refl).
  unfold ret, with_events, with_event, with_store. simpl.
  fold order. unfold listener_events, hook_event, success_hooks. simpl.
  replace (prop stored "referenceId") with ref
    by (unfold stored; now rewrite !prop_insert_ne by discriminate).
  now rewrite <- !List.app_assoc.
Qed.

Lemma processSuccessfulPayment_effect (transactionData : obj) w :
  store_responds env w ->
  let stored :=
    <["processedAt" := VStr (now env)]>
      (<["status" := VStr "SUCCESSFUL"]> transactionData) in
  let ref := prop transactionData "referenceId" in
  let updateData := success_update env transactionData in
  let order := default stored (updated_row updateData ref (supabase w)) in
  processSuccessfulPayment env transactionData w
  = ({| transactionStore := map_set ref stored (transactionStore w);
        supabase := updated_by_reference updateData ref (supabase w);
        fired := (fired w ++ listener_events env stored
                  ++ List.map (fun h => hook_event h ref order) success_hooks)%list |},
     Returned order).
Proof.
  intros Hok. cbv zeta. rewrite (processSuccessfulPayment_outcome transactionData w). cbv zeta.
  now destruct (table_after_responds
                  (success_update env transactionData) (prop transactionData "referenceId") w Hok)
    as [-> ->].
Qed.

Lemma processFailedPayment_outcome (transactionData : obj) (reason : jsval) w :
  let stored :=
    <["processedAt" := VStr (now env)]>
      (<["failureReason" := reason <||> VStr "Unknown"]>
         (<["status" := VStr "FAILED"]> transactionData)) in
  let ref := prop transactionData "referenceId" in
  let updateData := failure_update env transactionData reason in
  let order := default stored (row_after env updateData ref (supabase w)) in
  processFailedPayment env transactionData reason w
  = ({| transactionStore := map_set ref stored (transactionStore w);
        supabase := table_after env updateData ref (supabase w);
        fired := (fired w ++ listener_events env stored
                  ++ [hook_event FailureNotification ref order;
                      hook_event FailedTransactionLog ref stored])%list |},
     Returned order).
Proof.
  intros stored ref updateData order. unfold processFailedPayment.
  rewrite (bind_returned _ _ w w _ eq_refl).
  rewrite (bind_returned _ _ _ _ _
             (update_if_connected_outcome updateData ref w)).
  fold stored.
  replace (prop stored "referenceId") with ref
    by (unfold stored; now rewrite !prop_insert_ne by discriminate).
  rewrite (bind_returned _ _ _ _ _ eq_refl).
  unfold notifyListeners.
  rewrite (bind_returned _ _ _ _ _ (notify_each_run _ _ _)).
  do 2 rewrite (bind_returned _ _ _ _ _ eq_refl).
  unfold ret, with_events, with_event, with_store. simpl.
  fold order. unfold listener_events, hook_event. simpl.
  replace (prop stored "referenceId") with ref
    by (unfold stored; now rewrite !prop_insert_ne by discriminate).
  now rewrite <- !List.app_assoc.
Qed.

Lemma processFailedPayment_effect (transactionData : obj) (reason : jsval) w :
  store_responds env w ->
  let stored :=
    <["processedAt" := VStr (now env)]>
      (<["failureReason" := reason <||> VStr "Unknown"]>
         (<["status" := VStr "FAILED"]> transactionData)) in
  let ref := prop transactionData "referenceId" in
  let updateData := failure_update env transactionData reason in
  let order := default stored (updated_row updateData ref (supabase w)) in
  processFailedPayment env transactionData reason w
  = ({| transactionStore := map_set ref stored (transactionStore w);
        supabase := updated_by_reference updateData ref (supabase w);
        fired := (fired w ++ listener_events env stored
                  ++ [hook_event FailureNotification ref order;
                      hook_event FailedTransactionLog ref stored])%list |},
     Returned order).
Proof.
  intros Hok. cbv zeta. rewrite (processFailedPayment_outcome transactionData reason w). cbv zeta.
  now destruct (table_after_responds
                  (failure_update env transactionData reason) (prop transactionData "referenceId") w Hok)
    as [-> ->].
Qed.

Lemma processPendingPayment_outcome (transactionData : obj) w :
  let stored :=
    <["lastUpdated" := VStr (now env)]>
      (<["status" := VStr "PENDING"]> transactionData) in
  let ref := prop transactionData "referenceId" in
  let updateData := pending_update env transactionData in
  processPendingPayment env transactionData w
  = ({| transactionStore := map_set ref stored (transactionStore w);
        supabase := table_after env updateData ref (supabase w);
        fired := (fired w ++ listener_events env stored)%list |},
     Returned (default stored (row_after env updateData ref (supabase w)))).
Proof.
  intros stored ref updateData. unfold processPendingPayment.
  rewrite (bind_returned _ _ w w _ eq_refl).
  rewrite (bind_returned _ _ _ _ _
             (update_if_connected_outcome updateData ref w)).
  fold stored.
  replace (prop stored "referenceId") with ref
    by (unfold stored; now rewrite !prop_insert_ne by discriminate).
  rewrite (bind_returned _ _ _ _ _ eq_refl).
  unfold notifyListeners.
  rewrite (bind_returned _ _ _ _ _ (notify_each_run _ _ _)).
  reflexivity.
Qed.

Lemma processPendingPayment_effect (transactionData : obj) w :
  store_responds env w ->
  let stored :=
    <["lastUpdated" := VStr (now env)]>
      (<["status" := VStr "PENDING"]> transactionData) in
  let ref := prop transactionData "referenceId" in
  let updateData := pending_update env transactionData in
  processPendingPayment env transactionData w
  = ({| transactionStore := map_set ref stored (transactionStore w);
        supabase := updated_by_reference updateData ref (supabase w);
        fired := (fired w ++ listener_events env stored)%list |},
     Returned (default stored (updated_row updateData ref (supabase w)))).
Proof.
  intros Hok. cbv zeta. rewrite (processPendingPayment_outcome transactionData w). cbv zeta.
  now destruct (table_after_responds
                  (pending_update env transactionData) (prop transactionData "referenceId") w Hok)
    as [-> ->].
Qed.

(** The route after the lookup: the [switch], then the acknowledgement,
    or the [catch]. *)
Lemma callback_after_lookup req w transactionData :
  no_identifier req = false ->
  signature_gate env req = Returned true ->
  find_transaction env req w = (w, Returned transactionData) ->
  callback env req w
  = match dispatch env req (merge_callback env req transactionData) w with
    | (w', Returned _) => (w', acknowledged req)
    | (w', Raised e) => (w', processing_failed e)
    end.
Proof.
  intros Hid Hgate Hfind.
  destruct (dispatch env req (merge_callback env req transactionData) w)
    as [w' [[]|e]] eqn:Hd.
  - apply (callback_try_catch env req w w' (Returned (acknowledged req))).
    rewrite (callback_try_gate env req w Hid), Hgate.
    now rewrite (bind_returned _ _ _ _ _ Hfind), (bind_returned _ _ _ _ _ Hd).
  - apply (callback_try_catch env req w w' (Raised e)).
    rewrite (callback_try_gate env req w Hid), Hgate.
    now rewrite (bind_returned _ _ _ _ _ Hfind), (bind_raised _ _ _ _ _ Hd).
Qed.

(** The [switch], case by case. *)
Lemma dispatch_successful req td w :
  status_of (req_body req) = VStr "SUCCESSFUL" ->
  dispatch env req td w
  = (processSuccessfulPayment env td ;;; ret tt) w.
Proof. unfold dispatch. now intros ->. Qed.

Lemma dispatch_failed req td w :
  status_of (req_body req) = VStr "FAILED" ->
  dispatch env req td w
  = (processFailedPayment env td (reason_of (req_body req)) ;;; ret tt) w.
Proof. unfold dispatch. now intros ->. Qed.

Lemma dispatch_tentative req td w :
  tentative (status_of (req_body req)) ->
  dispatch env req td w
  = (processPendingPayment env td ;;; ret tt) w.
Proof. unfold dispatch. now intros [-> | ->]. Qed.

Lemma dispatch_unrecognized req td w :
  recognized (status_of (req_body req)) = false ->
  dispatch env req td w
  = (with_store (map_set (transactionId req) td (transactionStore w)) w,
     Returned tt).
Proof.
  unfold dispatch, recognized.
  destruct (status_of (req_body req)) as [| |b|n|s|o]; try reflexivity.
  intros H. apply orb_false_elim in H. destruct H as [H H4].
  apply orb_false_elim in H. destruct H as [H H3].
  apply orb_false_elim in H. destruct H as [H1 H2].
  now rewrite H1, H2, H3, H4.
Qed.

Lemma recognized_cases status :
  recognized status = true ->
  status = VStr "SUCCESSFUL" \/ status = VStr "FAILED" \/ tentative status.
Proof.
  unfold recognized, tentative. destruct status as [| |b|n|s|o]; try discriminate.
  intros H. apply orb_true_elim in H. destruct H as [H|H].
  - apply orb_true_elim in H. destruct H as [H|H].
    + apply orb_true_elim in H. destruct H as [H|H];
        apply String.eqb_eq in H; subst; auto.
    + apply String.eqb_eq in H; subst; auto.
  - apply String.eqb_eq in H; subst; auto.
Qed.

End HandlerEffects.

(** ** What POST /callback touches *)

Section CallbackFrame.

Import CallbackHandler.

Variable env : environment.

Lemma key_eqb_eq a b : key_eqb a b = true -> a = b.
Proof.
  destruct a, b; simpl; try discriminate; intros H; try reflexivity.
  - apply Bool.eqb_prop in H. now subst.
  - apply Z.eqb_eq in H. now subst.
  - apply String.eqb_eq in H. now subst.
Qed.

Lemma map_get_set_other {V} (k k2 : jsval) (v : V) (m : jsmap V) :
  k <> k2 -> map_get k2 (map_set k v m) = map_get k2 m.
Proof.
  intros Hne. induction m as [|[k' v'] m IH]; simpl.
  - destruct (key_eqb k k2) eqn:E; [|reflexivity].
    apply key_eqb_eq in E. contradiction.
  - destruct (key_eqb k' k) eqn:E; simpl.
    + apply key_eqb_eq in E. subst k'.
      destruct (key_eqb k k2) eqn:E2; [|reflexivity].
      apply key_eqb_eq in E2. contradiction.
    + now rewrite IH.
Qed.

Lemma map_get_keyed (k : jsval) (td : obj) (m : jsmap obj) :
  keyed m -> map_get k m = Some td -> prop td "referenceId" = k.
Proof.
  unfold keyed. induction m as [|[k' v'] m IH]; simpl; [discriminate|].
  intros Hall Hget. apply List.Forall_cons_iff in Hall.
  destruct Hall as [Hhead Htail]. simpl in Hhead.
  destruct (key_eqb k' k) eqn:E.
  - apply key_eqb_eq in E. injection Hget as <-. rewrite <- E. exact Hhead.
  - now apply IH.
Qed.

Lemma keyed_map_set (k : jsval) (td : obj) (m : jsmap obj) :
  keyed m -> prop td "referenceId" = k -> keyed (map_set k td m).
Proof.
  unfold keyed. intros Hall Href.
  induction m as [|[k' v'] m IH]; simpl.
  - constructor; [exact Href|constructor].
  - apply List.Forall_cons_iff in Hall. destruct Hall as [Hhead Htail].
    destruct (key_eqb k' k) eqn:E.
    + apply key_eqb_eq in E. constructor; [simpl; now rewrite E|exact Htail].
    + constructor; [exact Hhead|now apply IH].
Qed.

(** The lookup always gives a record and changes nothing. *)
Lemma find_transaction_total req w :
  exists td, find_transaction env req w = (w, Returned td).
Proof.
  unfold find_transaction.
  rewrite (bind_returned _ _ w w _ eq_refl).
  destruct (map_get _ _); [eexists; reflexivity|].
  rewrite (bind_returned _ _ w w _ eq_refl).
  destruct (supabase w) as [t|] eqn:Ht; [|eexists; reflexivity].
  unfold bind, await_supabase. rewrite Ht.
  destruct (supabase_rejects env); [eexists; reflexivity|].
  rewrite (with_table_same _ _ Ht).
  destruct (Supabase.single _); eexists; reflexivity.
Qed.

(** What the [switch] leaves: one record under
    the record's reference, new events at the end of the log, and either
    the orders table as it was or one update by that reference that writes
    no key column. *)
Lemma dispatch_outcome req td w :
  prop td "referenceId" = transactionId req ->
  exists w' stored es,
    dispatch env req td w = (w', Returned tt)
    /\ transactionStore w'
       = map_set (transactionId req) stored (transactionStore w)
    /\ prop stored "referenceId" = transactionId req
    /\ fired w' = (fired w ++ es)%list
    /\ List.map ev_hook es = hooks_invoked env (status_of (req_body req))
    /\ List.Forall (fun e => ev_reference e = transactionId req) es
    /\ (supabase w' = supabase w
        \/ exists updateData : obj,
             (forall c, In c key_columns -> updateData !! c = None)
             /\ supabase w'
                = updated_by_reference updateData (transactionId req)
                    (supabase w)).
Proof.
  intros Href.
  assert (Hkeys : forall u : obj,
             u !! "id" = None -> u !! "reference_id" = None ->
             u !! "external_id" = None ->
             forall c, In c key_columns -> u !! c = None).
  { intros u H1 H2 H3 c [<-|[<-|[<-|[]]]]; assumption. }
  assert (Hlisteners : forall stored : obj,
             prop stored "referenceId" = transactionId req ->
             List.Forall (fun e => ev_reference e = transactionId req)
               (listener_events env stored)).
  { intros stored Hst. unfold listener_events. apply List.Forall_forall.
    intros e Hin. apply List.in_map_iff in Hin. destruct Hin as (i & <- & _).
    exact Hst. }
  assert (Hkinds : forall stored : obj,
             List.map ev_hook (listener_events env stored)
             = List.map Listener (callbackListeners env)).
  { intros stored. unfold listener_events. rewrite List.map_map. reflexivity. }
  destruct (recognized (status_of (req_body req))) eqn:Hrec.
  - destruct (recognized_cases _ Hrec) as [Hs|[Hs|Hs]].
    + rewrite (dispatch_successful env req td w Hs).
      pose proof (processSuccessfulPayment_outcome env td w) as H.
      cbv zeta in H. rewrite Href in H.
      rewrite (bind_returned _ _ _ _ _ H).
      eexists _, _, _. split; [reflexivity|]. split; [reflexivity|].
      split; [now rewrite !prop_insert_ne by discriminate|].
      split; [reflexivity|]. split; [|split].
      * rewrite List.map_app, Hkinds. unfold hooks_invoked.
        now rewrite Hrec, Hs.
      * apply List.Forall_app. split.
        -- apply Hlisteners. now rewrite !prop_insert_ne by discriminate.
        -- repeat constructor.
      * cbn [supabase]. unfold table_after.
        destruct (supabase_rejects env); [now left|].
        right. eexists. split; [|reflexivity].
        apply Hkeys; reflexivity.
    + rewrite (dispatch_failed env req td w Hs).
      pose proof (processFailedPayment_outcome env td
                    (reason_of (req_body req)) w) as H.
      cbv zeta in H. rewrite Href in H.
      rewrite (bind_returned _ _ _ _ _ H).
      eexists _, _, _. split; [reflexivity|]. split; [reflexivity|].
      split; [now rewrite !prop_insert_ne by discriminate|].
      split; [reflexivity|]. split; [|split].
      * rewrite List.map_app, Hkinds. unfold hooks_invoked.
        now rewrite Hrec, Hs.
      * apply List.Forall_app. split.
        -- apply Hlisteners. now rewrite !prop_insert_ne by discriminate.
        -- repeat constructor.
      * cbn [supabase]. unfold table_after.
        destruct (supabase_rejects env); [now left|].
        right. eexists. split; [|reflexivity].
        apply Hkeys; reflexivity.
    + rewrite (dispatch_tentative env req td w Hs).
      pose proof (processPendingPayment_outcome env td w) as H.
      cbv zeta in H. rewrite Href in H.
      rewrite (bind_returned _ _ _ _ _ H).
      eexists _, _, _. split; [reflexivity|]. split; [reflexivity|].
      split; [now rewrite !prop_insert_ne by discriminate|].
      split; [reflexivity|]. split; [|split].
      * rewrite Hkinds. unfold hooks_invoked. rewrite Hrec.
        destruct Hs as [-> | ->]; simpl; now rewrite List.app_nil_r.
      * apply Hlisteners. now rewrite !prop_insert_ne by discriminate.
      * cbn [supabase]. unfold table_after.
        destruct (supabase_rejects env); [now left|].
        right. eexists. split; [|reflexivity].
        apply Hkeys; reflexivity.
  - rewrite (dispatch_unrecognized env req td w Hrec).
    exists (with_store (map_set (transactionId req) td (transactionStore w)) w),
      td, []. split; [reflexivity|]. split; [reflexivity|].
    split; [exact Href|]. split; [simpl; now rewrite List.app_nil_r|].
    split; [unfold hooks_invoked; now rewrite Hrec|].
    split; [constructor|left; reflexivity].
Qed.

Lemma dispatch_effect req td w :
  store_responds env w ->
  prop td "referenceId" = transactionId req ->
  exists w' stored es,
    dispatch env req td w = (w', Returned tt)
    /\ transactionStore w'
       = map_set (transactionId req) stored (transactionStore w)
    /\ prop stored "referenceId" = transactionId req
    /\ fired w' = (fired w ++ es)%list
    /\ List.map ev_hook es = hooks_invoked env (status_of (req_body req))
    /\ List.Forall (fun e => ev_reference e = transactionId req) es
    /\ (supabase w' = supabase w
        \/ exists updateData : obj,
             (forall c, In c key_columns -> updateData !! c = None)
             /\ supabase w'
                = updated_by_reference updateData (transactionId req)
                    (supabase w)).
Proof. intros _. apply dispatch_outcome. Qed.

End CallbackFrame.

(** ** Further properties of POST /callback *)

Section CallbackExtras.

Import CallbackHandler.

(** Every way a delivery can end: nothing changed, or the record was
    looked up, merged, written under the resolved identifier, and the
    delivery acknowledged. *)
Lemma callback_effect env req w :
  (callback env req w).1 = w
  \/ exists found stored es,
       find_transaction env req w = (w, Returned found)
       /\ (callback env req w).2 = acknowledged req
       /\ transactionStore (callback env req w).1
          = map_set (transactionId req) stored (transactionStore w)
       /\ prop stored "referenceId" = transactionId req
       /\ fired (callback env req w).1 = (fired w ++ es)%list
       /\ (supabase (callback env req w).1 = supabase w
           \/ exists updateData : obj,
                (forall c, In c key_columns -> updateData !! c = None)
                /\ supabase (callback env req w).1
                   = updated_by_reference updateData (transactionId req)
                       (supabase w)).
Proof.
  destruct (callback_cases env req w)
    as [[_ ->]|[Hid [(e & _ & _ & ->)|[[_ ->]|[Hgate _]]]]];
    try (left; reflexivity).
  destruct (find_transaction_total env req w) as [found Hfind].
  rewrite (callback_after_lookup env req w found Hid Hgate Hfind).
  destruct (dispatch_outcome env req (merge_callback env req found) w
              (merge_callback_referenceId env req found))
    as (w' & stored & es & -> & Hst & Href & Hf & _ & _ & Hdb).
  right. exists found, stored, es. simpl. auto 10.
Qed.

(** X1.  POST /callback keeps the cache keyed: if every cached record
    sits under its own [referenceId] before a delivery, so it does after
    it, whatever the delivery carries and however it ends. *)
Theorem callback_keeps_cache_keyed env req w :
  keyed (transactionStore w) ->
  keyed (transactionStore (callback env req w).1).
Proof.
  intros Hk.
  destruct (callback_effect env req w)
    as [-> |(found & stored & es & _ & _ & -> & Href & _)]; [exact Hk|].
  now apply keyed_map_set.
Qed.

Lemma callback_keeps_cache_keyed_witness :
  keyed (transactionStore
           (callback default_env (callback_for "R1" "PENDING") paid_world).1).
Proof.
  apply (callback_keeps_cache_keyed default_env (callback_for "R1" "PENDING")
           paid_world).
  repeat constructor.
Defined.

(** X2.  A delivery touches the cache entry of the identifier it resolves
    and no other: under every other key the cache answers as before. *)
Theorem callback_leaves_other_references env req w k :
  k <> transactionId req ->
  map_get k (transactionStore (callback env req w).1)
  = map_get k (transactionStore w).
Proof.
  intros Hne.
  destruct (callback_effect env req w)
    as [-> |(found & stored & es & _ & _ & -> & _)]; [reflexivity|].
  apply map_get_set_other. congruence.
Qed.

Lemma callback_leaves_other_references_witness :
  map_get (VStr "R1")
    (transactionStore
       (callback default_env (callback_for "R2" "FAILED") paid_world).1)
  = map_get (VStr "R1") (transactionStore paid_world).
Proof.
  apply (callback_leaves_other_references default_env
           (callback_for "R2" "FAILED") paid_world (VStr "R1")).
  discriminate.
Defined.

Lemma same_orders_refl ref t : same_orders ref t t.
Proof.
  unfold same_orders. induction t; constructor; auto.
Qed.

Lemma keys_of_patch (updateData : obj) r :
  (forall c, In c key_columns -> updateData !! c = None) ->
  keys_of (Supabase.patch updateData r) = keys_of r.
Proof.
  intros Hkeys. unfold keys_of, key_columns. simpl.
  rewrite !patch_lookup_other by (apply Hkeys; simpl; auto). reflexivity.
Qed.

Lemma same_orders_update (updateData : obj) ref t :
  (forall c, In c key_columns -> updateData !! c = None) ->
  same_orders ref t
    (Supabase.update_eq_single updateData "reference_id" ref t).1.
Proof.
  intros Hkeys. unfold Supabase.update_eq_single.
  destruct (Supabase.select_eq "reference_id" ref t) as [|r0 [|r1 rs]];
    try apply same_orders_refl.
  simpl. unfold same_orders, Supabase.update_eq.
  induction t as [|r t IH]; simpl; constructor; [|exact IH].
  destruct (Supabase.col_eq "reference_id" ref r) eqn:E.
  - split; [now apply keys_of_patch|discriminate].
  - split; reflexivity.
Qed.

(** X3.  POST /callback never adds or removes an order and never rewrites
    the columns that identify one: after any delivery the orders table has
    the same rows in the same order with the same id, reference_id and
    external_id, and every row that does not carry the resolved identifier
    as its reference is unchanged. *)
Theorem callback_keeps_orders env req w t :
  supabase w = Some t ->
  exists t',
    supabase (callback env req w).1 = Some t'
    /\ same_orders (to_string (transactionId req)) t t'.
Proof.
  intros Ht.
  destruct (callback_effect env req w)
    as [-> |(found & stored & es & _ & _ & _ & _ & _ & [-> |(u & Hkeys & ->)])].
  - exists t. split; [exact Ht|apply same_orders_refl].
  - exists t. split; [exact Ht|apply same_orders_refl].
  - rewrite Ht. eexists. split; [reflexivity|].
    now apply same_orders_update.
Qed.

Lemma callback_keeps_orders_witness :
  exists t',
    supabase (callback default_env order_callback restarted_world).1 = Some t'
    /\ same_orders (to_string (transactionId order_callback))
         [pending_order] t'.
Proof.
  apply (callback_keeps_orders default_env order_callback restarted_world
           [pending_order]).
  reflexivity.
Defined.

(** A delivery to a store that rejects the requests, after the lookup. *)
Lemma dispatch_refused env req td w :
  supabase_rejects env = true ->
  prop td "referenceId" = transactionId req ->
  exists w' stored es,
    dispatch env req td w = (w', Returned tt)
    /\ transactionStore w'
       = map_set (transactionId req) stored (transactionStore w)
    /\ supabase w' = supabase w
    /\ fired w' = (fired w ++ es)%list
    /\ prop stored "referenceId" = transactionId req
    /\ (terminal (status_of (req_body req)) ->
        prop td "status" = status_of (req_body req) ->
        prop stored "status" = status_of (req_body req))
    /\ (tentative (status_of (req_body req)) ->
        prop stored "status" = VStr "PENDING")
    /\ List.map ev_hook es = hooks_invoked env (status_of (req_body req))
    /\ List.Forall (fun e => ev_arg e = stored) es.
Proof.
  intros Hr Href.
  assert (Hargs : forall stored : obj,
             List.Forall (fun e => ev_arg e = stored)
               (listener_events env stored)).
  { intros stored. unfold listener_events. apply List.Forall_forall.
    intros e Hin. apply List.in_map_iff in Hin. now destruct Hin as (i & <- & _). }
  assert (Hkinds : forall stored : obj,
             List.map ev_hook (listener_events env stored)
             = List.map Listener (callbackListeners env)).
  { intros stored. unfold listener_events. rewrite List.map_map. reflexivity. }
  destruct (recognized (status_of (req_body req))) eqn:Hrec.
  - destruct (recognized_cases _ Hrec) as [Hs|[Hs|Hs]].
    + rewrite (dispatch_successful env req td w Hs).
      pose proof (processSuccessfulPayment_outcome env td w) as H.
      cbv zeta in H. unfold table_after, row_after in H.
      rewrite Hr, Href in H. cbn [default] in H.
      rewrite (bind_returned _ _ _ _ _ H).
      eexists _, _, _. split; [reflexivity|]. split; [reflexivity|].
      split; [reflexivity|]. split; [reflexivity|].
      split; [now rewrite !prop_insert_ne by discriminate|].
      split; [intros _ _; rewrite Hs;
              now rewrite prop_insert_ne, prop_insert_eq by discriminate|].
      split; [intros [Ht|Ht]; rewrite Hs in Ht; discriminate Ht|].
      split.
      * rewrite List.map_app, Hkinds. unfold hooks_invoked.
        now rewrite Hrec, Hs.
      * apply List.Forall_app. split; [apply Hargs|repeat constructor].
    + rewrite (dispatch_failed env req td w Hs).
      pose proof (processFailedPayment_outcome env td
                    (reason_of (req_body req)) w) as H.
      cbv zeta in H. unfold table_after, row_after in H.
      rewrite Hr, Href in H. cbn [default] in H.
      rewrite (bind_returned _ _ _ _ _ H).
      eexists _, _, _. split; [reflexivity|]. split; [reflexivity|].
      split; [reflexivity|]. split; [reflexivity|].
      split; [now rewrite !prop_insert_ne by discriminate|].
      split; [intros _ _; rewrite Hs;
              now rewrite !prop_insert_ne, prop_insert_eq by discriminate|].
      split; [intros [Ht|Ht]; rewrite Hs in Ht; discriminate Ht|].
      split.
      * rewrite List.map_app, Hkinds. unfold hooks_invoked.
        now rewrite Hrec, Hs.
      * apply List.Forall_app. split; [apply Hargs|repeat constructor].
    + rewrite (dispatch_tentative env req td w Hs).
      pose proof (processPendingPayment_outcome env td w) as H.
      cbv zeta in H. unfold table_after, row_after in H.
      rewrite Hr, Href in H. cbn [default] in H.
      rewrite (bind_returned _ _ _ _ _ H).
      eexists _, _, _. split; [reflexivity|]. split; [reflexivity|].
      split; [reflexivity|]. split; [reflexivity|].
      split; [now rewrite !prop_insert_ne by discriminate|].
      split; [intros [Ht|Ht] _; destruct Hs as [Hs|Hs]; rewrite Hs in Ht;
              discriminate Ht|].
      split; [intros _;
              now rewrite prop_insert_ne, prop_insert_eq by discriminate|].
      split.
      * rewrite Hkinds. unfold hooks_invoked. rewrite Hrec.
        destruct Hs as [-> | ->]; simpl; now rewrite List.app_nil_r.
      * apply Hargs.
  - rewrite (dispatch_unrecognized env req td w Hrec).
    exists (with_store (map_set (transactionId req) td (transactionStore w)) w),
      td, []. split; [reflexivity|]. split; [reflexivity|].
    split; [reflexivity|]. split; [simpl; now rewrite List.app_nil_r|].
    split; [exact Href|].
    split; [intros _ H; exact H|].
    split; [intros [Ht|Ht]; rewrite Ht in Hrec; discriminate Hrec|].
    split; [unfold hooks_invoked; now rewrite Hrec|constructor].
Qed.

(** X4.  A store that rejects the requests does not stop a delivery: the
    handler logs the error and goes on with the cache alone.  The orders
    lookup gives nothing, so the record found is the cached one or else a
    fresh one; the merged record is written under the resolved identifier
    with the status the handler sets (PENDING for PENDING and CREATED, and
    so over a cached SUCCESSFUL or FAILED); the listeners and the hooks of
    the status run as usual, each handed that cached record in place of
    an order; no order changes; and the delivery is acknowledged. *)
Theorem rejecting_store_callback_uses_cache_only env req w :
  no_identifier req = false ->
  signature_gate env req = Returned true ->
  supabase_rejects env = true ->
  let w' := (callback env req w).1 in
  (callback env req w).2 = acknowledged req
  /\ find_transaction env req w
     = (w, Returned (default (fresh_record env (transactionId req))
                       (map_get (transactionId req) (transactionStore w))))
  /\ supabase w' = supabase w
  /\ exists stored es,
       transactionStore w'
       = map_set (transactionId req) stored (transactionStore w)
       /\ prop stored "referenceId" = transactionId req
       /\ (terminal (status_of (req_body req)) ->
           prop stored "status" = status_of (req_body req))
       /\ (tentative (status_of (req_body req)) ->
           prop stored "status" = VStr "PENDING")
       /\ fired w' = (fired w ++ es)%list
       /\ List.map ev_hook es = hooks_invoked env (status_of (req_body req))
       /\ List.Forall (fun e => ev_arg e = stored) es.
Proof.
  intros Hid Hgate Hr w'. subst w'.
  assert (Hfind : find_transaction env req w
            = (w, Returned (default (fresh_record env (transactionId req))
                              (map_get (transactionId req)
                                 (transactionStore w))))).
  { unfold find_transaction.
    rewrite (bind_returned _ _ w w _ eq_refl).
    destruct (map_get _ _); [reflexivity|].
    rewrite (bind_returned _ _ w w _ eq_refl).
    destruct (supabase w) as [t|] eqn:Ht; [|reflexivity].
    unfold bind, await_supabase. now rewrite Ht, Hr. }
  rewrite (callback_after_lookup env req w _ Hid Hgate Hfind).
  destruct (dispatch_refused env req
              (merge_callback env req
                 (default (fresh_record env (transactionId req))
                    (map_get (transactionId req) (transactionStore w))))
              w Hr (merge_callback_referenceId env req _))
    as (w' & stored & es & -> & Hst & Hdb & Hf & Href & Hterm & Htent & Hk & Ha).
  cbn [fst snd].
  split; [reflexivity|]. split; [exact Hfind|]. split; [exact Hdb|].
  exists stored, es. split; [exact Hst|]. split; [exact Href|].
  split; [intros Ht; apply Hterm; [exact Ht|apply merge_callback_status]|].
  split; [exact Htent|]. split; [exact Hf|]. split; [exact Hk|exact Ha].
Qed.

Lemma rejecting_store_callback_uses_cache_only_witness :
  let req := callback_for "R1" "PENDING" in
  let w' := (callback failing_store_env req paid_world).1 in
  (callback failing_store_env req paid_world).2 = acknowledged req
  /\ supabase w' = Some [paid_order]
  /\ stored_status w' (VStr "R1") = Some (VStr "PENDING").
Proof.
  intros req w'.
  destruct (rejecting_store_callback_uses_cache_only failing_store_env req
              paid_world eq_refl eq_refl eq_refl)
    as (Hres & _ & Hdb & stored & es & Hst & _ & _ & Htent & _).
  split; [exact Hres|]. split; [exact Hdb|].
  unfold stored_status. subst w'. rewrite Hst.
  rewrite (map_get_set_same (VStr "R1") stored _ eq_refl). simpl.
  now rewrite (Htent (or_introl eq_refl)).
Defined.

(** X5.  A status the [switch] has no case for (missing, misspelt, not a
    string) makes the delivery a cache-only update: the merged record is
    written under the resolved identifier as it is, the orders table is
    not touched, no listener is notified and no hook runs; the delivery
    is acknowledged. *)
Theorem unrecognized_status_is_cache_only env req w :
  no_identifier req = false ->
  signature_gate env req = Returned true ->
  store_responds env w ->
  recognized (status_of (req_body req)) = false ->
  exists found,
    find_transaction env req w = (w, Returned found)
    /\ (callback env req w).2 = acknowledged req
    /\ transactionStore (callback env req w).1
       = map_set (transactionId req) (merge_callback env req found)
           (transactionStore w)
    /\ supabase (callback env req w).1 = supabase w
    /\ fired (callback env req w).1 = fired w.
Proof.
  intros Hid Hgate Hok Hrec.
  destruct (find_transaction_returns env req w Hok) as [found Hfind].
  exists found. split; [exact Hfind|].
  rewrite (callback_after_lookup env req w found Hid Hgate Hfind).
  rewrite (dispatch_unrecognized env req _ w Hrec). simpl.
  repeat split; reflexivity.
Qed.

Lemma unrecognized_status_is_cache_only_witness :
  let req := callback_for "R1" "REFUNDED" in
  exists found,
    find_transaction default_env req paid_world = (paid_world, Returned found)
    /\ (callback default_env req paid_world).2 = acknowledged req
    /\ transactionStore (callback default_env req paid_world).1
       = map_set (transactionId req) (merge_callback default_env req found)
           (transactionStore paid_world)
    /\ supabase (callback default_env req paid_world).1 = supabase paid_world
    /\ fired (callback default_env req paid_world).1 = fired paid_world.
Proof.
  intros req.
  apply (unrecognized_status_is_cache_only default_env req paid_world).
  - reflexivity.
  - reflexivity.
  - left. reflexivity.
  - reflexivity.
Defined.

(** X6.  A processed delivery with a status the [switch] knows notifies
    every registered listener once, in the order of registration, and
    then runs the hooks of the status in a fixed order: confirmation,
    inventory, loyalty, fulfillment for SUCCESSFUL; failure notification,
    analytics log for FAILED; none for PENDING and CREATED.  Each is
    invoked for the resolved identifier, and nothing else is invoked. *)
Theorem processed_callback_invokes_hooks_in_order env req w :
  no_identifier req = false ->
  signature_gate env req = Returned true ->
  store_responds env w ->
  exists es,
    fired (callback env req w).1 = (fired w ++ es)%list
    /\ List.map ev_hook es = hooks_invoked env (status_of (req_body req))
       /\ List.Forall (fun e => ev_reference e = transactionId req) es.
Proof.
  intros Hid Hgate Hok.
  destruct (find_transaction_returns env req w Hok) as [found Hfind].
  rewrite (callback_after_lookup env req w found Hid Hgate Hfind).
  destruct (dispatch_effect env req (merge_callback env req found) w Hok
              (merge_callback_referenceId env req found))
    as (w' & stored & es & -> & _ & _ & Hf & Hkinds & Hrefs & _).
  exists es. simpl. auto.
Qed.

Lemma processed_callback_invokes_hooks_in_order_witness :
  exists es,
    fired (callback listening_env paid_callback unpaid_world).1
    = (fired unpaid_world ++ es)%list
    /\ List.map ev_hook es
       = [Listener 0; Listener 1; ConfirmationEmail; InventoryUpdate;
          LoyaltyPoints; OrderFulfillment]
    /\ List.Forall (fun e => ev_reference e = VStr "R1") es.
Proof.
  apply (processed_callback_invokes_hooks_in_order listening_env paid_callback
           unpaid_world).
  - reflexivity.
  - reflexivity.
  - left. reflexivity.
Defined.

Lemma or_null_defined v : Supabase.is_undefined (v <||> VNull) = false.
Proof. unfold js_or. now destruct v as [| |[]|n|s|o]; simpl; try destruct (negb _). Qed.

Lemma or_null_idem v : (v <||> VNull) <||> VNull = v <||> VNull.
Proof. unfold js_or. destruct (truthy v) eqn:E; [now rewrite E|reflexivity]. Qed.

(** The world a processed SUCCESSFUL delivery leaves. *)
Lemma successful_callback_world env req w :
  no_identifier req = false ->
  signature_gate env req = Returned true ->
  store_responds env w ->
  status_of (req_body req) = VStr "SUCCESSFUL" ->
  exists found order,
    find_transaction env req w = (w, Returned found)
    /\ let merged := merge_callback env req found in
       let stored :=
         <["processedAt" := VStr (now env)]>
           (<["status" := VStr "SUCCESSFUL"]> merged) in
       callback env req w
       = ({| transactionStore :=
               map_set (transactionId req) stored (transactionStore w);
             supabase :=
               updated_by_reference (success_update env merged)
                 (transactionId req) (supabase w);
             fired :=
               (fired w ++ listener_events env stored
                ++ List.map (fun h => hook_event h (transactionId req) order)
                     success_hooks)%list |},
          acknowledged req).
Proof.
  intros Hid Hgate Hok Hs.
  destruct (find_transaction_returns env req w Hok) as [found Hfind].
  exists found. eexists. split; [exact Hfind|]. cbv zeta.
  rewrite (callback_after_lookup env req w found Hid Hgate Hfind).
  rewrite (dispatch_successful env req _ w Hs).
  pose proof (processSuccessfulPayment_effect env
                (merge_callback env req found) w Hok) as H.
  cbv zeta in H. rewrite merge_callback_referenceId in H.
  rewrite (bind_returned _ _ _ _ _ H). reflexivity.
Qed.

(** The world a processed FAILED delivery leaves. *)
Lemma failed_callback_world env req w :
  no_identifier req = false ->
  signature_gate env req = Returned true ->
  store_responds env w ->
  status_of (req_body req) = VStr "FAILED" ->
  exists found order,
    find_transaction env req w = (w, Returned found)
    /\ let merged := merge_callback env req found in
       let reason := reason_of (req_body req) in
       let stored :=
         <["processedAt" := VStr (now env)]>
           (<["failureReason" := reason <||> VStr "Unknown"]>
              (<["status" := VStr "FAILED"]> merged)) in
       callback env req w
       = ({| transactionStore :=
               map_set (transactionId req) stored (transactionStore w);
             supabase :=
               updated_by_reference (failure_update env merged reason)
                 (transactionId req) (supabase w);
             fired :=
               (fired w ++ listener_events env stored
                ++ [hook_event FailureNotification (transactionId req) order;
                    hook_event FailedTransactionLog (transactionId req)
                      stored])%list |},
          acknowledged req).
Proof.
  intros Hid Hgate Hok Hs.
  destruct (find_transaction_returns env req w Hok) as [found Hfind].
  exists found. eexists. split; [exact Hfind|]. cbv zeta.
  rewrite (callback_after_lookup env req w found Hid Hgate Hfind).
  rewrite (dispatch_failed env req _ w Hs).
  pose proof (processFailedPayment_effect env
                (merge_callback env req found) (reason_of (req_body req))
                w Hok) as H.
  cbv zeta in H. rewrite merge_callback_referenceId in H.
  rewrite (bind_returned _ _ _ _ _ H). reflexivity.
Qed.

(** The order row of a reference after an update by that reference, when
    the table holds exactly one. *)
Lemma updated_single_row (updateData : obj) ref w t order :
  updateData !! "reference_id" = None ->
  supabase w = Some t ->
  Supabase.single (Supabase.select_eq "reference_id" (to_string ref) t)
  = Some order ->
  exists t',
    updated_by_reference updateData ref (supabase w) = Some t'
    /\ Supabase.single (Supabase.select_eq "reference_id" (to_string ref) t')
       = Some (Supabase.patch updateData order).
Proof.
  intros Hkey Ht Hone. unfold updated_by_reference. rewrite Ht. simpl.
  eexists. split; [reflexivity|].
  exact (update_eq_single_row _ _ _ _ _ Hkey Hone).
Qed.

(** X7.  A processed SUCCESSFUL delivery settles the transaction in both
    places.  The cached record gets status SUCCESSFUL, the time of
    processing and the callback's financial transaction id, and keeps
    every field of the record found that the callback does not write
    (such as orderId and createdAt).  Where the store holds exactly one
    order with the reference, that order gets payment status SUCCESSFUL,
    the financial transaction id, the confirmation time and the callback
    flag. *)
Theorem successful_callback_settles env req w :
  no_identifier req = false ->
  signature_gate env req = Returned true ->
  store_responds env w ->
  is_primitive (transactionId req) = true ->
  status_of (req_body req) = VStr "SUCCESSFUL" ->
  exists found stored,
    find_transaction env req w = (w, Returned found)
    /\ map_get (transactionId req) (transactionStore (callback env req w).1)
       = Some stored
    /\ prop stored "status" = VStr "SUCCESSFUL"
    /\ prop stored "processedAt" = VStr (now env)
    /\ prop stored "financialTransactionId"
       = financialTransactionId (req_body req)
    /\ (forall k, ~ In k callback_field_names -> k <> "processedAt" ->
                  stored !! k = found !! k)
    /\ (forall t order,
          supabase w = Some t ->
          Supabase.single
            (Supabase.select_eq "reference_id"
               (to_string (transactionId req)) t) = Some order ->
          exists t' order',
            supabase (callback env req w).1 = Some t'
            /\ Supabase.single
                 (Supabase.select_eq "reference_id"
                    (to_string (transactionId req)) t') = Some order'
            /\ prop order' "payment_status" = VStr "SUCCESSFUL"
            /\ prop order' "financial_transaction_id"
               = financialTransactionId (req_body req)
            /\ prop order' "payment_confirmed_at" = VStr (now env)
            /\ prop order' "callback_received" = VBool true).
Proof.
  intros Hid Hgate Hok Hprim Hs.
  destruct (successful_callback_world env req w Hid Hgate Hok Hs)
    as (found & order0 & Hfind & Hrun).
  cbv zeta in Hrun. rewrite Hrun. simpl.
  eexists found, _. split; [exact Hfind|].
  split; [apply map_get_set_same, key_eqb_refl, Hprim|].
  split; [now rewrite prop_insert_ne, prop_insert_eq by discriminate|].
  split; [apply prop_insert_eq|].
  assert (Hfti : prop (merge_callback env req found) "financialTransactionId"
                 = financialTransactionId (req_body req)).
  { apply prop_lookup, merge_callback_field. simpl. auto. }
  split; [now rewrite !prop_insert_ne by discriminate|].
  split.
  - intros k Hk Hk'. rewrite lookup_insert_ne by congruence.
    rewrite lookup_insert_ne.
    + now apply merge_callback_other.
    + intros <-. apply Hk. unfold callback_field_names. simpl. auto 10.
  - intros t order Ht Hone.
    destruct (updated_single_row
                (success_update env (merge_callback env req found))
                (transactionId req) w t order eq_refl Ht Hone)
      as (t' & Ht' & Hrow).
    exists t', (Supabase.patch
                  (success_update env (merge_callback env req found)) order).
    split; [exact Ht'|]. split; [exact Hrow|].
    repeat split; apply prop_lookup, patch_lookup_written;
      try reflexivity.
    + unfold success_update. rewrite Hfti.
      unfold financialTransactionId. rewrite or_null_idem. reflexivity.
    + apply or_null_defined.
Qed.

Lemma successful_callback_settles_witness :
  exists found stored,
    find_transaction default_env paid_callback unpaid_world
    = (unpaid_world, Returned found)
    /\ map_get (VStr "R1")
         (transactionStore (callback default_env paid_callback unpaid_world).1)
       = Some stored
    /\ prop stored "status" = VStr "SUCCESSFUL"
    /\ prop stored "financialTransactionId" = VStr "FT1"
    /\ stored !! "orderId" = found !! "orderId"
    /\ exists t' order',
         supabase (callback default_env paid_callback unpaid_world).1 = Some t'
         /\ Supabase.single
              (Supabase.select_eq "reference_id" "R1" t') = Some order'
         /\ prop order' "payment_status" = VStr "SUCCESSFUL"
         /\ prop order' "financial_transaction_id" = VStr "FT1".
Proof.
  destruct (successful_callback_settles default_env paid_callback unpaid_world)
    as (found & stored & Hfind & Hget & Hst & _ & Hfti & Hkeep & Hrow);
    try reflexivity; [left; reflexivity|].
  exists found, stored. split; [exact Hfind|]. split; [exact Hget|].
  split; [exact Hst|]. split; [exact Hfti|]. split.
  - apply Hkeep; [|discriminate].
    unfold callback_field_names. simpl. intuition discriminate.
  - destruct (Hrow [unpaid_order] unpaid_order eq_refl eq_refl)
      as (t' & order' & H1 & H2 & H3 & H4 & _).
    exists t', order'. auto.
Defined.

(** X8.  A processed FAILED delivery records why.  The cached record
    gets status FAILED and, as [failureReason], the callback's reason, or
    "Unknown" when the callback gives none; where the store holds exactly
    one order with the reference, that order gets payment status FAILED
    and the same failure reason. *)
Theorem failed_callback_records_reason env req w :
  no_identifier req = false ->
  signature_gate env req = Returned true ->
  store_responds env w ->
  is_primitive (transactionId req) = true ->
  status_of (req_body req) = VStr "FAILED" ->
  let failureReason :=
    if truthy (prop (req_body req) "reason")
    then prop (req_body req) "reason"
    else VStr "Unknown" in
  exists stored,
    map_get (transactionId req) (transactionStore (callback env req w).1)
    = Some stored
    /\ prop stored "status" = VStr "FAILED"
    /\ prop stored "failureReason" = failureReason
    /\ (forall t order,
          supabase w = Some t ->
          Supabase.single
            (Supabase.select_eq "reference_id"
               (to_string (transactionId req)) t) = Some order ->
          exists t' order',
            supabase (callback env req w).1 = Some t'
            /\ Supabase.single
                 (Supabase.select_eq "reference_id"
                    (to_string (transactionId req)) t') = Some order'
            /\ prop order' "payment_status" = VStr "FAILED"
            /\ prop order' "failure_reason" = failureReason).
Proof.
  intros Hid Hgate Hok Hprim Hs failureReason.
  assert (Hreason : reason_of (req_body req) <||> VStr "Unknown"
                    = failureReason).
  { unfold failureReason, reason_of, js_or.
    destruct (truthy (prop (req_body req) "reason")) eqn:E;
      [now rewrite E|reflexivity]. }
  destruct (failed_callback_world env req w Hid Hgate Hok Hs)
    as (found & order0 & Hfind & Hrun).
  cbv zeta in Hrun. rewrite Hrun. simpl.
  eexists. split; [apply map_get_set_same, key_eqb_refl, Hprim|].
  split; [now rewrite !prop_insert_ne, prop_insert_eq by discriminate|].
  split; [now rewrite prop_insert_ne, prop_insert_eq by discriminate|].
  intros t order Ht Hone.
  destruct (updated_single_row
              (failure_update env (merge_callback env req found)
                 (reason_of (req_body req)))
              (transactionId req) w t order eq_refl Ht Hone)
    as (t' & Ht' & Hrow).
  eexists t', _. split; [exact Ht'|]. split; [exact Hrow|].
  split; apply prop_lookup, patch_lookup_written; try reflexivity.
  - unfold failure_update. now rewrite Hreason.
  - unfold failureReason. destruct (truthy (prop (req_body req) "reason")) eqn:E;
      [|reflexivity].
    now destruct (prop (req_body req) "reason").
Qed.

Lemma failed_callback_records_reason_witness :
  exists stored,
    map_get (VStr "R1")
      (transactionStore (callback default_env failed_callback unpaid_world).1)
    = Some stored
    /\ prop stored "status" = VStr "FAILED"
    /\ prop stored "failureReason" = VStr "Unknown"
    /\ exists t' order',
         supabase (callback default_env failed_callback unpaid_world).1
         = Some t'
         /\ Supabase.single (Supabase.select_eq "reference_id" "R1" t')
            = Some order'
         /\ prop order' "payment_status" = VStr "FAILED"
         /\ prop order' "failure_reason" = VStr "Unknown".
Proof.
  destruct (failed_callback_records_reason default_env failed_callback
              unpaid_world)
    as (stored & Hget & Hst & Hreason & Hrow);
    try reflexivity; [left; reflexivity|].
  exists stored. split; [exact Hget|]. split; [exact Hst|].
  split; [exact Hreason|].
  exact (Hrow [unpaid_order] unpaid_order eq_refl eq_refl).
Defined.

End CallbackExtras.

(** ** The identifier of a callback *)

Section IdentifierResolution.

Import CallbackHandler.

(** The lookup, in closed form. *)
Lemma find_transaction_record env req w :
  find_transaction env req w = (w, Returned (record_found env req w)).
Proof.
  unfold find_transaction, record_found, matching_order.
  rewrite (bind_returned _ _ w w _ eq_refl).
  destruct (map_get _ _); [reflexivity|].
  rewrite (bind_returned _ _ w w _ eq_refl).
  destruct (supabase w) as [t|] eqn:Ht.
  - unfold bind, await_supabase. rewrite Ht.
    destruct (supabase_rejects env); [reflexivity|].
    rewrite (with_table_same _ _ Ht). cbn [mbind option_bind].
    unfold Supabase.select_or.
    change (fun r : Supabase.row =>
              Supabase.col_eq "reference_id" (to_string (transactionId req)) r
              || Supabase.col_eq "external_id"
                   (to_string (externalId (req_body req))) r)
      with (matches req).
    destruct (Supabase.single _); reflexivity.
  - destruct (supabase_rejects env); reflexivity.
Qed.

(** A delivery that passes the signature gate is stored under the
    resolved identifier and acknowledged. *)
Lemma callback_keyed env req w :
  no_identifier req = false ->
  signature_gate env req = Returned true ->
  exists stored,
    (callback env req w).2 = acknowledged req
    /\ transactionStore (callback env req w).1
       = map_set (transactionId req) stored (transactionStore w)
    /\ prop stored "referenceId" = transactionId req.
Proof.
  intros Hid Hgate.
  destruct (find_transaction_total env req w) as [found Hfind].
  rewrite (callback_after_lookup env req w found Hid Hgate Hfind).
  destruct (dispatch_outcome env req (merge_callback env req found) w
              (merge_callback_referenceId env req found))
    as (w' & stored & es & -> & Hst & Href & _).
  exists stored. simpl. auto.
Qed.

(** C3, as the code has it.  The identifier under which POST /callback
    reads and writes the transaction [Map] is the first present one among
    the X-Reference-Id header and the body's referenceId, externalId and
    financialTransactionId, where present means truthy, as the code tests
    it.  The route answers HTTP 400 exactly when none of them is present,
    and then changes nothing.  That is not the only refusal: a callback
    with an identifier is answered HTTP 401 exactly when the signature
    check rejects it, which takes a configured secret and a signature
    header of the digest's length that is not the digest; every other
    callback with an identifier is answered HTTP 200.  Nor is the lookup
    by that identifier alone: on a cache miss the orders table is searched
    for the single order whose reference_id is the identifier or whose
    external_id is the body's externalId, so an order can be found through
    the externalId although another identifier comes first; the record is
    stored under the first present identifier all the same. *)
Theorem callback_identifier_resolution env req w :
  (status_code (callback env req w).2 = 400%Z
   <-> first_present (identifiers req) = None)
  /\ (first_present (identifiers req) = None ->
      callback env req w = (w, bad_request))
  /\ (status_code (callback env req w).2 = 401%Z
      <-> first_present (identifiers req) <> None
          /\ signature_gate env req = Returned false)
  /\ (signature_gate env req = Returned false ->
      exists signature secret,
        x_momo_signature req = Some signature
        /\ MOMO_CALLBACK_SECRET env = Some secret
        /\ signature <> EmptyString /\ secret <> EmptyString
        /\ String.length signature
           = String.length
               (hmac_sha256_hex env secret
                  (JSON_stringify env (VObj (req_body req))))
        /\ signature
           <> hmac_sha256_hex env secret
                (JSON_stringify env (VObj (req_body req))))
  /\ (first_present (identifiers req) <> None ->
      signature_gate env req <> Returned false ->
      status_code (callback env req w).2 = 200%Z)
  /\ (forall id, first_present (identifiers req) = Some id ->
        transactionId req = id
        /\ (forall td, map_get id (transactionStore w) = Some td ->
                       find_transaction env req w = (w, Returned td))
        /\ (filter_safe id = true ->
            filter_safe (externalId (req_body req)) = true ->
            find_transaction env req w
            = (w, Returned (record_found env req w)))
        /\ (signature_gate env req = Returned true ->
            is_primitive id = true ->
            exists stored,
              (callback env req w).2 = acknowledged req
              /\ prop (body (callback env req w).2) "referenceId" = id
              /\ map_get id (transactionStore (callback env req w).1)
                 = Some stored
              /\ prop stored "referenceId" = id)).
Proof.
  assert (Hnone : first_present (identifiers req) <> None ->
                  no_identifier req = false).
  { intros Hsome. destruct (no_identifier req) eqn:E; [|reflexivity].
    apply no_identifier_first_present in E. congruence. }
  split; [|split; [|split; [|split; [|split]]]].
  - rewrite <- no_identifier_first_present.
    destruct (status_code_cases env req w)
      as [[Hc Hid]|[(Hc & Hid & _)|(Hc & Hid & _)]];
      rewrite Hc, Hid; split; intros; congruence.
  - intros H. apply no_identifier_first_present in H.
    destruct (callback_cases env req w) as [[_ Hrun]|[Hid _]];
      [exact Hrun|congruence].
  - destruct (status_code_cases env req w)
      as [[Hc Hid]|[(Hc & Hid & Hg)|(Hc & Hid & Hg)]]; rewrite Hc.
    + split; [discriminate|].
      apply no_identifier_first_present in Hid. now intros [? _].
    + split; [intros _|reflexivity]. split; [|exact Hg].
      intros E. apply no_identifier_first_present in E. congruence.
    + split; [discriminate|]. now intros [_ ?].
  - apply signature_gate_rejects.
  - intros Hsome Hg.
    destruct (status_code_cases env req w)
      as [[_ H]|[(_ & _ & H)|(Hc & _ & _)]];
      [specialize (Hnone Hsome); congruence|congruence|exact Hc].
  - intros id Hsome.
    assert (Hid : no_identifier req = false) by (apply Hnone; congruence).
    pose proof (transactionId_first_present req id Hsome) as Htid.
    split; [exact Htid|]. split; [|split].
    + intros td Hget. apply find_transaction_cached. now rewrite Htid.
    + intros _ _. apply find_transaction_record.
    + intros Hg Hprim.
      destruct (callback_keyed env req w Hid Hg) as (stored & Hack & Hst & Href).
      exists stored. rewrite Hack, Hst, Htid in *.
      split; [reflexivity|].
      split; [unfold acknowledged, prop; simpl; rewrite Htid;
              now simplify_map_eq|].
      split; [apply map_get_set_same, key_eqb_refl, Hprim|exact Href].
Qed.

Lemma callback_identifier_resolution_witness :
  let req := rerouted_callback in
  first_present (identifiers req) = Some (VStr "R9")
  /\ find_transaction default_env req restarted_world
     = (restarted_world, Returned (from_order pending_order (VStr "R9")))
  /\ exists stored,
       (callback default_env req restarted_world).2 = acknowledged req
       /\ map_get (VStr "R9")
            (transactionStore (callback default_env req restarted_world).1)
          = Some stored
       /\ prop stored "referenceId" = VStr "R9".
Proof.
  intros req.
  destruct (callback_identifier_resolution default_env req restarted_world)
    as (_ & _ & _ & _ & _ & H).
  destruct (H (VStr "R9") eq_refl) as (_ & _ & Hfind & Hstored).
  split; [reflexivity|]. split; [exact (Hfind eq_refl eq_refl)|].
  destruct (Hstored eq_refl eq_refl) as (stored & Hack & _ & Hget & Href).
  exists stored. auto.
Defined.

(** C3, as the specification words it, fails: a callback with the header
    reference R9 and the body externalId ORDER-1 finds the order of
    ORDER-1, whose reference is REF-1, although R9 comes first. *)
Lemma lookup_by_second_identifier :
  ~ resolved_as_specified default_env rerouted_callback restarted_world.
Proof.
  intros (_ & _ & H).
  specialize (H (VStr "R9") (from_order pending_order (VStr "R9"))
                eq_refl eq_refl).
  destruct H as [H|[(t & order & Ht & Hin & Hcol & _)|H]].
  - discriminate H.
  - injection Ht as <-. destruct Hin as [<-|[]]. discriminate Hcol.
  - apply (f_equal (fun o : obj => o !! "orderId")) in H.
    vm_compute in H. discriminate H.
Qed.

End IdentifierResolution.

(** ** The debugging routes of the callback handler *)

Section DebugRoutes.

Import CallbackHandler CallbackDebug.

(** GET /callback/history/:referenceId answers from what it reads and
    changes nothing. *)
Lemma history_answer env referenceId w :
  store_responds env w ->
  history env referenceId w
  = (w,
     let inMemoryData := map_get (VStr referenceId) (transactionStore w) in
     let db := match supabase w with Some _ => true | None => false end in
     match order_of w referenceId, inMemoryData with
     | None, None => transaction_not_found db
     | order, _ => transaction_found order inMemoryData db
     end).
Proof.
  intros Hok. unfold history, try_catch, history_try, order_of.
  rewrite (bind_returned _ _ w w _ eq_refl).
  rewrite (bind_returned _ _ w w _ eq_refl).
  destruct (supabase w) as [t|] eqn:Ht; simpl.
  - destruct Hok as [Hok|Hok]; [|congruence].
    unfold bind at 1. unfold await_supabase. rewrite Ht, Hok.
    rewrite (with_table_same _ _ Ht).
    destruct (Supabase.single _); destruct (map_get _ _); reflexivity.
  - unfold bind, ret. destruct (map_get _ _); reflexivity.
Qed.

(** X9.  What POST /callback processes, GET /callback/history finds: after
    a processed delivery whose resolved identifier is the string [ref],
    the history of [ref] is answered with HTTP 200 and [inMemory: true];
    without a store client the transaction it shows is the record the
    delivery cached.  The history route itself changes nothing. *)
Theorem history_finds_processed_callback env req w ref :
  transactionId req = VStr ref ->
  no_identifier req = false ->
  signature_gate env req = Returned true ->
  store_responds env w ->
  let w' := (callback env req w).1 in
  exists stored,
    map_get (VStr ref) (transactionStore w') = Some stored
    /\ (history env ref w').1 = w'
    /\ status_code (history env ref w').2 = 200%Z
    /\ prop (body (history env ref w').2) "inMemory" = VBool true
    /\ (supabase w = None ->
        prop (body (history env ref w').2) "transaction" = VObj stored).
Proof.
  intros Htid Hid Hgate Hok w'.
  assert (Hprim : is_primitive (transactionId req) = true)
    by now rewrite Htid.
  destruct (callback_stored env req w Hid Hgate Hok Hprim)
    as (stored & _ & Hget & _).
  rewrite Htid in Hget. fold w' in Hget.
  assert (Hdb : supabase w = None -> supabase w' = None).
  { intros Hnone. subst w'.
    destruct (callback_effect env req w)
      as [-> |(? & ? & ? & _ & _ & _ & _ & _ & [-> |(u & _ & ->)])];
      try exact Hnone.
    unfold updated_by_reference. now rewrite Hnone. }
  assert (Hok' : store_responds env w').
  { destruct Hok as [Hok|Hok]; [now left|right; now apply Hdb]. }
  exists stored. split; [exact Hget|].
  rewrite (history_answer env ref w' Hok'). cbv zeta. rewrite Hget. simpl.
  split; [reflexivity|].
  destruct (order_of w' ref) as [order|] eqn:Horder; simpl.
  - split; [reflexivity|]. split; [reflexivity|].
    intros Hnone. unfold order_of in Horder.
    rewrite (Hdb Hnone) in Horder. discriminate.
  - split; [reflexivity|]. split; reflexivity.
Qed.

Lemma history_finds_processed_callback_witness :
  let w' := (callback default_env paid_callback empty_world).1 in
  exists stored,
    map_get (VStr "R1") (transactionStore w') = Some stored
    /\ (history default_env "R1" w').1 = w'
    /\ status_code (history default_env "R1" w').2 = 200%Z
    /\ prop (body (history default_env "R1" w').2) "inMemory" = VBool true
    /\ prop (body (history default_env "R1" w').2) "transaction" = VObj stored.
Proof.
  intros w'.
  destruct (history_finds_processed_callback default_env paid_callback
              empty_world "R1")
    as (stored & H1 & H2 & H3 & H4 & H5);
    try reflexivity; [left; reflexivity|].
  exists stored. repeat split; try assumption. apply H5. reflexivity.
Defined.

Lemma testCallback_referenceId env random reqbody :
  prop (testCallback env random reqbody) "referenceId"
  = prop reqbody "referenceId" <||> VStr ("test-" ++ show_num (date_now env)).
Proof.
  apply prop_lookup, assign_lookup_field; [|simpl; auto].
  simpl. repeat (constructor; [simpl; intuition discriminate|]). constructor.
Qed.

Lemma testCallback_status env random reqbody :
  prop (testCallback env random reqbody) "status"
  = prop reqbody "status" <||> VStr "SUCCESSFUL".
Proof.
  apply prop_lookup, assign_lookup_field; [|simpl; auto 10].
  simpl. repeat (constructor; [simpl; intuition discriminate|]). constructor.
Qed.

Lemma body_reference_resolved req :
  x_reference_id req = None ->
  truthy (prop (req_body req) "referenceId") = true ->
  transactionId req = prop (req_body req) "referenceId"
  /\ no_identifier req = false.
Proof.
  intros Hheader Htruthy.
  unfold no_identifier, transactionId, referenceId, js_or.
  rewrite Hheader. simpl. now rewrite !Htruthy.
Qed.

(** X10.  The data POST /callback/test generates is always deliverable:
    whatever the request body, it carries a truthy [referenceId] (the
    body's, or "test-" and the clock reading), so POST /callback, given it
    as the body of a request without headers, never answers 400 for lack
    of an identifier, resolves that [referenceId], and acknowledges the
    delivery whenever the store responds. *)
Theorem test_data_is_deliverable env random reqbody w :
  let req := bare_callback (testCallback env random reqbody) in
  transactionId req
  = prop reqbody "referenceId" <||> VStr ("test-" ++ show_num (date_now env))
  /\ no_identifier req = false
  /\ status_code (callback env req w).2 <> 400%Z
  /\ (store_responds env w -> (callback env req w).2 = acknowledged req).
Proof.
  intros req.
  assert (Href : prop (req_body req) "referenceId"
                 = prop reqbody "referenceId"
                     <||> VStr ("test-" ++ show_num (date_now env)))
    by apply testCallback_referenceId.
  assert (Htruthy : truthy (prop (req_body req) "referenceId") = true).
  { rewrite Href. unfold js_or.
    destruct (truthy (prop reqbody "referenceId")) eqn:E; [exact E|reflexivity]. }
  destruct (body_reference_resolved req eq_refl Htruthy) as [Htid Hid].
  split; [now rewrite Htid|]. split; [exact Hid|]. split.
  - destruct (status_code_cases env req w)
      as [[_ H]|[(Hc & _)|(Hc & _)]]; [congruence| |]; rewrite Hc; discriminate.
  - intros Hok.
    assert (Hgate : signature_gate env req = Returned true).
    { apply signature_gate_unchecked. unfold signature_checked. simpl.
      apply andb_false_r. }
    destruct (callback_processed env req w Hid Hgate Hok)
      as (w' & ? & ? & -> & _).
    reflexivity.
Qed.

Lemma test_data_is_deliverable_witness :
  let req := bare_callback (testCallback default_env "k3x9" ∅) in
  transactionId req = VStr "test-1766422800000"
  /\ (callback default_env req empty_world).2 = acknowledged req.
Proof.
  intros req.
  destruct (test_data_is_deliverable default_env "k3x9" ∅ empty_world)
    as (H1 & _ & _ & H4).
  split; [exact H1|]. apply H4. left. reflexivity.
Defined.

End DebugRoutes.

(** ** Further properties of GET /status/:referenceId *)

Section StatusExtras.

Import PaymentRoutes.

Ltac status_unfold :=
  unfold PaymentRoutes.status, try_catch, status_try, order_of,
    settled_in_store;
  unfold bind, connected, await_supabase, store_get, store_set, getAccessToken,
    fetchTransactionDetails, ret, throw.

(** Answered from the database: nothing else is consulted. *)
Lemma status_settled env referenceId w :
  supabase_rejects env = false ->
  settled_in_store w referenceId = true ->
  exists order,
    order_of w referenceId = Some order
    /\ is_terminal (prop order "payment_status") = true
    /\ PaymentRoutes.status env referenceId w = (w, from_database order).
Proof.
  status_unfold. intros Hr.
  destruct (supabase w) as [t|] eqn:Ht; [|discriminate].
  cbv beta. rewrite Ht, Hr. simpl.
  destruct (Supabase.single _) as [order|]; [|discriminate].
  intros Hterm. exists order. rewrite Hterm, (with_table_same _ _ Ht). auto.
Qed.

(** The payment network has no transaction: cache fallback or 404. *)
Lemma status_unpolled env referenceId w token :
  store_responds env w ->
  settled_in_store w referenceId = false ->
  access_token env = Some token ->
  truthy (momo_requesttopay env referenceId) = false ->
  PaymentRoutes.status env referenceId w
  = (w, match map_get (VStr referenceId) (transactionStore w) with
        | Some cached => from_cache cached
        | None => not_found
        end).
Proof.
  status_unfold. intros Hok Hset Htok Hnone.
  destruct (supabase w) as [t|] eqn:Ht.
  - destruct Hok as [Hok|Hok]; [|congruence].
    cbv beta. rewrite Ht, Hok in *. simpl.
    destruct (Supabase.single _) as [order|]; simpl.
    + rewrite Hset, Htok, Hnone. simpl. rewrite (with_table_same _ _ Ht).
      now destruct (map_get _ _).
    + rewrite Htok, Hnone. simpl. rewrite (with_table_same _ _ Ht).
      now destruct (map_get _ _).
  - rewrite Htok, Hnone. simpl. now destruct (map_get _ _).
Qed.

(** The payment network has the transaction: its status goes to the
    orders of the reference and to the cache entry, if there is one. *)
Lemma status_polled env referenceId w token :
  store_responds env w ->
  settled_in_store w referenceId = false ->
  access_token env = Some token ->
  truthy (momo_requesttopay env referenceId) = true ->
  PaymentRoutes.status env referenceId w = polled env referenceId w.
Proof.
  status_unfold. unfold polled. intros Hok Hset Htok Hsome.
  unfold store_responds in Hok. destruct w as [store [t|] events]; simpl in *.
  - destruct Hok as [Hok|Hok]; [|congruence].
    rewrite Hok in *. simpl.
    destruct (Supabase.single _) as [order|]; simpl.
    + rewrite Hset, Htok, Hsome. simpl.
      now destruct (map_get _ _).
    + rewrite Htok, Hsome. simpl.
      now destruct (map_get _ _).
  - rewrite Htok, Hsome. simpl. now destruct (map_get _ _).
Qed.

Lemma status_token_fails env referenceId w :
  store_responds env w ->
  settled_in_store w referenceId = false ->
  access_token env = None ->
  PaymentRoutes.status env referenceId w
  = (w, status_check_failed "Failed to get access token").
Proof.
  status_unfold. intros Hok Hset Htok.
  unfold store_responds in Hok. destruct w as [store [t|] events]; simpl in *.
  - destruct Hok as [Hok|Hok]; [|congruence].
    rewrite Hok in *. simpl.
    destruct (Supabase.single _) as [order|]; simpl.
    + now rewrite Hset, Htok.
    + now rewrite Htok.
  - now rewrite Htok.
Qed.

(** The store rejects the request: the route goes on to the poll. *)
Lemma status_refused env referenceId w :
  supabase_rejects env = true ->
  PaymentRoutes.status env referenceId w
  = match access_token env with
    | None => (w, status_check_failed "Failed to get access token")
    | Some _ =>
        if truthy (momo_requesttopay env referenceId)
        then polled_unsaved env referenceId w
        else (w, match map_get (VStr referenceId) (transactionStore w) with
                 | Some cached => from_cache cached
                 | None => not_found
                 end)
    end.
Proof.
  status_unfold. unfold polled_unsaved. intros Hr.
  destruct w as [store [t|] events]; simpl; rewrite ?Hr; simpl;
    (destruct (access_token env); [|reflexivity]);
    (destruct (truthy (momo_requesttopay env referenceId)); simpl;
     [|now destruct (map_get _ _)]);
    rewrite ?Hr; simpl; now destruct (map_get _ _).
Qed.

(** X11.  Store first: when the orders table holds exactly one order for
    the reference and its status is SUCCESSFUL or FAILED, GET /status
    answers with that order and that status from the database and changes
    nothing; neither the token exchange nor the payment network matters,
    so the answer is the same when they fail. *)
Theorem settled_order_answers_without_polling env referenceId w :
  supabase_rejects env = false ->
  settled_in_store w referenceId = true ->
  exists order,
    order_of w referenceId = Some order
    /\ PaymentRoutes.status env referenceId w = (w, from_database order)
    /\ status_code (PaymentRoutes.status env referenceId w).2 = 200%Z
    /\ prop (body (PaymentRoutes.status env referenceId w).2) "source"
       = VStr "database"
    /\ prop (body (PaymentRoutes.status env referenceId w).2) "status"
       = prop order "payment_status"
    /\ is_terminal (prop order "payment_status") = true.
Proof.
  intros Hr Hset.
  destruct (status_settled env referenceId w Hr Hset)
    as (order & Horder & Hterm & Hrun).
  exists order. rewrite Hrun. simpl.
  split; [exact Horder|]. split; [reflexivity|]. split; [reflexivity|].
  split; [reflexivity|]. split; [|exact Hterm].
  unfold prop. now simplify_map_eq.
Qed.

Lemma settled_order_answers_without_polling_witness :
  exists order,
    order_of paid_world "R1" = Some order
    /\ PaymentRoutes.status tokenless_env "R1" paid_world
       = (paid_world, from_database order)
    /\ prop (body (PaymentRoutes.status tokenless_env "R1" paid_world).2)
         "status" = VStr "SUCCESSFUL".
Proof.
  destruct (settled_order_answers_without_polling tokenless_env "R1"
              paid_world eq_refl eq_refl)
    as (order & H1 & H2 & _ & _ & H5 & _).
  exists order. split; [exact H1|]. split; [exact H2|].
  rewrite H5. unfold order_of in H1. simpl in H1.
  injection H1 as <-. reflexivity.
Defined.

Lemma update_eq_rowwise (P : Supabase.row -> Supabase.row -> Prop)
  updateData column value t :
  (forall r, P r (if Supabase.col_eq column value r
                  then Supabase.patch updateData r else r)) ->
  List.Forall2 P t (Supabase.update_eq updateData column value t).
Proof.
  intros HP. unfold Supabase.update_eq.
  induction t as [|r t IH]; simpl; constructor; [apply HP|exact IH].
Qed.

Lemma status_update_keys env transaction c :
  In c key_columns -> status_update env transaction !! c = None.
Proof.
  unfold status_update, key_columns. simpl.
  intros [<-|[<-|[<-|[]]]];
    destruct (truthy _); destruct (is_successful _); reflexivity.
Qed.

Lemma status_update_status env transaction :
  status_update env transaction !! "payment_status"
  = Some (member transaction "status").
Proof.
  unfold status_update.
  destruct (truthy _); destruct (is_successful _); reflexivity.
Qed.

(** X12.  A poll that finds the transaction at the payment network copies
    the network's status, whatever it is and whatever was stored: the
    answer carries it with source momo_api; the cache entry of the
    reference, if there is one, gets it as [status] and keeps its other
    fields, and no entry is created if there is none; every order with the
    reference gets it as payment status while all other orders stay as
    they are; no listener is notified and no hook runs. *)
Theorem poll_copies_network_status env referenceId w token :
  store_responds env w ->
  settled_in_store w referenceId = false ->
  access_token env = Some token ->
  truthy (momo_requesttopay env referenceId) = true ->
  let network_status := member (momo_requesttopay env referenceId) "status" in
  let w' := (PaymentRoutes.status env referenceId w).1 in
  let res := (PaymentRoutes.status env referenceId w).2 in
  status_code res = 200%Z
  /\ prop (body res) "status" = network_status
  /\ prop (body res) "source" = VStr "momo_api"
  /\ match map_get (VStr referenceId) (transactionStore w) with
     | Some cached =>
         map_get (VStr referenceId) (transactionStore w')
         = Some (<["status" := network_status]> cached)
     | None => map_get (VStr referenceId) (transactionStore w') = None
     end
  /\ (forall k, k <> VStr referenceId ->
        map_get k (transactionStore w') = map_get k (transactionStore w))
  /\ fired w' = fired w
  /\ (forall t, supabase w = Some t ->
        exists t',
          supabase w' = Some t'
          /\ List.Forall2
               (fun r r' =>
                  if Supabase.col_eq "reference_id" referenceId r
                  then keys_of r' = keys_of r
                       /\ (Supabase.is_undefined network_status = false ->
                           prop r' "payment_status" = network_status)
                  else r' = r)
               t t').
Proof.
  intros Hok Hset Htok Hsome network_status w' res.
  subst w' res. rewrite (status_polled env referenceId w token Hok Hset Htok Hsome).
  unfold polled. fold network_status. simpl.
  split; [reflexivity|].
  split; [unfold prop; now simplify_map_eq|].
  split; [unfold prop; now simplify_map_eq|].
  split; [|split; [|split; [reflexivity|]]].
  - destruct (map_get (VStr referenceId) (transactionStore w)) eqn:Hget;
      [|exact Hget].
    apply map_get_set_same, String.eqb_refl.
  - intros k Hk. destruct (map_get (VStr referenceId) (transactionStore w));
      [|reflexivity].
    apply map_get_set_other. congruence.
  - intros t Ht. rewrite Ht. simpl. eexists. split; [reflexivity|].
    apply update_eq_rowwise. intros r.
    destruct (Supabase.col_eq "reference_id" referenceId r); [|reflexivity].
    split.
    + apply keys_of_patch. intros c. apply status_update_keys.
    + intros Hdef. apply prop_lookup, patch_lookup_written; [|exact Hdef].
      apply status_update_status.
Qed.

Lemma poll_copies_network_status_witness :
  let w' := (PaymentRoutes.status reporting_env "R1" unpaid_world).1 in
  let res := (PaymentRoutes.status reporting_env "R1" unpaid_world).2 in
  prop (body res) "status" = VStr "SUCCESSFUL"
  /\ fired w' = [].
Proof.
  destruct (poll_copies_network_status reporting_env "R1" unpaid_world
              "Bearer token")
    as (_ & H2 & _ & _ & _ & H6 & _).
  - left. reflexivity.
  - reflexivity.
  - reflexivity.
  - reflexivity.
  - split; [exact H2|exact H6].
Defined.

Lemma status_world_cases env referenceId w :
  (PaymentRoutes.status env referenceId w).1 = w
  \/ PaymentRoutes.status env referenceId w = polled env referenceId w
  \/ PaymentRoutes.status env referenceId w
     = polled_unsaved env referenceId w.
Proof.
  destruct (supabase_rejects env) eqn:Hr.
  - rewrite (status_refused env referenceId w Hr).
    destruct (access_token env); [|now left].
    destruct (truthy (momo_requesttopay env referenceId)); [|now left].
    right. now right.
  - assert (Hok : store_responds env w) by (left; exact Hr).
    destruct (settled_in_store w referenceId) eqn:Hset.
    + destruct (status_settled env referenceId w Hr Hset)
        as (order & _ & _ & ->). now left.
    + destruct (access_token env) as [token|] eqn:Htok.
      * destruct (truthy (momo_requesttopay env referenceId)) eqn:Hsome.
        -- right. left.
           exact (status_polled env referenceId w token Hok Hset Htok Hsome).
        -- left.
           now rewrite (status_unpolled env referenceId w token Hok Hset Htok Hsome).
      * left. now rewrite (status_token_fails env referenceId w Hok Hset Htok).
Qed.

(** X13.  Whatever it is asked and whatever fails, GET /status keeps the
    shape of the state up to its answer: it notifies no listener and runs
    no hook, it neither adds nor removes a cache entry, it keeps every
    cached record under its own referenceId, and it leaves the orders table
    with the same rows in the same order, their key columns unchanged and
    the orders of other references untouched.  (The removal it schedules
    for five minutes after a polled terminal status is a later event.) *)
Theorem status_keeps_shape env referenceId w :
  let w' := (PaymentRoutes.status env referenceId w).1 in
  fired w' = fired w
  /\ (forall k, is_Some (map_get k (transactionStore w'))
                <-> is_Some (map_get k (transactionStore w)))
  /\ (keyed (transactionStore w) -> keyed (transactionStore w'))
  /\ match supabase w with
     | Some t =>
         exists t', supabase w' = Some t' /\ same_orders referenceId t t'
     | None => supabase w' = None
     end.
Proof.
  intros w'. subst w'.
  assert (Hcache : forall store',
    store' = match map_get (VStr referenceId) (transactionStore w) with
             | Some cached =>
                 map_set (VStr referenceId)
                   (<["status" :=
                        member (momo_requesttopay env referenceId) "status"]>
                      cached)
                   (transactionStore w)
             | None => transactionStore w
             end ->
    (forall k, is_Some (map_get k store')
               <-> is_Some (map_get k (transactionStore w)))
    /\ (keyed (transactionStore w) -> keyed store')).
  { intros store' ->. split.
    - intros k.
      destruct (map_get (VStr referenceId) (transactionStore w))
        as [cached|] eqn:Hget; [|reflexivity].
      destruct (key_eqb (VStr referenceId) k) eqn:E.
      + apply key_eqb_eq in E. subst k.
        rewrite map_get_set_same by apply String.eqb_refl.
        rewrite Hget. split; eauto.
      + rewrite map_get_set_other; [reflexivity|].
        intros <-. simpl in E. now rewrite String.eqb_refl in E.
    - intros Hkeyed.
      destruct (map_get (VStr referenceId) (transactionStore w))
        as [cached|] eqn:Hget; [|exact Hkeyed].
      apply keyed_map_set; [exact Hkeyed|].
      rewrite prop_insert_ne by discriminate.
      exact (map_get_keyed _ _ _ Hkeyed Hget). }
  destruct (status_world_cases env referenceId w) as [-> | [-> | ->]].
  - split; [reflexivity|]. split; [reflexivity|]. split; [auto|].
    destruct (supabase w) as [t|]; [|reflexivity].
    exists t. split; [reflexivity|apply same_orders_refl].
  - unfold polled. cbn [fst transactionStore supabase fired].
    destruct (Hcache _ eq_refl) as [Hsome Hkeyed].
    split; [reflexivity|]. split; [exact Hsome|]. split; [exact Hkeyed|].
    destruct (supabase w) as [t|]; [|reflexivity]. simpl.
    eexists. split; [reflexivity|].
    apply update_eq_rowwise. intros r.
    destruct (Supabase.col_eq "reference_id" referenceId r) eqn:E.
    + split; [|discriminate].
      apply keys_of_patch. intros c. apply status_update_keys.
    + split; [reflexivity|reflexivity].
  - unfold polled_unsaved. cbn [fst transactionStore supabase fired].
    destruct (Hcache _ eq_refl) as [Hsome Hkeyed].
    split; [reflexivity|]. split; [exact Hsome|]. split; [exact Hkeyed|].
    destruct (supabase w) as [t|]; [|reflexivity].
    exists t. split; [reflexivity|apply same_orders_refl].
Qed.

End StatusExtras.

(** *** The routes in sequence *)

Section Sequences.
Import CallbackHandler PaymentRoutes.

Lemma settled_after_update (updateData : obj) ref w1 t order s :
  updateData !! "reference_id" = None ->
  updateData !! "payment_status" = Some (VStr s) ->
  is_terminal (VStr s) = true ->
  Supabase.single (Supabase.select_eq "reference_id" ref t) = Some order ->
  supabase w1 = updated_by_reference updateData (VStr ref) (Some t) ->
  order_of w1 ref = Some (Supabase.patch updateData order)
  /\ settled_in_store w1 ref = true.
Proof.
  intros Hkey Hst Hterm Hone Hw1.
  unfold updated_by_reference in Hw1. simpl in Hw1.
  pose proof (update_eq_single_row _ _ _ _ _ Hkey Hone) as Hrow.
  unfold order_of, settled_in_store. rewrite Hw1. simpl. rewrite Hrow.
  split; [reflexivity|].
  now rewrite (prop_lookup _ _ _ (patch_lookup_written _ _ _ _ Hst eq_refl)).
Qed.

(** X14.  Callback, then status.  Once a SUCCESSFUL or FAILED callback
    for a reference has been processed against a store that holds exactly
    one order with that reference, GET /status for the reference answers
    200 with that status from the database and changes nothing, even when
    the token exchange and the payment network are down. *)
Theorem status_after_terminal_callback env env' req w ref t order s :
  no_identifier req = false ->
  signature_gate env req = Returned true ->
  supabase_rejects env = false ->
  supabase_rejects env' = false ->
  transactionId req = VStr ref ->
  supabase w = Some t ->
  Supabase.single (Supabase.select_eq "reference_id" ref t) = Some order ->
  status_of (req_body req) = VStr s ->
  terminal (VStr s) ->
  let w1 := (callback env req w).1 in
  let answer := PaymentRoutes.status env' ref w1 in
  answer.1 = w1
  /\ status_code answer.2 = 200%Z
  /\ prop (body answer.2) "status" = VStr s
  /\ prop (body answer.2) "source" = VStr "database".
Proof.
  intros Hid Hgate Hr Hr' Href Ht Hone Hs Hterm w1 answer.
  assert (Hok : store_responds env w) by (left; exact Hr).
  assert (Hset : exists order1,
             order_of w1 ref = Some order1
             /\ prop order1 "payment_status" = VStr s
             /\ settled_in_store w1 ref = true).
  { destruct Hterm as [E|E]; injection E as ->.
    - destruct (successful_callback_world env req w Hid Hgate Hok Hs)
        as (found & order0 & _ & Hrun).
      cbv zeta in Hrun.
      destruct (settled_after_update
                  (success_update env (merge_callback env req found))
                  ref w1 t order "SUCCESSFUL" eq_refl eq_refl eq_refl Hone)
        as [Ho Hsettled].
      { subst w1. rewrite Hrun. simpl. now rewrite Href, Ht. }
      eexists. split; [exact Ho|]. split; [|exact Hsettled].
      apply prop_lookup, patch_lookup_written; reflexivity.
    - destruct (failed_callback_world env req w Hid Hgate Hok Hs)
        as (found & order0 & _ & Hrun).
      cbv zeta in Hrun.
      destruct (settled_after_update
                  (failure_update env (merge_callback env req found)
                     (reason_of (req_body req)))
                  ref w1 t order "FAILED" eq_refl eq_refl eq_refl Hone)
        as [Ho Hsettled].
      { subst w1. rewrite Hrun. simpl. now rewrite Href, Ht. }
      eexists. split; [exact Ho|]. split; [|exact Hsettled].
      apply prop_lookup, patch_lookup_written; reflexivity. }
  destruct Hset as (order1 & Ho & Hps & Hsettled).
  destruct (status_settled env' ref w1 Hr' Hsettled)
    as (order2 & Ho2 & _ & Hrun).
  rewrite Ho in Ho2. injection Ho2 as <-.
  subst answer. rewrite Hrun. simpl.
  split; [reflexivity|]. split; [reflexivity|].
  split; unfold prop; simplify_map_eq; [exact Hps|reflexivity].
Qed.

Lemma status_after_terminal_callback_witness :
  let w1 := (callback listening_env paid_callback unpaid_world).1 in
  let answer := PaymentRoutes.status tokenless_env "R1" w1 in
  answer.1 = w1
  /\ status_code answer.2 = 200%Z
  /\ prop (body answer.2) "status" = VStr "SUCCESSFUL"
  /\ prop (body answer.2) "source" = VStr "database".
Proof.
  apply (status_after_terminal_callback listening_env tokenless_env
           paid_callback unpaid_world "R1" [unpaid_order] unpaid_order
           "SUCCESSFUL");
    try reflexivity.
  left. reflexivity.
Defined.

End Sequences.

(** *** GET /order/:referenceId *)

Section OrderExtras.
Import OrderRoute.

(** X15.  GET /order reads only and answers 200 or 404, never 500.  With a
    store it answers 200 exactly when the store responds and holds exactly
    one order with the reference, whatever the cache holds; without a
    store, exactly when the cache holds the reference.  The order it
    returns is that row, or that cache entry. *)
Theorem order_found_iff env referenceId w :
  let answer := order env referenceId w in
  answer.1 = w
  /\ (status_code answer.2 = 200%Z \/ status_code answer.2 = 404%Z)
  /\ (status_code answer.2 = 200%Z <->
      match supabase w with
      | Some _ =>
          supabase_rejects env = false /\ is_Some (order_of w referenceId)
      | None => is_Some (map_get (VStr referenceId) (transactionStore w))
      end)
  /\ (forall o,
        status_code answer.2 = 200%Z ->
        match supabase w with
        | Some _ => order_of w referenceId
        | None => map_get (VStr referenceId) (transactionStore w)
        end = Some o ->
        prop (body answer.2) "order" = VObj o).
Proof.
  unfold order, try_catch, order_try, order_of.
  unfold bind, connected, await_supabase, store_get, ret, throw.
  destruct w as [store [t|] events]; simpl.
  - destruct (supabase_rejects env); simpl.
    + split; [reflexivity|]. split; [now right|].
      split; [|discriminate]. split; [discriminate|]. now intros [? _].
    + destruct (Supabase.single _) as [o|]; simpl.
      * split; [reflexivity|]. split; [now left|].
        split; [split; eauto|]. now intros ? _ [= <-].
      * split; [reflexivity|]. split; [now right|].
        split; [|discriminate]. split; [discriminate|].
        intros [_ [? ?]]. discriminate.
  - destruct (map_get (VStr referenceId) store) as [cached|]; simpl.
    + split; [reflexivity|]. split; [now left|].
      split; [split; eauto|]. now intros ? _ [= <-].
    + split; [reflexivity|]. split; [now right|].
      split; [|discriminate]. split; [discriminate|].
      intros [? ?]. discriminate.
Qed.

End OrderExtras.

(** *** The phone formatter on its own output and on the digits *)

Section PhoneExtras.
Import PhoneFormatter.

Lemma digits_only_fixed s : all_digits s = true -> digits_only s = s.
Proof.
  induction s as [|c s IH]; simpl; [reflexivity|].
  intros H. apply andb_prop in H. destruct H as [Hc Hs].
  rewrite Hc. now rewrite IH.
Qed.

Lemma digit_is_no_plus c : is_digit c = true -> Ascii.eqb c "+" = false.
Proof.
  intros Hc. destruct (Ascii.eqb c "+") eqn:E; [|reflexivity].
  apply Ascii.eqb_eq in E. subst c. discriminate.
Qed.

(** No plus sign is left once the non-digits are gone. *)
Lemma strip_leading_plus_digits s :
  all_digits s = true -> strip_leading_plus s = s.
Proof.
  destruct s as [|c s]; simpl; [reflexivity|].
  intros H. apply andb_prop in H. destruct H as [Hc _].
  now rewrite (digit_is_no_plus c Hc).
Qed.

Lemma prefix_231_head s :
  String.prefix "231" s = true -> exists s', s = String "2" s'.
Proof.
  destruct s as [|c s]; [discriminate|]. cbn [String.prefix].
  destruct (Ascii.ascii_dec "2" c) as [<-|]; [eauto|discriminate].
Qed.

Lemma normalise_digits s :
  normalise s
  = let d := strip_leading_zeros (digits_only s) in
    if String.prefix "231" d then d else "231" ++ d.
Proof.
  unfold normalise.
  now rewrite (strip_leading_plus_digits _ (digits_only_all_digits s)).
Qed.

Lemma length_231_app d : String.length ("231" ++ d) = S (S (S (String.length d))).
Proof. reflexivity. Qed.

(** X16.  A number is accepted exactly when, after everything but the
    digits and then the leading zeros are dropped, it has 12 digits that
    start with 231, or 9 digits that do not; the result is those digits,
    with 231 put in front in the second case.  So a 9-digit local number
    that itself begins with 231 is rejected, and the empty string is. *)
Theorem phone_accepted_iff (s p : string) :
  let d := strip_leading_zeros (digits_only s) in
  formatLiberianPhone (VStr s) = Returned (PhoneOk p)
  <-> (String.prefix "231" d = true /\ String.length d = 12%nat /\ p = d)
      \/ (String.prefix "231" d = false /\ String.length d = 9%nat
          /\ p = "231" ++ d).
Proof.
  intros d. unfold formatLiberianPhone.
  destruct s as [|c s].
  - simpl. split; [discriminate|].
    intros [(H & _)|(_ & H & _)]; discriminate.
  - change (truthy (VStr (String c s))) with true. cbn [negb].
    rewrite normalise_digits. fold d. cbv zeta. unfold check_length.
    destruct (String.prefix "231" d) eqn:Hp.
    + destruct (Nat.eqb (String.length d) 12) eqn:Hl; cbn [negb].
      * apply Nat.eqb_eq in Hl. split.
        -- intros [= <-]. left. auto.
        -- intros [(_ & _ & ->)|(H & _)]; [reflexivity|discriminate].
      * apply Nat.eqb_neq in Hl. split; [discriminate|].
        intros [(_ & H & _)|(H & _)]; [contradiction|discriminate].
    + rewrite length_231_app.
      destruct (Nat.eqb (S (S (S (String.length d)))) 12) eqn:Hl; cbn [negb].
      * apply Nat.eqb_eq in Hl. split.
        -- intros [= <-]. right. repeat split. lia.
        -- intros [(H & _)|(_ & _ & ->)]; [discriminate|reflexivity].
      * apply Nat.eqb_neq in Hl. split; [discriminate|].
        intros [(H & _)|(_ & H & _)]; [discriminate|]. lia.
Qed.

(** X17.  An accepted number is a fixed point: formatting the formatted
    number returns it unchanged. *)
Theorem formatted_phone_is_stable (s p : string) :
  formatLiberianPhone (VStr s) = Returned (PhoneOk p) ->
  formatLiberianPhone (VStr p) = Returned (PhoneOk p).
Proof.
  unfold formatLiberianPhone.
  destruct (truthy (VStr s)); cbn [negb]; [|discriminate].
  unfold check_length.
  destruct (Nat.eqb (String.length (normalise s)) 12) eqn:Hl; cbn [negb];
    [|discriminate].
  intros [= <-].
  pose proof (normalise_all_digits s) as Hd.
  pose proof (normalise_prefix s) as Hp.
  set (p := normalise s) in *.
  destruct (prefix_231_head p Hp) as [p' Ep].
  assert (Hn : normalise p = p).
  { rewrite normalise_digits, (digits_only_fixed p Hd). cbv zeta.
    rewrite Ep. cbn [strip_leading_zeros Ascii.eqb Bool.eqb]. rewrite <- Ep.
    now rewrite Hp. }
  rewrite Hn, Hl. rewrite Ep at 1. reflexivity.
Qed.

Lemma formatted_phone_is_stable_witness :
  formatLiberianPhone (VStr "231770123456")
  = Returned (PhoneOk "231770123456").
Proof.
  apply (formatted_phone_is_stable "0770-123-456" "231770123456").
  reflexivity.
Defined.

End PhoneExtras.

(** *** The access token and its cache *)

Section TokenExtras.
Import AccessToken.

Lemma getAccessToken_stale x t c :
  stale t c = true -> getAccessToken x t c = refresh x c.
Proof.
  unfold stale, getAccessToken.
  destruct (cachedToken c) as [token|]; [|reflexivity].
  destruct (tokenExpiry c) as [expiry|]; [|reflexivity].
  destruct (truthy (VStr token) && before t expiry); [discriminate|reflexivity].
Qed.

Lemma bearer_truthy token : bearer token -> truthy (VStr token) = true.
Proof.
  unfold bearer. destruct token; [discriminate|reflexivity].
Qed.

Lemma bearer_prefixed s : bearer ("Bearer " ++ s).
Proof. unfold bearer. simpl. now destruct s. Qed.

(** X18.  A token is handed out again exactly until five minutes before
    it expires.  When a call has to ask the token endpoint and the reply,
    received at [received_at], carries a token and the lifetime
    [expires_in] (3600 when that is missing or falsy) of [e] seconds, the
    call returns the token with Bearer in front, and every later call
    returns that same token without asking the endpoint while the time is
    before [received_at + e * 1000 - 300000] milliseconds, and asks the
    endpoint again from then on.  So a token that lives five minutes or
    less is never handed out twice. *)
Theorem token_reused_until_expiry x t0 c data received_at e :
  stale t0 c = true ->
  token_reply x = Replied data received_at ->
  truthy (optional_member data "access_token") = true ->
  to_number x (optional_member data "expires_in" <||> VNum 3600) = Some e ->
  (Z.abs (received_at + e * 1000 - 300000) <= 8640000000000000)%Z ->
  let token := "Bearer " ++ to_string (optional_member data "access_token") in
  let c' := (getAccessToken x t0 c).1 in
  (getAccessToken x t0 c).2 = Returned token
  /\ forall x' t,
       getAccessToken x' t c'
       = if (t <? received_at + e * 1000 - 300000)%Z
         then (c', Returned token)
         else refresh x' c'.
Proof.
  intros Hstale Hreply Htok He Hrange token c'. subst c'.
  rewrite (getAccessToken_stale x t0 c Hstale).
  unfold refresh. rewrite Hreply, Htok, He. cbn [negb fst snd fmap option_fmap option_map].
  fold token. split; [reflexivity|].
  intros x' t. unfold getAccessToken. cbn [cachedToken tokenExpiry].
  rewrite (bearer_truthy token (bearer_prefixed _)).
  unfold new_Date.
  destruct (Z.abs (received_at + e * 1000 - 300000) <=? 8640000000000000)%Z
    eqn:Hle; [|apply Z.leb_gt in Hle; lia].
  reflexivity.
Qed.

Lemma token_reused_until_expiry_witness :
  let c' := (getAccessToken hour_token 36000000 (clearTokenCache empty_cache)).1 in
  getAccessToken token_endpoint_down 39299999 c' = (c', Returned "Bearer abc")
  /\ getAccessToken token_endpoint_down 39300000 c'
     = (c', Raised "Failed to get access token").
Proof.
  destruct (token_reused_until_expiry hour_token 36000000
              (clearTokenCache empty_cache)
              (VObj (assign ∅ [("access_token", VStr "abc");
                               ("expires_in", VNum 3600)]))
              36000000 3600 eq_refl eq_refl eq_refl eq_refl)
    as [_ H].
  - vm_compute. discriminate.
  - split.
    + exact (H token_endpoint_down 39299999%Z).
    + exact (H token_endpoint_down 39300000%Z).
Defined.

(** X19.  When a reply carries a token but its lifetime is no number, the
    token is returned once and never again: every later call, at whatever
    time, asks the token endpoint anew. *)
Theorem unreadable_lifetime_disables_cache x t0 c data received_at :
  stale t0 c = true ->
  token_reply x = Replied data received_at ->
  truthy (optional_member data "access_token") = true ->
  to_number x (optional_member data "expires_in" <||> VNum 3600) = None ->
  let c' := (getAccessToken x t0 c).1 in
  (getAccessToken x t0 c).2
  = Returned ("Bearer " ++ to_string (optional_member data "access_token"))
  /\ forall x' t, getAccessToken x' t c' = refresh x' c'.
Proof.
  intros Hstale Hreply Htok He c'. subst c'.
  rewrite (getAccessToken_stale x t0 c Hstale).
  unfold refresh. rewrite Hreply, Htok, He. cbn [negb fst snd fmap option_fmap option_map].
  split; [reflexivity|].
  intros x' t. unfold getAccessToken. cbn [cachedToken tokenExpiry new_Date before].
  now rewrite Bool.andb_false_r.
Qed.

Lemma unreadable_lifetime_disables_cache_witness :
  let c' := (getAccessToken unreadable_expiry 36000000 empty_cache).1 in
  getAccessToken token_endpoint_down 36000001 c'
  = (c', Raised "Failed to get access token").
Proof.
  destruct (unreadable_lifetime_disables_cache unreadable_expiry 36000000
              empty_cache
              (VObj (assign ∅ [("access_token", VStr "abc");
                               ("expires_in", VStr "soon")]))
              36000000 eq_refl eq_refl eq_refl eq_refl)
    as [_ H].
  exact (H token_endpoint_down 36000001%Z).
Defined.

(** X20.  Whatever the cache holds and however the token endpoint
    answers, a call that fails raises the one message [Failed to get
    access token] and leaves the cache as it was, and a call that succeeds
    leaves its result as the cached token.  As long as the cached token is
    a bearer token, which it is in the empty cache, every token returned
    starts with Bearer and the cache keeps that property. *)
Theorem token_call_outcomes x t c :
  bearer_cache c ->
  match getAccessToken x t c with
  | (c', Returned token) =>
      cachedToken c' = Some token /\ bearer token /\ bearer_cache c'
  | (c', Raised e) => c' = c /\ e = "Failed to get access token"
  end.
Proof.
  intros Hc.
  assert (Hrefresh :
    match refresh x c with
    | (c', Returned token) =>
        cachedToken c' = Some token /\ bearer token /\ bearer_cache c'
    | (c', Raised e) => c' = c /\ e = "Failed to get access token"
    end).
  { unfold refresh. destruct (token_reply x) as [data r|]; [|auto].
    destruct (truthy (optional_member data "access_token")); cbn [negb]; [|auto].
    split; [reflexivity|]. split; [apply bearer_prefixed|].
    intros token [= <-]. apply bearer_prefixed. }
  unfold getAccessToken.
  destruct (cachedToken c) as [token|] eqn:Htoken; [|exact Hrefresh].
  destruct (tokenExpiry c) as [expiry|]; [|exact Hrefresh].
  destruct (truthy (VStr token) && before t expiry); [|exact Hrefresh].
  split; [exact Htoken|]. split; [exact (Hc token Htoken)|exact Hc].
Qed.

Lemma token_call_outcomes_witness :
  bearer_cache empty_cache
  /\ match getAccessToken hour_token 36000000 empty_cache with
     | (c', Returned token) =>
         cachedToken c' = Some token /\ bearer token /\ bearer_cache c'
     | (c', Raised e) => c' = empty_cache /\ e = "Failed to get access token"
     end.
Proof.
  assert (H : bearer_cache empty_cache) by (intros token; discriminate).
  split; [exact H|].
  exact (token_call_outcomes hour_token 36000000%Z empty_cache H).
Defined.

End TokenExtras.

(** *** POST /pay *)

Section PayExtras.
Import PayRoute.

Lemma validated_amount reqbody formattedPhone :
  PaymentRoutes.pay_validation reqbody = inr formattedPhone ->
  truthy (prop reqbody "amount") = true.
Proof.
  unfold PaymentRoutes.pay_validation.
  destruct (truthy (prop reqbody "phone")); [|discriminate].
  destruct (truthy (prop reqbody "amount")); [reflexivity|discriminate].
Qed.

(** A validated amount has a [toString], so the request body is built. *)
Lemma requestToPay_accepted env x reqbody formattedPhone :
  PaymentRoutes.pay_validation reqbody = inr formattedPhone ->
  accepted x = true ->
  requestToPay env x (PaymentRoutes.pay_details env reqbody formattedPhone)
  = inr (momo_requesttopay env (uuid x)).
Proof.
  intros Hv Hacc. apply validated_amount in Hv.
  unfold requestToPay, MomoService.requestBody, toString, accepted in *.
  cbn [amount PaymentRoutes.pay_details].
  destruct (prop reqbody "amount"); try discriminate;
    (destruct (request_to_pay x) as [code data|]; [|discriminate];
     now rewrite Hacc).
Qed.

Lemma requestToPay_refused env x d :
  accepted x = false -> exists res, requestToPay env x d = inl res.
Proof.
  unfold requestToPay, accepted. intros Hacc.
  destruct (MomoService.requestBody d); [|eauto].
  destruct (request_to_pay x) as [s data|]; [|eauto].
  rewrite Hacc. eauto.
Qed.

Ltac pay_unfold :=
  unfold pay, try_catch, pay_try;
  unfold bind, connected, await_supabase, store_set,
    PaymentRoutes.getAccessToken, ret, throw.

(** The request that went through. *)
Lemma pay_sent env x reqbody formattedPhone w token :
  PaymentRoutes.pay_validation reqbody = inr formattedPhone ->
  store_responds env w ->
  access_token env = Some token ->
  accepted x = true ->
  pay env x reqbody w = paid env x reqbody formattedPhone w.
Proof.
  intros Hv Hok Htok Hacc.
  pose proof (requestToPay_accepted env x reqbody formattedPhone Hv Hacc) as Hreq.
  unfold paid, new_order. pay_unfold. rewrite Hv.
  unfold store_responds in Hok.
  destruct w as [store [t|] events]; cbn [supabase transactionStore fired] in *.
  - destruct Hok as [Hok|Hok]; [|discriminate]. rewrite Hok.
    cbn [andb].
    destruct (truthy (prop reqbody "userInfo")
              && truthy (prop reqbody "deliveryInfo")) eqn:Hinfo.
    + unfold insert_order.
      destruct (inserted x _) as [o|]; cbn [with_table supabase transactionStore fired];
        rewrite Htok, Hreq; cbn [with_table supabase transactionStore fired];
        try rewrite Hok; reflexivity.
    + rewrite Htok, Hreq. reflexivity.
  - cbn [andb]. rewrite Htok, Hreq. reflexivity.
Qed.

(** X21.  A request that passes validation, gets a token and is taken by
    the payment network is answered 200 with the new reference, and is
    cached under that reference: the entry carries the reference, the order
    id of the answer, the creation time, and as status the one the network
    reports right away or else PENDING.  No other cache entry changes,
    every cached record stays under its own referenceId, and nothing is
    notified. *)
Theorem pay_caches_transaction env x reqbody formattedPhone w token :
  PaymentRoutes.pay_validation reqbody = inr formattedPhone ->
  store_responds env w ->
  access_token env = Some token ->
  accepted x = true ->
  let w' := (pay env x reqbody w).1 in
  let res := (pay env x reqbody w).2 in
  status_code res = 200%Z
  /\ prop (body res) "referenceId" = VStr (uuid x)
  /\ (exists entry,
        map_get (VStr (uuid x)) (transactionStore w') = Some entry
        /\ prop entry "referenceId" = VStr (uuid x)
        /\ prop entry "orderId" = prop (body res) "orderId"
        /\ prop entry "timestamp" = VNum (date_now env)
        /\ prop entry "status"
           = AccessToken.optional_member
               (momo_requesttopay env (uuid x)) "status"
             <||> VStr "PENDING")
  /\ (forall k, k <> VStr (uuid x) ->
        map_get k (transactionStore w') = map_get k (transactionStore w))
  /\ (keyed (transactionStore w) -> keyed (transactionStore w'))
  /\ fired w' = fired w.
Proof.
  intros Hv Hok Htok Hacc w' res. subst w' res.
  rewrite (pay_sent env x reqbody formattedPhone w token Hv Hok Htok Hacc).
  unfold paid. cbn [fst snd transactionStore fired].
  split; [reflexivity|].
  split; [unfold payment_sent, prop; simpl; now simplify_map_eq|].
  split; [|split; [|split; [|reflexivity]]].
  - eexists. split; [apply map_get_set_same, String.eqb_refl|].
    unfold pending_entry, payment_sent, prop; simpl.
    repeat split; now simplify_map_eq.
  - intros k Hk. apply map_get_set_other. congruence.
  - intros Hkeyed. apply keyed_map_set; [exact Hkeyed|].
    unfold pending_entry, prop; simpl. now simplify_map_eq.
Qed.

Lemma pay_caches_transaction_witness :
  let w' := (pay default_env accepting checkout_body connected_world).1 in
  exists entry,
    map_get (VStr "R7") (transactionStore w') = Some entry
    /\ prop entry "orderId" = VNum 21
    /\ prop entry "status" = VStr "PENDING".
Proof.
  destruct (pay_caches_transaction default_env accepting checkout_body
              "231770123456" connected_world "Bearer token"
              eq_refl (or_introl eq_refl) eq_refl eq_refl)
    as (_ & _ & (entry & H1 & _ & H3 & _ & H5) & _).
  exists entry. split; [exact H1|]. split.
  - rewrite H3. reflexivity.
  - rewrite H5. reflexivity.
Defined.

Lemma set_reference_untouched referenceId id t :
  List.Forall (fun r => col_is "id" id r = false) t ->
  set_reference referenceId id t = t.
Proof.
  unfold set_reference.
  induction 1 as [|r t Hr _ IH]; cbn [List.map]; [reflexivity|].
  now rewrite Hr, IH.
Qed.

(** X22.  When the request goes through and the store has returned the
    new order with an id no earlier order has, the order is appended to
    the table with the new reference in [reference_id] and every other
    column as the store returned it, the earlier orders are untouched, and
    the answer carries the order's id. *)
Theorem pay_links_new_order env x reqbody formattedPhone w token t o :
  PaymentRoutes.pay_validation reqbody = inr formattedPhone ->
  supabase_rejects env = false ->
  access_token env = Some token ->
  accepted x = true ->
  supabase w = Some t ->
  new_order env x reqbody formattedPhone w = Some o ->
  col_is "id" (prop o "id") o = true ->
  List.Forall (fun r => col_is "id" (prop o "id") r = false) t ->
  let w' := (pay env x reqbody w).1 in
  let res := (pay env x reqbody w).2 in
  prop (body res) "orderId" = prop o "id"
  /\ exists o',
       supabase w' = Some (t ++ [o'])%list
       /\ o' !! "reference_id" = Some (VStr (uuid x))
       /\ forall c, c <> "reference_id" -> o' !! c = o !! c.
Proof.
  intros Hv Hr Htok Hacc Ht Ho Hid Hfresh w' res. subst w' res.
  rewrite (pay_sent env x reqbody formattedPhone w token Hv
             (or_introl Hr) Htok Hacc).
  unfold paid. rewrite Ho, Ht. cbn [fst snd supabase fmap option_fmap option_map].
  split; [unfold payment_sent, prop; simpl; now simplify_map_eq|].
  eexists. split.
  - unfold set_reference. rewrite List.map_app.
    fold (set_reference (uuid x) (prop o "id") t).
    rewrite (set_reference_untouched _ _ _ Hfresh). simpl. rewrite Hid.
    reflexivity.
  - split.
    + apply patch_lookup_written; reflexivity.
    + intros c Hc. apply patch_lookup_other.
      unfold assign. simpl. now rewrite lookup_insert_ne by congruence.
Qed.

Lemma pay_links_new_order_witness :
  let w' := (pay default_env accepting checkout_body connected_world).1 in
  exists o',
    supabase w' = Some [o']
    /\ o' !! "reference_id" = Some (VStr "R7")
    /\ o' !! "payment_status" = Some (VStr "PENDING").
Proof.
  destruct (pay_links_new_order default_env accepting checkout_body
              "231770123456" connected_world "Bearer token" []
              (<["id" := VNum 21]>
                 (order_columns default_env accepting checkout_body
                    "231770123456"))
              eq_refl eq_refl eq_refl eq_refl eq_refl eq_refl eq_refl
              (List.Forall_nil _))
    as (_ & o' & H1 & H2 & H3).
  exists o'. split; [exact H1|]. split; [exact H2|].
  rewrite H3 by discriminate. reflexivity.
Defined.

(** X23.  Pay, then status.  After a request that went through, GET
    /status for the new reference never answers 404, and answers 200
    whenever the store responds and a token is to be had. *)
Theorem status_after_pay env env' x reqbody formattedPhone w token :
  PaymentRoutes.pay_validation reqbody = inr formattedPhone ->
  store_responds env w ->
  access_token env = Some token ->
  accepted x = true ->
  let w' := (pay env x reqbody w).1 in
  let answer := PaymentRoutes.status env' (uuid x) w' in
  status_code answer.2 <> 404%Z
  /\ (supabase_rejects env' = false -> access_token env' <> None ->
      status_code answer.2 = 200%Z).
Proof.
  intros Hv Hok Htok Hacc w' answer. subst answer.
  rewrite status_code_of.
  assert (Hentry : exists entry,
             map_get (VStr (uuid x)) (transactionStore w') = Some entry).
  { subst w'.
    rewrite (pay_sent env x reqbody formattedPhone w token Hv Hok Htok Hacc).
    unfold paid. cbn [fst transactionStore]. eexists.
    apply map_get_set_same, String.eqb_refl. }
  destruct Hentry as [entry ->].
  split.
  - destruct (answered_from_store env' w' (uuid x)), (access_token env'),
      (truthy (momo_requesttopay env' (uuid x))); discriminate.
  - intros _ Hsome.
    destruct (answered_from_store env' w' (uuid x)), (access_token env'),
      (truthy (momo_requesttopay env' (uuid x))); congruence.
Qed.

Lemma status_after_pay_witness :
  let w' := (pay default_env accepting checkout_body connected_world).1 in
  status_code (PaymentRoutes.status default_env "R7" w').2 = 200%Z.
Proof.
  destruct (status_after_pay default_env default_env accepting checkout_body
              "231770123456" connected_world "Bearer token"
              eq_refl (or_introl eq_refl) eq_refl eq_refl)
    as [_ H].
  apply H; [reflexivity|discriminate].
Defined.

(** X24.  Pay, then callback.  When the SUCCESSFUL callback for the new
    reference is processed after a request that went through, the cached
    record becomes SUCCESSFUL and still carries the order id and the
    creation time POST /pay stored. *)
Theorem callback_after_pay_keeps_order
  env env' x reqbody formattedPhone w token req :
  PaymentRoutes.pay_validation reqbody = inr formattedPhone ->
  store_responds env w ->
  access_token env = Some token ->
  accepted x = true ->
  CallbackHandler.transactionId req = VStr (uuid x) ->
  CallbackHandler.no_identifier req = false ->
  CallbackHandler.signature_gate env' req = Returned true ->
  supabase_rejects env' = false ->
  CallbackHandler.status_of (CallbackHandler.req_body req)
  = VStr "SUCCESSFUL" ->
  let w' := (pay env x reqbody w).1 in
  let res := (pay env x reqbody w).2 in
  let w'' := (CallbackHandler.callback env' req w').1 in
  exists stored,
    map_get (VStr (uuid x)) (transactionStore w'') = Some stored
    /\ prop stored "status" = VStr "SUCCESSFUL"
    /\ prop stored "orderId" = prop (body res) "orderId"
    /\ prop stored "timestamp" = VNum (date_now env).
Proof.
  intros Hv Hok Htok Hacc Href Hid Hgate Hr Hs w' res w''.
  assert (Hentry :
    map_get (VStr (uuid x)) (transactionStore w')
    = Some (pending_entry env x (new_order env x reqbody formattedPhone w)
              (momo_requesttopay env (uuid x)))
    /\ res = payment_sent x (new_order env x reqbody formattedPhone w)
               (momo_requesttopay env (uuid x))).
  { subst w' res.
    rewrite (pay_sent env x reqbody formattedPhone w token Hv Hok Htok Hacc).
    unfold paid. cbn [fst snd transactionStore].
    split; [apply map_get_set_same, String.eqb_refl|reflexivity]. }
  destruct Hentry as [Hentry ->].
  destruct (successful_callback_world env' req w' Hid Hgate (or_introl Hr) Hs)
    as (found & order0 & Hfind & Hrun).
  rewrite <- Href in Hentry.
  rewrite (find_transaction_cached env' req w' _ Hentry) in Hfind.
  injection Hfind as <-.
  cbv zeta in Hrun. subst w''. rewrite Hrun. cbn [fst transactionStore].
  rewrite <- Href.
  eexists. split; [apply map_get_set_same; rewrite Href; apply String.eqb_refl|].
  split; [now rewrite prop_insert_ne, prop_insert_eq by discriminate|].
  unfold prop.
  rewrite !lookup_insert_ne by discriminate.
  rewrite !merge_callback_other
    by (unfold callback_field_names; simpl; intuition discriminate).
  unfold pending_entry, payment_sent; simpl.
  split; now simplify_map_eq.
Qed.

Lemma callback_after_pay_keeps_order_witness :
  let w' := (pay default_env accepting checkout_body connected_world).1 in
  let w'' := (CallbackHandler.callback default_env checkout_callback w').1 in
  exists stored,
    map_get (VStr "R7") (transactionStore w'') = Some stored
    /\ prop stored "status" = VStr "SUCCESSFUL"
    /\ prop stored "orderId" = VNum 21.
Proof.
  destruct (callback_after_pay_keeps_order default_env default_env accepting
              checkout_body "231770123456" connected_world "Bearer token"
              checkout_callback
              eq_refl (or_introl eq_refl) eq_refl eq_refl eq_refl eq_refl
              eq_refl eq_refl eq_refl)
    as (stored & H1 & H2 & H3 & _).
  exists stored. split; [exact H1|]. split; [exact H2|].
  rewrite H3. reflexivity.
Defined.

(** X25.  When the order has been created and then no token is to be had
    or the payment network does not take the request, the order stays in
    the table as the store returned it, without ever getting a reference,
    and the cache is as it was. *)
Theorem failed_pay_leaves_unlinked_order env x reqbody formattedPhone w t o :
  PaymentRoutes.pay_validation reqbody = inr formattedPhone ->
  supabase_rejects env = false ->
  supabase w = Some t ->
  new_order env x reqbody formattedPhone w = Some o ->
  access_token env = None \/ accepted x = false ->
  let w' := (pay env x reqbody w).1 in
  supabase w' = Some (t ++ [o])%list
  /\ transactionStore w' = transactionStore w
  /\ fired w' = fired w.
Proof.
  intros Hv Hr Ht Ho Hfail w'. subst w'.
  unfold new_order in Ho. rewrite Ht in Ho.
  pay_unfold. rewrite Hv.
  destruct w as [store [t0|] events]; cbn [supabase transactionStore fired] in *;
    [|discriminate].
  injection Ht as ->. rewrite Hr. cbn [andb].
  destruct (truthy (prop reqbody "userInfo")
            && truthy (prop reqbody "deliveryInfo")); [|discriminate].
  unfold insert_order. rewrite Ho.
  cbn [with_table supabase transactionStore fired].
  destruct (access_token env) as [token|].
  - destruct Hfail as [Hfail|Hfail]; [discriminate|].
    destruct (requestToPay_refused env x
                (PaymentRoutes.pay_details env reqbody formattedPhone) Hfail)
      as [res ->].
    cbn. auto.
  - cbn. auto.
Qed.

Lemma failed_pay_leaves_unlinked_order_witness :
  let w' := (pay default_env refusing checkout_body connected_world).1 in
  exists o,
    supabase w' = Some [o]
    /\ prop o "reference_id" = VNull
    /\ prop o "payment_status" = VStr "PENDING"
    /\ transactionStore w' = [].
Proof.
  destruct (failed_pay_leaves_unlinked_order default_env refusing
              checkout_body "231770123456" connected_world []
              (<["id" := VNum 21]>
                 (order_columns default_env refusing checkout_body
                    "231770123456"))
              eq_refl eq_refl eq_refl eq_refl (or_intror eq_refl))
    as (H1 & H2 & _).
  eexists. split; [exact H1|]. split; [reflexivity|].
  split; [reflexivity|exact H2].
Defined.

(** X26.  A request that fails validation changes nothing and is
    answered 400, except that a phone that is truthy but no string (a JSON
    number, say) with an amount present is answered 500. *)
Theorem rejected_pay_changes_nothing env x reqbody w res :
  PaymentRoutes.pay_validation reqbody = inl res ->
  pay env x reqbody w = (w, res)
  /\ (status_code res = 400%Z \/ status_code res = 500%Z)
  /\ (status_code res = 500%Z <->
      truthy (prop reqbody "phone") = true
      /\ truthy (prop reqbody "amount") = true
      /\ forall s, prop reqbody "phone" <> VStr s).
Proof.
  intros Hv. split; [unfold pay, try_catch, pay_try; now rewrite Hv|].
  revert Hv. unfold PaymentRoutes.pay_validation.
  destruct (truthy (prop reqbody "phone")) eqn:Hp; cbn [negb orb].
  2: { intros [= <-]. split; [now left|].
       split; [discriminate|]. now intros [? _]. }
  destruct (truthy (prop reqbody "amount")) eqn:Ha; cbn [negb].
  2: { intros [= <-]. split; [now left|].
       split; [discriminate|]. now intros (_ & ? & _). }
  unfold PhoneFormatter.formatLiberianPhone. rewrite Hp. cbn [negb].
  destruct (prop reqbody "phone") as [| |b|n|s|o] eqn:Ephone;
    try discriminate Hp.
  - intros [= <-]. split; [now right|]. split; [|reflexivity].
    intros _. repeat split. discriminate.
  - intros [= <-]. split; [now right|]. split; [|reflexivity].
    intros _. repeat split. discriminate.
  - unfold PhoneFormatter.check_length.
    destruct (negb _); [|discriminate].
    intros [= <-]. split; [now left|]. split; [discriminate|].
    intros (_ & _ & H). now contradiction (H s).
  - intros [= <-]. split; [now right|]. split; [|reflexivity].
    intros _. repeat split. discriminate.
Qed.

Lemma rejected_pay_changes_nothing_witness :
  let reqbody :=
    assign ∅ [("phone", VNum 231770123456); ("amount", VNum 100)] in
  exists res,
    pay default_env accepting reqbody connected_world = (connected_world, res)
    /\ status_code res = 500%Z.
Proof.
  intros reqbody.
  exists (PaymentRoutes.payment_error "phone.replace is not a function").
  destruct (rejected_pay_changes_nothing default_env accepting reqbody
              connected_world
              (PaymentRoutes.payment_error "phone.replace is not a function")
              eq_refl)
    as (H & _).
  split; [exact H|reflexivity].
Defined.

End PayExtras.

(** *** The balance requests *)

Section BalanceExtras.
Import Balance.

(** X27.  GET /balance hands the token to [getAccountBalance] in the place
    of the currency.  So for every token the request it sends has the
    token at the end of the URL where the currency belongs, the default
    LRD is never used, and the Authorization header is undefined; GET
    /test-credentials, in contrast, sends the token as Authorization. *)
Theorem balance_request_misplaces_token (cfg : config) (token : string) :
  url (balance_request cfg token)
  = MOMO_BASE_URL cfg ++ "/collection/v1_0/account/balance/" ++ token
  /\ (forall v, In ("Authorization", v) (headers (balance_request cfg token))
                <-> v = VUndefined)
  /\ (forall v,
        In ("Authorization", v) (headers (test_credentials_request cfg token))
        <-> v = VStr token).
Proof.
  unfold balance_request, test_credentials_request, getAccountBalance,
    testAccountBalance. cbn [url headers to_string].
  split; [reflexivity|].
  split; intros v; (split; [|intros ->; left; reflexivity]);
    (intros [H|[H|[H|[]]]]; [now injection H|discriminate H|discriminate H]).
Qed.

End BalanceExtras.
